(** * Xtatic session planner: the planning core of [src/App.jsx]

    A shallow embedding of the adaptive plan generator ([deriveSignals],
    [makePlanMarkdown]), the persistence pair ([loadRuns], [saveRuns]) and
    the event handlers of the [App] component ([generateNextPlan],
    [submitFeedbackAndGenerate], [saveProfile], [newClassRun], [deleteRun]),
    followed by the properties of the specification.

    Conventions of the embedding.
    - A JavaScript number is held as the rational it is ([Q]).  Numbers
      are binary64 values; a rational that is not one, such as the decimal
      4.1, stands for the binary64 value nearest to it, which [Number_of]
      gives.  The products of the agenda and the digits of a number in a
      text are computed on that value, as IEEE 754 and the host do, overflow
      included ([number], [Number_multiply], [ToString]); comparisons are
      exact.
    - A JavaScript string is a [string] holding the UTF-8 bytes of the
      text; lengths and positions are counted in UTF-16 code units
      ([utf16_length], [slice0]).
    - [x?: T], [T|null] and [undefined] are [option].
    - A React handler runs against the state captured by the render that
      created it and only queues its updates; [commit] applies the queue. *)

From Stdlib Require Import QArith Qround Qreduction Qabs Qpower Ascii.
From Stdlib Require Import Lqa.
From stdpp Require Import base option list strings numbers.

Local Open Scope Z_scope.

(** ** JavaScript primitives *)

Module JS.

(** *** Numbers *)

(** [x || d] on numbers: zero is the only falsy number of the model. *)
Definition num_or (x d : Q) : Q := if Qeq_bool x 0 then d else x.

Definition num_lt (x y : Q) : bool := negb (Qle_bool y x).

(** [Math.max(a, b)]. *)
Definition Math_max (a b : Q) : Q := if num_lt a b then b else a.

(** The nearest integer, a tie goes up. *)
Definition round_half_up (x : Q) : Z := Qfloor (x + (1 # 2)).

Definition of_nat (n : nat) : Q := inject_Z (Z.of_nat n).

(** *** Decimal digits *)

Definition digit_char (d : N) : ascii := ascii_of_N (48 + d).

Definition is_digit (c : ascii) : bool :=
  let n := N_of_ascii c in ((48 <=? n) && (n <=? 57))%N.

Definition digit_val (c : ascii) : N := (N_of_ascii c - 48)%N.

(** The digits of [n] in front of [acc], most significant first. *)
Fixpoint N_digits (fuel : nat) (n : N) (acc : string) : string :=
  match fuel with
  | O => acc
  | S k =>
      let acc' := String (digit_char (n mod 10)) acc in
      if (n <? 10)%N then acc' else N_digits k (n / 10) acc'
  end.

Definition N_toString (n : N) : string :=
  N_digits (S (N.to_nat (N.size n))) n "".

Definition Z_toString (z : Z) : string :=
  (if z <? 0 then "-" else "") +:+ N_toString (Z.abs_N z).

Definition nat_toString (n : nat) : string := N_toString (N.of_nat n).

(** The fractional digits of [r / d] for [0 <= r < d], by long division. *)
Fixpoint frac_digits (fuel : nat) (r d : N) : string :=
  match fuel with
  | O => ""
  | S k =>
      if (r =? 0)%N then ""
      else String (digit_char (10 * r / d)) (frac_digits k (10 * r mod d) d)
  end.

(** What is left of [r] once [frac_digits] stops. *)
Fixpoint frac_rest (fuel : nat) (r d : N) : N :=
  match fuel with
  | O => r
  | S k => if (r =? 0)%N then 0%N else frac_rest k (10 * r mod d) d
  end.

Definition frac_fuel (d : positive) : nat := Pos.size_nat d.

(** The decimal [q] written out in full: sign, integer part and, when
    there is one, the fractional part.  This is the text [JSON.stringify]
    gives a number that the host prints in plain notation with the digits
    it was entered with (up to 15 significant digits, between [1e-6] and
    [1e21]); [ToString] below gives the host's digits for every Number. *)
Definition Number_toString (q : Q) : string :=
  let a := Z.abs_N (Qnum q) in
  let d := Npos (Qden q) in
  let r := (a mod d)%N in
  (if Qnum q <? 0 then "-" else "") +:+
  N_toString (a / d) +:+
  (if (r =? 0)%N then "" else "." +:+ frac_digits (frac_fuel (Qden q)) r d).

(** A number the model can store exactly: in lowest terms and with a
    finite decimal expansion. *)
Definition num_ok (q : Q) : bool :=
  (Qnum (Qred q) =? Qnum q) && (Qden (Qred q) =? Qden q)%positive &&
  (frac_rest (frac_fuel (Qden q))
             (Z.abs_N (Qnum q) mod Npos (Qden q)) (Npos (Qden q)) =? 0)%N.

(** *** Binary64

    The Number values: the finite ones are held as the rationals they
    are, in lowest terms; negative zero is not told apart from zero, which
    no text and no test of the program does either. *)

Inductive number := Finite (q : Q) | PosInfinity | NegInfinity | NaN.

Definition pow2 (e : Z) : Q := (2 ^ e)%Q.

Definition pow10 (e : Z) : Q := (10 ^ e)%Q.

(** [floor (log2 a)] for a positive [a]. *)
Definition ilog2 (a : Q) : Z :=
  let e := Z.log2 (Qnum a) - Z.log2 (Zpos (Qden a)) in
  if Qle_bool (pow2 e) a then e else e - 1.

(** The nearest integer, a tie goes to the even one. *)
Definition round_half_even (x : Q) : Z :=
  let f := Qfloor x in
  match (x - inject_Z f ?= 1 # 2)%Q with
  | Lt => f
  | Gt => f + 1
  | Eq => if Z.even f then f else f + 1
  end.

(** The magnitude [a > 0] rounded to 53 significant bits, the exponent no
    lower than that of the subnormal numbers. *)
Definition round53 (a : Q) : Q :=
  let p := Z.max (ilog2 a - 52) (-1074) in
  Qred (inject_Z (round_half_even (a / pow2 p)) * pow2 p).

(** The Number value for [x]: the binary64 value nearest to it, the one
    with the even significand of two equally near, an infinity from
    [2^1024 - 2^970] on.  This is how the host reads a decimal literal
    and how it rounds the exact result of an operation. *)
Definition Number_of (x : Q) : number :=
  let x := Qred x in
  if Qeq_bool x 0 then Finite 0
  else
    let v := round53 (Qabs x) in
    if Qle_bool (pow2 1024) v
    then (if Qnum x <? 0 then NegInfinity else PosInfinity)
    else Finite (if Qnum x <? 0 then - v else v)%Q.

(** [!x] on a Number. *)
Definition falsy_number (x : number) : bool :=
  match x with
  | Finite q => Qeq_bool q 0
  | NaN => true
  | PosInfinity | NegInfinity => false
  end.

(** [x || d] on Numbers. *)
Definition number_or (x d : number) : number :=
  if falsy_number x then d else x.

(** [x * y]. *)
Definition Number_multiply (x y : number) : number :=
  match x, y with
  | Finite a, Finite b => Number_of (a * b)
  | NaN, _ | _, NaN => NaN
  | Finite a, PosInfinity | PosInfinity, Finite a =>
      if Qeq_bool a 0 then NaN
      else if Qnum a <? 0 then NegInfinity else PosInfinity
  | Finite a, NegInfinity | NegInfinity, Finite a =>
      if Qeq_bool a 0 then NaN
      else if Qnum a <? 0 then PosInfinity else NegInfinity
  | PosInfinity, PosInfinity | NegInfinity, NegInfinity => PosInfinity
  | PosInfinity, NegInfinity | NegInfinity, PosInfinity => NegInfinity
  end.

(** [Math.round]: the nearest integer, a tie goes up; the infinities and
    [NaN] are left as they are. *)
Definition Math_round (x : number) : number :=
  match x with
  | Finite q => Finite (inject_Z (round_half_up q))
  | _ => x
  end.

(** The number of decimal digits of a positive integer. *)
Fixpoint ndigits_from (fuel : nat) (l z : Z) : Z :=
  match fuel with
  | O => l
  | S f => if z <? 10 ^ l then l else ndigits_from f (l + 1) z
  end.

Definition ndigits (z : Z) : Z :=
  ndigits_from (S (Z.to_nat (Z.log2 z))) 1 z.

(** [n] with [10^(n-1) <= a < 10^n], for a positive [a]. *)
Definition ilog10 (a : Q) : Z :=
  let e := ndigits (Qnum a) - ndigits (Zpos (Qden a)) in
  if Qle_bool (pow10 e) a then e + 1 else e.

(** The decimal [c] reads as the Number [a]. *)
Definition reads_as (a c : Q) : bool :=
  match Number_of c with
  | Finite v => Qeq_bool v a
  | _ => false
  end.

(** Of the two multiples of [10^(n-k)] around [a], one that reads as [a]:
    the nearer one, the even one of two equally near. *)
Definition pick (a : Q) (n k : Z) : option Z :=
  let u := pow10 (n - k) in
  let lo := Qfloor (a / u) in
  let hi := Qceiling (a / u) in
  let ok s := reads_as a (inject_Z s * u) in
  match ok lo, ok hi with
  | false, false => None
  | true, false => Some lo
  | false, true => Some hi
  | true, true =>
      match (a - inject_Z lo * u ?= inject_Z hi * u - a)%Q with
      | Lt => Some lo
      | Gt => Some hi
      | Eq => Some (if Z.even lo then lo else hi)
      end
  end.

(** The shortest decimal that reads as [a]: [(s, e)] stands for
    [s * 10^e], with [k], [k + 1], ... digits tried in turn.  Seventeen
    digits always read back, so the fuel does not run out. *)
Fixpoint shortest (fuel : nat) (a : Q) (n k : Z) : Z * Z :=
  match fuel with
  | O => (Qfloor (a / pow10 (n - k)), n - k)
  | S f =>
      match pick a n k with
      | Some s => (s, n - k)
      | None => shortest f a n (k + 1)
      end
  end.

(** [10^k] found as a [k]-digit decimal is the one digit 1. *)
Fixpoint strip_zeros (fuel : nat) (s e : Z) : Z * Z :=
  match fuel with
  | O => (s, e)
  | S f =>
      if (0 <? s) && (s mod 10 =? 0) then strip_zeros f (s / 10) (e + 1)
      else (s, e)
  end.

Fixpoint zeros (n : nat) : string :=
  match n with
  | O => ""
  | S k => String "0" (zeros k)
  end.

Definition take_s (n : Z) (s : string) : string :=
  String.substring 0 (Z.to_nat n) s.

Definition drop_s (n : Z) (s : string) : string :=
  String.substring (Z.to_nat n) (String.length s - Z.to_nat n) s.

(** [Number::toString] for a positive finite value: with [k] digits [s]
    and the decimal point after the [n]-th, plain notation for
    [-6 < n <= 21] and the exponent form otherwise. *)
Definition ToString_pos (a : Q) : string :=
  let '(s0, e0) := shortest 17 a (ilog10 a) 1 in
  let '(s, e) := strip_zeros 17 s0 e0 in
  let ds := N_toString (Z.to_N s) in
  let k := ndigits s in
  let n := k + e in
  if (k <=? n) && (n <=? 21) then ds +:+ zeros (Z.to_nat (n - k))
  else if (0 <? n) && (n <=? 21) then take_s n ds +:+ "." +:+ drop_s n ds
  else if (-6 <? n) && (n <=? 0) then "0." +:+ zeros (Z.to_nat (- n)) +:+ ds
  else
    (if k =? 1 then ds else take_s 1 ds +:+ "." +:+ drop_s 1 ds) +:+
    "e" +:+ (if n - 1 <? 0 then "-" else "+") +:+ N_toString (Z.abs_N (n - 1)).

(** [ToString] of a Number, as a template literal applies it. *)
Definition ToString (x : number) : string :=
  match x with
  | NaN => "NaN"
  | PosInfinity => "Infinity"
  | NegInfinity => "-Infinity"
  | Finite q =>
      if Qeq_bool q 0 then "0"
      else if Qnum q <? 0 then "-" +:+ ToString_pos (- q)
      else ToString_pos q
  end.

(** *** Strings

    A string holds the UTF-8 bytes of its text, a lone surrogate its three
    bytes; the host counts UTF-16 code units. *)

(** The code units of the character a byte begins: none for a
    continuation byte, two for the lead byte of a four-byte sequence. *)
Definition units (c : ascii) : nat :=
  let n := N_of_ascii c in
  if (n <? 128)%N then 1
  else if (n <? 192)%N then 0
  else if (n <? 240)%N then 1
  else 2.


Definition payload (s : string) (i : nat) : N :=
  match String.get i s with
  | Some b => (N_of_ascii b mod 64)%N
  | None => 0%N
  end.

(** The first code unit of the character whose four bytes are [c]
    followed by [r]: its high surrogate, as three bytes. *)
Definition high_surrogate (c : ascii) (r : string) : string :=
  let w := ((N_of_ascii c mod 8) * 256 + payload r 0 * 4 + payload r 1 / 16
            - 64)%N in
  let hi := (55296 + w mod 1024)%N in
  String (ascii_of_N 237)
    (String (ascii_of_N (128 + hi / 64 mod 64))
       (String (ascii_of_N (128 + hi mod 64)) "")).

Definition str_or (s d : string) : string :=
  match s with EmptyString => d | _ => s end.

Definition truthy_str (s : string) : bool :=
  match s with EmptyString => false | _ => true end.

(** [Array.prototype.join]. *)
Fixpoint join (sep : string) (l : list string) : string :=
  match l with
  | [] => ""
  | [x] => x
  | x :: rest => x +:+ sep +:+ join sep rest
  end.

(** [s.slice(0, n)]: the first [n] code units.  A cut inside a surrogate
    pair leaves the high surrogate. *)
Fixpoint slice0 (n : nat) (s : string) : string :=
  match s with
  | EmptyString => ""
  | String c r =>
      match units c, n with
      | O, _ => String c (slice0 n r)
      | _, O => ""
      | 1%nat, S k => String c (slice0 k r)
      | _, 1%nat => high_surrogate c r
      | _, S (S k) => String c (slice0 k r)
      end
  end.

(** [s.replaceAll(c, by)] for a one-character pattern. *)
Fixpoint replaceAll (c : ascii) (by_ : string) (s : string) : string :=
  match s with
  | EmptyString => ""
  | String x r =>
      if Ascii.eqb x c then by_ +:+ replaceAll c by_ r
      else String x (replaceAll c by_ r)
  end.

End JS.

Import JS.

(** ** Data model (the JSDoc typedefs of [App.jsx]) *)

Record StudentDetail := {
  name : option string;
  age : option string;
  gender : option string;
  interest : option string;
  passion : option string;
  energy : option string;
  notes : option string;
}.

Record ClassProfile := {
  subject : string;
  expectation : string;
  totalSessions : Q;
  sessionLengthHours : Q;
  numStudents : Q;
  ageRange : string;
  students : list StudentDetail;
}.

Record SessionFeedback := {
  excitedCount : option Q;
  digestible : option string;
  otherInterests : string;
  notGoodEnough : string;
}.

Record SessionRecord := {
  sessionNumber : nat;
  generatedAt : string;
  planMd : string;
  feedback : option SessionFeedback;
}.

Record ClassRun := {
  id : string;
  profile : option ClassProfile;
  sessions : list SessionRecord;
}.

Definition emptyStudent : StudentDetail :=
  {| name := Some ""; age := Some ""; gender := Some ""; interest := Some "";
     passion := Some ""; energy := Some ""; notes := Some "" |}.

Definition newEmptyProfile : ClassProfile :=
  {| subject := ""; expectation := ""; totalSessions := 8%Q;
     sessionLengthHours := 1%Q; numStudents := 8%Q; ageRange := "10–13";
     students := [emptyStudent] |}.

Definition defaultFeedback : SessionFeedback :=
  {| excitedCount := None; digestible := None;
     otherInterests := ""; notGoodEnough := "" |}.

(** ** Signal deriver *)

Record Signals := {
  needsMoreEngagement : bool;
  needsMoreScaffold : bool;
  sessionTheme : string;
  mentionInterests : string;
  levelNote : string;
}.

Definition nl : string := String (ascii_of_nat 10) "".

Definition markdownEscape (s : string) : string :=
  replaceAll ">" "&gt;" (replaceAll "<" "&lt;" s).

(** [profile?.students?.map(s => s.interest).filter(Boolean).join(", ")] *)
Definition studentInterests (profile : option ClassProfile) : string :=
  match profile with
  | None => ""
  | Some p =>
      join ", " (omap (fun s => match interest s with
                                | Some i => if truthy_str i then Some i else None
                                | None => None
                                end) (students p))
  end.

Definition deriveSignals (profile : option ClassProfile)
    (feedback : option SessionFeedback) (sessionNumber : nat) : Signals :=
  let groupSize := num_or (from_option numStudents 0%Q profile) 0%Q in
  let excitement :=
    (default 0%Q (feedback ≫= excitedCount) / Math_max 1 groupSize)%Q in
  let digest :=
    match feedback ≫= digestible with
    | Some d => if truthy_str d then Some d else None
    | None => None
    end in
  {| needsMoreEngagement := num_lt excitement (1 # 2);
     needsMoreScaffold :=
       bool_decide (digest = Some "no") || bool_decide (digest = Some "some");
     sessionTheme := str_or (from_option subject "" profile) "General Learning";
     mentionInterests :=
       slice0 200
         (str_or (from_option otherInterests "" feedback)
                 (str_or (studentInterests profile) ""));
     levelNote :=
       "Ages " +:+ str_or (from_option ageRange "" profile) "—" +:+
       " | " +:+ ToString (Number_of groupSize) +:+ " students | Session " +:+
       nat_toString sessionNumber |}.

(** ** Template filler *)

Definition block (title : string) (items : list string) : string :=
  "### " +:+ title +:+ nl +:+
  join nl (map (fun i => "- " +:+ i) items) +:+ nl +:+ nl.

Definition warmup (s : Signals) : list string :=
  if needsMoreEngagement s
  then ["Energy check-in: fist-to-five excitement poll";
        "2–3 min icebreaker tied to interests";
        "Movement mini-game or quick quiz"]
  else ["Quick recap from last session"; "Pair share: goal for today"].

Definition teach (s : Signals) : list string :=
  if needsMoreScaffold s
  then ["Micro-lesson: " +:+ sessionTheme s +:+ " (5–7 min, concrete examples)";
        "Guided demo with think-aloud; provide starter template";
        "Check for understanding: thumbs + 2 diagnostic questions"]
  else ["Concept spotlight: " +:+ sessionTheme s +:+ " (interactive)";
        "Student discovery task in pairs; teacher circulates"].

Definition practice (s : Signals) : list string :=
  ["Team task: small groups tackle a bite-sized challenge";
   if needsMoreScaffold s then "Provide scaffolded steps & exemplars"
   else "Allow open-ended approaches; encourage creativity";
   "Midpoint pause: share strategies; highlight good moves"].

Definition apply (s : Signals) : list string :=
  ["Independent or pair build: mini-project applying today’s concept";
   if needsMoreEngagement s then "Gamify with milestones/badges"
   else "Stretch goal for early finishers"].

Definition reflect : list string :=
  ["2-minute exit ticket: one learning, one question, one improvement";
   "Student self-rating on confidence (1–5); teacher notes pacing"].

Definition homework : list string :=
  ["Optional: short practice or reflection journal (photo/upload ok)";
   "Bring one real-world example or question next session"].

(** [`${Math.round(x)} min`] *)
Definition minutes (x : number) : string := ToString (Math_round x) +:+ " min".

Definition timing (len : number) : list string :=
  ["Warm-up & Engagement — " +:+ minutes (Number_multiply len (Finite 10));
   "Mini-Lesson — " +:+ minutes (Number_multiply len (Finite 15));
   "Guided Practice — " +:+ minutes (Number_multiply len (Finite 15));
   "Project/Application — " +:+ minutes (Number_multiply len (Finite 15));
   "Share & Reflect — " +:+ minutes (Number_multiply len (Finite 5))].

Definition header (profile : ClassProfile) (s : Signals) (sessionNumber : nat)
    : string :=
  "# Session " +:+ nat_toString sessionNumber +:+ ": " +:+
    markdownEscape (subject profile) +:+ nl +:+
  "**" +:+ levelNote s +:+ "**" +:+ nl +:+ nl +:+
  "**Session Objective:** Build toward " +:+
    markdownEscape (str_or (expectation profile) "the class goals") +:+
    " using age-appropriate, high-engagement activities." +:+ nl +:+ nl.

Definition makePlanMarkdown (profile : ClassProfile)
    (feedback : option SessionFeedback) (sessionNumber : nat) : string :=
  let s := deriveSignals (Some profile) feedback sessionNumber in
  let len := number_or (Number_of (sessionLengthHours profile)) (Finite 1) in
  header profile s sessionNumber +:+
  block "Agenda (Suggested Timing)" (timing len) +:+
  block "Warm-up & Engagement" (warmup s) +:+
  block "Teach (Mini-Lesson)" (teach s) +:+
  block "Guided Practice" (practice s) +:+
  block "Apply & Create" (apply s) +:+
  block "Reflect & Close" (reflect) +:+
  block "Optional Extension / Home Connection" homework.

(** ** The [App] component *)

(** The state variables of the component: [runs], [activeId] and the two
    form states, [profile] and [feedback] in the source. *)
Record AppState := {
  runs : list ClassRun;
  activeId : string;
  formProfile : ClassProfile;
  formFeedback : SessionFeedback;
}.

(** What a handler can do: queue a state update or raise a blocking alert.
    [setRuns] takes the updater function of the source; a plain value [v]
    is the constant updater. *)
Inductive update :=
| setRuns (f : list ClassRun → list ClassRun)
| setActiveId (i : string)
| setProfile (p : ClassProfile)
| setFeedback (fb : SessionFeedback)
| alert (msg : string).

Definition apply_update (st : AppState) (u : update) : AppState :=
  match u with
  | setRuns f =>
      {| runs := f (runs st); activeId := activeId st;
         formProfile := formProfile st; formFeedback := formFeedback st |}
  | setActiveId i =>
      {| runs := runs st; activeId := i;
         formProfile := formProfile st; formFeedback := formFeedback st |}
  | setProfile p =>
      {| runs := runs st; activeId := activeId st;
         formProfile := p; formFeedback := formFeedback st |}
  | setFeedback fb =>
      {| runs := runs st; activeId := activeId st;
         formProfile := formProfile st; formFeedback := fb |}
  | alert _ => st
  end.

(** The next render: the queued updates applied in order. *)
Definition commit (st : AppState) (us : list update) : AppState :=
  fold_left apply_update us st.

Definition alerts (us : list update) : list string :=
  omap (fun u => match u with alert m => Some m | _ => None end) us.

(** [runs.find(r => r.id === activeId)] *)
Definition findRun (rid : string) (rs : list ClassRun) : option ClassRun :=
  find (fun r => bool_decide (id r = rid)) rs.

Definition withProfile (p : ClassProfile) (r : ClassRun) : ClassRun :=
  {| id := id r; profile := Some p; sessions := sessions r |}.

Definition withSessions (ss : list SessionRecord) (r : ClassRun) : ClassRun :=
  {| id := id r; profile := profile r; sessions := ss |}.

Definition withFeedback (fb : SessionFeedback) (s : SessionRecord)
    : SessionRecord :=
  {| sessionNumber := sessionNumber s; generatedAt := generatedAt s;
     planMd := planMd s; feedback := Some fb |}.

(** [prev.map(r => r.id === activeId ? f(r) : r)] *)
Definition mapActive (rid : string) (f : ClassRun → ClassRun)
    (prev : list ClassRun) : list ClassRun :=
  map (fun r => if bool_decide (id r = rid) then f r else r) prev.

Definition saveProfile (st : AppState) : list update :=
  [setRuns (mapActive (activeId st) (withProfile (formProfile st)))].

(** [now] is the value of [new Date().toISOString()]. *)
Definition makePlan (now : string) (profile : ClassProfile)
    (lastFeedback : option SessionFeedback) (nextIndex : nat) : SessionRecord :=
  {| sessionNumber := nextIndex; generatedAt := now;
     planMd := makePlanMarkdown profile lastFeedback nextIndex;
     feedback := None |}.

Definition msgSubject : string := "Please enter the subject of your class.".
Definition msgAllGenerated : string :=
  "All sessions have been generated. Adjust total sessions in the profile.".
Definition msgNoPlan : string :=
  "Please generate at least one session plan first.".

(** [run?.profile] *)
Definition runProfile (run : option ClassRun) : option ClassProfile :=
  match run with Some r => profile r | None => None end.

(** [run?.sessions?.length || 0] *)
Definition runLength (run : option ClassRun) : nat :=
  match run with Some r => length (sessions r) | None => 0%nat end.

(** [run?.sessions.at(-1)?.feedback] *)
Definition lastFeedback (run : option ClassRun) : option SessionFeedback :=
  match run with
  | Some r => match list.last (sessions r) with
              | Some s => feedback s
              | None => None
              end
  | None => None
  end.

Definition generateNextPlan (now : string) (st : AppState) : list update :=
  let run := findRun (activeId st) (runs st) in
  let pf := default (formProfile st) (runProfile run) in
  if negb (truthy_str (subject pf)) then [alert msgSubject]
  else
    let nextIndex := (runLength run + 1)%nat in
    if num_lt (num_or (totalSessions pf) 1%Q) (of_nat nextIndex)
    then [alert msgAllGenerated]
    else
      let rec := makePlan now pf (lastFeedback run) nextIndex in
      [setRuns (mapActive (activeId st)
                  (fun r => withSessions (sessions r ++ [rec]) r))].

Definition submitFeedbackAndGenerate (now : string) (st : AppState)
    : list update :=
  match findRun (activeId st) (runs st) with
  | None => [alert msgNoPlan]
  | Some run =>
      if (length (sessions run) =? 0)%nat then [alert msgNoPlan]
      else
        let lastIdx := (length (sessions run) - 1)%nat in
        let updatedSessions :=
          imap (fun i s => if (i =? lastIdx)%nat
                           then withFeedback (formFeedback st) s else s)
               (sessions run) in
        let updatedRun := withSessions updatedSessions run in
        [setRuns (mapActive (activeId st) (fun _ => updatedRun));
         setFeedback defaultFeedback]
        ++ generateNextPlan now st
  end.

(** [uuid] is the value of [crypto.randomUUID()]. *)
Definition newClassRun (uuid : string) (st : AppState) : list update :=
  let fresh := {| id := uuid; profile := Some newEmptyProfile; sessions := [] |} in
  [setRuns (fun _ => fresh :: runs st);
   setActiveId uuid;
   setProfile newEmptyProfile;
   setFeedback defaultFeedback].

(** [confirmed] is the answer to the [confirm] dialog. *)
Definition deleteRun (rid : string) (confirmed : bool) (st : AppState)
    : list update :=
  if negb confirmed then []
  else
    let next := filter (fun r => id r ≠ rid) (runs st) in
    setRuns (fun _ => next) ::
    match next with
    | r :: _ =>
        if bool_decide (rid = activeId st)
        then [setActiveId (id r);
              setProfile (default newEmptyProfile (profile r))]
        else []
    | [] => []
    end.

(** Selecting the card of a run in "Your Classes". *)
Definition selectRun (r : ClassRun) : list update :=
  [setActiveId (id r); setProfile (default newEmptyProfile (profile r))].

(** The user's actions.  The form fields are set as a whole: every input
    of the page rewrites its form state with [setProfile] or
    [setFeedback]. *)
Inductive event :=
| clickGenerate (now : string)
| clickSubmitFeedback (now : string)
| clickSaveProfile
| clickNewClass (uuid : string)
| clickDelete (rid : string) (confirmed : bool)
| clickCard (i : nat)
| editProfile (p : ClassProfile)
| editFeedback (fb : SessionFeedback).

Definition handler (ev : event) (st : AppState) : list update :=
  match ev with
  | clickGenerate now => generateNextPlan now st
  | clickSubmitFeedback now => submitFeedbackAndGenerate now st
  | clickSaveProfile => saveProfile st
  | clickNewClass uuid => newClassRun uuid st
  | clickDelete rid c => deleteRun rid c st
  | clickCard i => from_option selectRun [] (runs st !! i)
  | editProfile p => [setProfile p]
  | editFeedback fb => [setFeedback fb]
  end.

Definition step (st : AppState) (ev : event) : AppState :=
  commit st (handler ev st).

Definition run_events (st : AppState) (evs : list event) : AppState :=
  fold_left step evs st.

(** The first render on an empty store, after the mount effect has added
    the run of the fresh [activeId]. *)
Definition mounted (uuid : string) : AppState :=
  {| runs := [{| id := uuid; profile := Some newEmptyProfile; sessions := [] |}];
     activeId := uuid;
     formProfile := newEmptyProfile;
     formFeedback := defaultFeedback |}.

(** ** JSON: the host's [JSON.stringify] and [JSON.parse] *)

Module JSON.

Unset Elimination Schemes.
Inductive json :=
| JNull
| JBool (b : bool)
| JNum (q : Q)
| JStr (s : string)
| JArr (items : list json)
| JObj (members : list (string * json)).
Set Elimination Schemes.

Definition code (c : ascii) : N := N_of_ascii c.
Definition chr (n : N) : ascii := ascii_of_N n.
Definition str1 (n : N) : string := String (chr n) "".

(** *** Serialization *)

Definition hex_char (n : N) : ascii :=
  if (n <? 10)%N then chr (48 + n) else chr (87 + n).

Definition escape_char (c : ascii) : string :=
  let n := code c in
  if (n =? 34)%N then String (chr 92) (str1 34)
  else if (n =? 92)%N then String (chr 92) (str1 92)
  else if (n =? 8)%N then String (chr 92) "b"
  else if (n =? 9)%N then String (chr 92) "t"
  else if (n =? 10)%N then String (chr 92) "n"
  else if (n =? 12)%N then String (chr 92) "f"
  else if (n =? 13)%N then String (chr 92) "r"
  else if (n <? 32)%N
       then String (chr 92)
              (String "u" (String "0" (String "0"
                 (String (hex_char (n / 16)) (String (hex_char (n mod 16)) "")))))
  else String c "".

Fixpoint escape (s : string) : string :=
  match s with
  | EmptyString => ""
  | String c r => escape_char c +:+ escape r
  end.

Definition quote (s : string) : string := String (chr 34) (escape s +:+ str1 34).

Fixpoint stringify (v : json) : string :=
  match v with
  | JNull => "null"
  | JBool true => "true"
  | JBool false => "false"
  | JNum q => Number_toString q
  | JStr s => quote s
  | JArr items => "[" +:+ join "," (map stringify items) +:+ "]"
  | JObj members =>
      "{" +:+
      join "," (map (fun kv => let '(k, v) := kv in
                               quote k +:+ ":" +:+ stringify v) members) +:+
      "}"
  end.

(** *** Parsing *)

Definition is_ws (c : ascii) : bool :=
  let n := code c in ((n =? 32) || (n =? 9) || (n =? 10) || (n =? 13))%N.

Fixpoint skip_ws (s : string) : string :=
  match s with
  | EmptyString => ""
  | String c r => if is_ws c then skip_ws r else s
  end.

Definition hex_val (c : ascii) : option N :=
  let n := code c in
  if ((48 <=? n) && (n <=? 57))%N then Some (n - 48)%N
  else if ((97 <=? n) && (n <=? 102))%N then Some (n - 87)%N
  else if ((65 <=? n) && (n <=? 70))%N then Some (n - 55)%N
  else None.

Definition hex4 (a b c d : ascii) : option N :=
  match hex_val a, hex_val b, hex_val c, hex_val d with
  | Some x, Some y, Some z, Some w => Some (((x * 16 + y) * 16 + z) * 16 + w)%N
  | _, _, _, _ => None
  end.

(** The characters of a [\uXXXX] code unit, as UTF-8 bytes. *)
Definition utf8 (n : N) : string :=
  if (n <? 128)%N then str1 n
  else if (n <? 2048)%N
       then String (chr (192 + n / 64)) (str1 (128 + n mod 64))
  else String (chr (224 + n / 4096))
         (String (chr (128 + (n / 64) mod 64)) (str1 (128 + n mod 64))).

Definition unescape (c : ascii) : option ascii :=
  let n := code c in
  if (n =? 34)%N then Some (chr 34)
  else if (n =? 92)%N then Some (chr 92)
  else if (n =? 47)%N then Some (chr 47)
  else if (n =? 98)%N then Some (chr 8)
  else if (n =? 116)%N then Some (chr 9)
  else if (n =? 110)%N then Some (chr 10)
  else if (n =? 102)%N then Some (chr 12)
  else if (n =? 114)%N then Some (chr 13)
  else None.

Definition prepend (p : string) (r : option (string * string))
    : option (string * string) :=
  match r with
  | Some (s, rest) => Some (p +:+ s, rest)
  | None => None
  end.

(** The characters of a string literal, after its opening quote. *)
Fixpoint parse_chars (s : string) : option (string * string) :=
  match s with
  | EmptyString => None
  | String c r =>
      let n := code c in
      if (n =? 34)%N then Some ("", r)
      else if (n =? 92)%N then
        match r with
        | EmptyString => None
        | String e r1 =>
            if (code e =? 117)%N then
              match r1 with
              | String h1 (String h2 (String h3 (String h4 r2))) =>
                  match hex4 h1 h2 h3 h4 with
                  | Some cp => prepend (utf8 cp) (parse_chars r2)
                  | None => None
                  end
              | _ => None
              end
            else
              match unescape e with
              | Some x => prepend (String x "") (parse_chars r1)
              | None => None
              end
        end
      else if (n <? 32)%N then None
      else prepend (String c "") (parse_chars r)
  end.

Fixpoint take_digits (s : string) : string * string :=
  match s with
  | EmptyString => ("", "")
  | String c r =>
      if is_digit c
      then let '(ds, rest) := take_digits r in (String c ds, rest)
      else ("", s)
  end.

Fixpoint digits_val (acc : N) (ds : string) : N :=
  match ds with
  | EmptyString => acc
  | String c r => digits_val (10 * acc + digit_val c) r
  end.

(** [-? int frac? exp?]; an integer part of several digits does not start
    with a zero, a fraction and an exponent have at least one digit. *)
Definition parse_sign (s : string) : bool * string :=
  match s with
  | String c r => if (code c =? 45)%N then (true, r) else (false, s)
  | EmptyString => (false, s)
  end.

Definition int_part_ok (ds : string) : bool :=
  match ds with
  | EmptyString => false
  | String c EmptyString => true
  | String c _ => negb (code c =? 48)%N
  end.

Definition parse_frac (s : string) : option (string * string) :=
  match s with
  | String c r =>
      if (code c =? 46)%N then
        match take_digits r with
        | (EmptyString, _) => None
        | (ds, rest) => Some (ds, rest)
        end
      else Some ("", s)
  | EmptyString => Some ("", s)
  end.

Definition parse_exp (s : string) : option (Z * string) :=
  match s with
  | String c r =>
      if ((code c =? 101) || (code c =? 69))%N then
        let '(neg, r1) :=
          match r with
          | String g r' =>
              if (code g =? 45)%N then (true, r')
              else if (code g =? 43)%N then (false, r')
              else (false, r)
          | EmptyString => (false, r)
          end in
        match take_digits r1 with
        | (EmptyString, _) => None
        | (ds, rest) =>
            let e := Z.of_N (digits_val 0 ds) in
            Some (if neg then - e else e, rest)
        end
      else Some (0, s)
  | EmptyString => Some (0, s)
  end.

(** The rational [m * 10 ^ scale], in lowest terms. *)
Definition scaled (m scale : Z) : Q :=
  Qred (if 0 <=? scale then (m * 10 ^ scale) # 1
        else m # Z.to_pos (10 ^ (- scale))).

(** A number of the text: the decimal as it is written, held exactly.
    The Number the host makes of it is [Number_of] of this decimal, and
    that is what the test for a falsy value, the arithmetic of the agenda
    and the texts of the plan read. *)
Definition parse_number (s : string) : option (Q * string) :=
  let '(neg, s1) := parse_sign s in
  let '(ip, s2) := take_digits s1 in
  if negb (int_part_ok ip) then None
  else
    match parse_frac s2 with
    | None => None
    | Some (fp, s3) =>
        match parse_exp s3 with
        | None => None
        | Some (e, s4) =>
            let m := Z.of_N (digits_val 0 (ip +:+ fp)) in
            Some (scaled (if neg then - m else m)
                         (e - Z.of_nat (String.length fp)), s4)
        end
    end.

Fixpoint expect (lit : string) (s : string) : option string :=
  match lit, s with
  | EmptyString, _ => Some s
  | String a l, String b r => if Ascii.eqb a b then expect l r else None
  | String _ _, EmptyString => None
  end.

(** A property defined twice keeps its first position and its last value. *)
Fixpoint set_member (k : string) (v : json) (o : list (string * json))
    : list (string * json) :=
  match o with
  | [] => [(k, v)]
  | (k', v') :: o' =>
      if bool_decide (k' = k) then (k, v) :: o'
      else (k', v') :: set_member k v o'
  end.

Definition obj_of_members (ms : list (string * json)) : list (string * json) :=
  fold_left (fun o kv => set_member kv.1 kv.2 o) ms [].

Fixpoint parse_value (fuel : nat) (s : string) : option (json * string) :=
  match fuel with
  | O => None
  | S f =>
      match s with
      | EmptyString => None
      | String c r =>
          let n := code c in
          if (n =? 110)%N then option_map (pair JNull) (expect "ull" r)
          else if (n =? 116)%N then option_map (pair (JBool true)) (expect "rue" r)
          else if (n =? 102)%N then option_map (pair (JBool false)) (expect "alse" r)
          else if (n =? 34)%N then
            match parse_chars r with
            | Some (str, rest) => Some (JStr str, rest)
            | None => None
            end
          else if (n =? 91)%N then
            match skip_ws r with
            | EmptyString => None
            | String c2 r2 =>
                if (code c2 =? 93)%N then Some (JArr [], r2)
                else
                  match parse_items f (String c2 r2) with
                  | Some (items, rest) => Some (JArr items, rest)
                  | None => None
                  end
            end
          else if (n =? 123)%N then
            match skip_ws r with
            | EmptyString => None
            | String c2 r2 =>
                if (code c2 =? 125)%N then Some (JObj [], r2)
                else
                  match parse_members f (String c2 r2) with
                  | Some (ms, rest) => Some (JObj (obj_of_members ms), rest)
                  | None => None
                  end
            end
          else
            match parse_number s with
            | Some (q, rest) => Some (JNum q, rest)
            | None => None
            end
      end
  end
with parse_items (fuel : nat) (s : string) : option (list json * string) :=
  match fuel with
  | O => None
  | S f =>
      match parse_value f s with
      | None => None
      | Some (v, rest) =>
          match skip_ws rest with
          | EmptyString => None
          | String c r =>
              if (code c =? 44)%N then
                match parse_items f (skip_ws r) with
                | Some (vs, rest') => Some (v :: vs, rest')
                | None => None
                end
              else if (code c =? 93)%N then Some ([v], r)
              else None
          end
      end
  end
with parse_members (fuel : nat) (s : string)
    : option (list (string * json) * string) :=
  match fuel with
  | O => None
  | S f =>
      match s with
      | EmptyString => None
      | String c r =>
          if negb (code c =? 34)%N then None
          else
            match parse_chars r with
            | None => None
            | Some (k, rest) =>
                match skip_ws rest with
                | EmptyString => None
                | String c2 r2 =>
                    if negb (code c2 =? 58)%N then None
                    else
                      match parse_value f (skip_ws r2) with
                      | None => None
                      | Some (v, rest2) =>
                          match skip_ws rest2 with
                          | EmptyString => None
                          | String c3 r3 =>
                              if (code c3 =? 44)%N then
                                match parse_members f (skip_ws r3) with
                                | Some (ms, rest3) => Some ((k, v) :: ms, rest3)
                                | None => None
                                end
                              else if (code c3 =? 125)%N then Some ([(k, v)], r3)
                              else None
                          end
                      end
                end
            end
      end
  end.

(** [JSON.parse]: [None] is the [SyntaxError]. *)
Definition parse (s : string) : option json :=
  match parse_value (S (String.length s)) (skip_ws s) with
  | Some (v, rest) =>
      match skip_ws rest with
      | EmptyString => Some v
      | _ => None
      end
  | None => None
  end.

(** [!v] is false: the falsy values JSON can hold. *)
Definition falsy (v : json) : bool :=
  match v with
  | JNull => true
  | JBool b => negb b
  | JNum q => falsy_number (Number_of q)
  | JStr s => negb (truthy_str s)
  | JArr _ | JObj _ => false
  end.

End JSON.

Import JSON.

(** ** Persistence *)

(** The records as the JavaScript objects they are; a property that is
    not set has no member. *)
Definition optMember {A} (k : string) (f : A → json) (o : option A)
    : list (string * json) :=
  match o with Some x => [(k, f x)] | None => [] end.

Definition orNull {A} (f : A → json) (o : option A) : json :=
  match o with Some x => f x | None => JNull end.

Definition js_of_student (s : StudentDetail) : json :=
  JObj (optMember "name" JStr (name s) ++ optMember "age" JStr (age s) ++
        optMember "gender" JStr (gender s) ++
        optMember "interest" JStr (interest s) ++
        optMember "passion" JStr (passion s) ++
        optMember "energy" JStr (energy s) ++ optMember "notes" JStr (notes s)).

Definition js_of_profile (p : ClassProfile) : json :=
  JObj [("subject", JStr (subject p));
        ("expectation", JStr (expectation p));
        ("totalSessions", JNum (totalSessions p));
        ("sessionLengthHours", JNum (sessionLengthHours p));
        ("numStudents", JNum (numStudents p));
        ("ageRange", JStr (ageRange p));
        ("students", JArr (map js_of_student (students p)))].

Definition js_of_feedback (fb : SessionFeedback) : json :=
  JObj [("excitedCount", orNull JNum (excitedCount fb));
        ("digestible", orNull JStr (digestible fb));
        ("otherInterests", JStr (otherInterests fb));
        ("notGoodEnough", JStr (notGoodEnough fb))].

Definition js_of_session (s : SessionRecord) : json :=
  JObj ([("sessionNumber", JNum (of_nat (sessionNumber s)));
         ("generatedAt", JStr (generatedAt s));
         ("planMd", JStr (planMd s))] ++
        optMember "feedback" js_of_feedback (feedback s)).

Definition js_of_run (r : ClassRun) : json :=
  JObj ([("id", JStr (id r))] ++
        optMember "profile" js_of_profile (profile r) ++
        [("sessions", JArr (map js_of_session (sessions r)))]).

Definition js_of_runs (rs : list ClassRun) : json := JArr (map js_of_run rs).

(** The value under [STORAGE_KEY]; [None] when the key has never been
    written ([getItem] returns [null]). *)
Definition Storage := option string.

Definition loadRuns (store : Storage) : json :=
  match JSON.parse (str_or (default "" store) "[]") with
  | Some v => if falsy v then JArr [] else v
  | None => JArr []
  end.

Definition saveRuns (rs : list ClassRun) : Storage :=
  Some (stringify (js_of_runs rs)).

(** *** Reading a value back as typed records *)

Fixpoint member (k : string) (ms : list (string * json)) : option json :=
  match ms with
  | [] => None
  | (k', v) :: ms' => if String.eqb k' k then Some v else member k ms'
  end.

Definition asStr (v : json) : option string :=
  match v with JStr s => Some s | _ => None end.

Definition asNum (v : json) : option Q :=
  match v with JNum q => Some q | _ => None end.

Definition asNat (v : json) : option nat :=
  match v with
  | JNum q => if ((Qden q =? 1)%positive && (0 <=? Qnum q))
              then Some (Z.to_nat (Qnum q)) else None
  | _ => None
  end.

Definition asList {A} (f : json → option A) (v : json) : option (list A) :=
  match v with JArr items => mapM f items | _ => None end.

(** An optional property: absent, or present and well-typed. *)
Definition optional {A} (f : json → option A) (o : option json)
    : option (option A) :=
  match o with
  | None => Some None
  | Some v => option_map Some (f v)
  end.

(** A nullable property. *)
Definition nullable {A} (f : json → option A) (v : json) : option (option A) :=
  match v with
  | JNull => Some None
  | _ => option_map Some (f v)
  end.

Definition student_of_js (v : json) : option StudentDetail :=
  match v with
  | JObj ms =>
      n ← optional asStr (member "name" ms);
      a ← optional asStr (member "age" ms);
      g ← optional asStr (member "gender" ms);
      i ← optional asStr (member "interest" ms);
      p ← optional asStr (member "passion" ms);
      e ← optional asStr (member "energy" ms);
      o ← optional asStr (member "notes" ms);
      Some {| name := n; age := a; gender := g; interest := i;
              passion := p; energy := e; notes := o |}
  | _ => None
  end.

Definition profile_of_js (v : json) : option ClassProfile :=
  match v with
  | JObj ms =>
      s ← member "subject" ms ≫= asStr;
      e ← member "expectation" ms ≫= asStr;
      t ← member "totalSessions" ms ≫= asNum;
      l ← member "sessionLengthHours" ms ≫= asNum;
      n ← member "numStudents" ms ≫= asNum;
      a ← member "ageRange" ms ≫= asStr;
      st ← member "students" ms ≫= asList student_of_js;
      Some {| subject := s; expectation := e; totalSessions := t;
              sessionLengthHours := l; numStudents := n; ageRange := a;
              students := st |}
  | _ => None
  end.

Definition feedback_of_js (v : json) : option SessionFeedback :=
  match v with
  | JObj ms =>
      x ← member "excitedCount" ms ≫= nullable asNum;
      d ← member "digestible" ms ≫= nullable asStr;
      o ← member "otherInterests" ms ≫= asStr;
      n ← member "notGoodEnough" ms ≫= asStr;
      Some {| excitedCount := x; digestible := d;
              otherInterests := o; notGoodEnough := n |}
  | _ => None
  end.

Definition session_of_js (v : json) : option SessionRecord :=
  match v with
  | JObj ms =>
      n ← member "sessionNumber" ms ≫= asNat;
      g ← member "generatedAt" ms ≫= asStr;
      p ← member "planMd" ms ≫= asStr;
      f ← optional feedback_of_js (member "feedback" ms);
      Some {| sessionNumber := n; generatedAt := g; planMd := p; feedback := f |}
  | _ => None
  end.

Definition run_of_js (v : json) : option ClassRun :=
  match v with
  | JObj ms =>
      i ← member "id" ms ≫= asStr;
      p ← optional profile_of_js (member "profile" ms);
      s ← member "sessions" ms ≫= asList session_of_js;
      Some {| id := i; profile := p; sessions := s |}
  | _ => None
  end.

Definition runs_of_js (v : json) : option (list ClassRun) :=
  asList run_of_js v.

(** *** Numbers that survive the store *)

Definition profile_ok (p : ClassProfile) : bool :=
  num_ok (totalSessions p) && num_ok (sessionLengthHours p) &&
  num_ok (numStudents p).

Definition feedback_ok (fb : SessionFeedback) : bool :=
  from_option num_ok true (excitedCount fb).

Definition session_ok (s : SessionRecord) : bool :=
  from_option feedback_ok true (feedback s).

Definition run_ok (r : ClassRun) : bool :=
  from_option profile_ok true (profile r) && forallb session_ok (sessions r).

Definition runs_ok (rs : list ClassRun) : bool := forallb run_ok rs.

(** ** Notions used by the statements *)

(** The session length the template works with: [sessionLengthHours], or
    1 when that is zero. *)
Definition planLength (p : ClassProfile) : number :=
  number_or (Number_of (sessionLengthHours p)) (Finite 1).

(** The minutes per hour of the five blocks of the agenda. *)
Definition perHour : list Q := [10; 15; 15; 15; 5]%Q.

(** The minutes the agenda shows. *)
Definition agendaMinutes (p : ClassProfile) : list number :=
  map (fun c => Math_round (Number_multiply (planLength p) (Finite c))) perHour.

(** A whole number as a Number. *)
Definition whole (z : Z) : number := Finite (inject_Z z).

(** The lines of a text, a line break after each. *)
Fixpoint lines (ls : list string) : string :=
  match ls with
  | [] => ""
  | l :: rest => l +:+ nl +:+ lines rest
  end.

(** What [Math.round(h * c)] gives for a finite [h]: the product is the
    binary64 value next to the exact one, within half a unit of its last
    place, and the minutes are the integer next to the product, the upper
    one of two; below [10^15] they are shown with all their digits. *)
Definition minutesOf (h c : Q) (m : number) : Prop :=
  ∃ (d : Q) (z : Z),
    Number_multiply (Finite h) (Finite c) = Finite d
    ∧ (Qabs (d - h * c) <= Qabs (h * c) * pow2 (-53) + pow2 (-1075))%Q
    ∧ m = whole z
    ∧ (inject_Z z - (1 # 2) <= d)%Q ∧ (d < inject_Z z + (1 # 2))%Q
    ∧ (- 10 ^ 15 < z < 10 ^ 15 → ToString m = Z_toString z).

(** A session of 4.1 hours. *)
Definition fourPointOne : ClassProfile :=
  {| subject := "Robotics"; expectation := ""; totalSessions := 2%Q;
     sessionLengthHours := (41 # 10)%Q; numStudents := 4%Q; ageRange := "10–13";
     students := [emptyStudent] |}.

(** The Number that 4.1 is read as. *)
Definition fourPointOneHours : Q :=
  Eval vm_compute in
    match planLength fourPointOne with Finite h => h | _ => 0%Q end.

(** The events of the plan/feedback loop: they leave the saved profiles,
    the list of runs and the selection alone. *)
Definition planning (ev : event) : Prop :=
  match ev with
  | clickGenerate _ | clickSubmitFeedback _ | editProfile _ | editFeedback _ =>
      True
  | _ => False
  end.

(** Every identifier drawn by [crypto.randomUUID()] is new: it differs
    from the identifiers in [used], those of the runs seen so far. *)
Fixpoint fresh_uuids (used : list string) (evs : list event) : Prop :=
  match evs with
  | [] => True
  | clickNewClass u :: evs' => (u ∉ used) ∧ fresh_uuids (u :: used) evs'
  | _ :: evs' => fresh_uuids used evs'
  end.

(** The end-to-end scenario of the specification. *)
Definition robotics : ClassProfile :=
  {| subject := "Robotics"; expectation := ""; totalSessions := 2%Q;
     sessionLengthHours := 1%Q; numStudents := 4%Q; ageRange := "10–13";
     students := [emptyStudent] |}.

(** The same class before anyone has enrolled. *)
Definition noStudents : ClassProfile :=
  {| subject := "Robotics"; expectation := ""; totalSessions := 2%Q;
     sessionLengthHours := 1%Q; numStudents := 0%Q; ageRange := "10–13";
     students := [] |}.

(** Shorter sessions: half an hour, and a length left at zero. *)
Definition halfHour : ClassProfile :=
  {| subject := "Robotics"; expectation := ""; totalSessions := 2%Q;
     sessionLengthHours := (1 # 2)%Q; numStudents := 4%Q; ageRange := "10–13";
     students := [emptyStudent] |}.

Definition zeroHours : ClassProfile :=
  {| subject := "Robotics"; expectation := ""; totalSessions := 2%Q;
     sessionLengthHours := 0%Q; numStudents := 4%Q; ageRange := "10–13";
     students := [emptyStudent] |}.

Definition lowFeedback : SessionFeedback :=
  {| excitedCount := Some 1%Q; digestible := Some "no";
     otherInterests := ""; notGoodEnough := "" |}.

Definition firstPlan : AppState :=
  run_events (mounted "run-1")
    [editProfile robotics; clickSaveProfile; clickGenerate "day-1"].

Definition afterFeedback : AppState :=
  run_events firstPlan [editFeedback lowFeedback; clickSubmitFeedback "day-2"].

(** A one-session class whose only plan receives feedback twice. *)
Definition singleSession : ClassProfile :=
  {| subject := "Robotics"; expectation := ""; totalSessions := 1%Q;
     sessionLengthHours := 1%Q; numStudents := 4%Q; ageRange := "10–13";
     students := [emptyStudent] |}.

Definition goodFeedback : SessionFeedback :=
  {| excitedCount := Some 4%Q; digestible := Some "yes";
     otherInterests := "drones"; notGoodEnough := "" |}.

Definition onlyPlan : AppState :=
  run_events (mounted "run-1")
    [editProfile singleSession; clickSaveProfile; clickGenerate "day-1"].

Definition firstOpinion : AppState :=
  run_events onlyPlan [editFeedback lowFeedback; clickSubmitFeedback "day-2"].

Definition secondOpinion : AppState :=
  run_events firstOpinion
    [editFeedback goodFeedback; clickSubmitFeedback "day-3"].

(** A class whose profile asks for no session at all. *)
Definition noSessions : ClassProfile :=
  {| subject := "Robotics"; expectation := ""; totalSessions := 0%Q;
     sessionLengthHours := 1%Q; numStudents := 4%Q; ageRange := "10–13";
     students := [emptyStudent] |}.

Definition nothingPlanned : AppState :=
  run_events (mounted "run-1") [editProfile noSessions; clickSaveProfile].

(** The two rewrites of the active run: a new record at the end, and the
    feedback of the form on the last record. *)
Definition appendPlan (rec : SessionRecord) (r : ClassRun) : ClassRun :=
  withSessions (sessions r ++ [rec]) r.

Definition attachFeedback (fb : SessionFeedback) (r : ClassRun) : ClassRun :=
  withSessions
    (imap (fun i s => if (i =? length (sessions r) - 1)%nat
                      then withFeedback fb s else s) (sessions r)) r.

(** What may happen to a run between two states: records are only added,
    a record keeps its number, its date and its text, and a record that
    has a successor is kept as it is. *)
Definition extends (r r' : ClassRun) : Prop :=
  (length (sessions r) ≤ length (sessions r'))%nat ∧
  ∀ i s, sessions r !! i = Some s →
    ∃ s', sessions r' !! i = Some s' ∧
          sessionNumber s' = sessionNumber s ∧
          generatedAt s' = generatedAt s ∧
          planMd s' = planMd s ∧
          ((S i < length (sessions r))%nat → s' = s).



(** What a generation request adds to the active run [r]: the plan texts
    of the records that follow those of [r]. *)
Definition planned (now : string) (st : AppState) (r : ClassRun)
    : list string :=
  match findRun (activeId st) (runs (step st (clickGenerate now))) with
  | Some r' => map planMd (drop (length (sessions r)) (sessions r'))
  | None => []
  end.

(** The same class planned in another run, on other days. *)
Definition elsewhere : AppState :=
  run_events (mounted "run-9")
    [editProfile robotics; clickSaveProfile; clickGenerate "day-7";
     editProfile halfHour].

(** *** Well-formed JSON values *)

Module JSONFacts.

Fixpoint distinct (l : list string) : bool :=
  match l with
  | [] => true
  | k :: r => negb (existsb (fun k' => bool_decide (k' = k)) r) && distinct r
  end.

(** The values [stringify] writes and [parse] reads back unchanged:
    storable numbers, and objects without a repeated key. *)
Fixpoint json_ok (v : json) : bool :=
  match v with
  | JNull | JBool _ | JStr _ => true
  | JNum q => num_ok q
  | JArr items => forallb json_ok items
  | JObj ms =>
      distinct (map fst ms) &&
      forallb (fun kv => let '(_, x) := kv in json_ok x) ms
  end.

(** The fuel [parse_value] needs for the text of a value. *)
Fixpoint weight (v : json) : nat :=
  match v with
  | JArr items => S (list_sum (map (fun x => S (weight x)) items))
  | JObj ms =>
      S (list_sum (map (fun kv => let '(_, x) := kv in S (weight x)) ms))
  | _ => 1
  end.

(** What may come after a value: the end of the text, or [,], []] or [}]. *)
Definition follow (s : string) : bool :=
  match s with
  | EmptyString => true
  | String c _ => ((code c =? 44) || (code c =? 93) || (code c =? 125))%N
  end.

Fixpoint all_digits (s : string) : bool :=
  match s with
  | EmptyString => true
  | String c r => is_digit c && all_digits r
  end.

Definition no_digit_head (s : string) : bool :=
  match s with
  | EmptyString => true
  | String c _ => negb (is_digit c)
  end.

(** The first character of the text of a value: none of the white space,
    []] and [}]. *)
Definition value_head (s : string) : bool :=
  match s with
  | EmptyString => false
  | String c _ =>
      negb (is_ws c) && negb (code c =? 93)%N && negb (code c =? 125)%N
  end.

(** The text of one member of an object. *)
Definition member_text (kv : string * json) : string :=
  let '(k, v) := kv in quote k +:+ ":" +:+ stringify v.

(** [v] is read back from its text, given enough fuel and whatever
    follows. *)
Definition reads (v : json) : Prop :=
  ∀ fuel rest, (weight v ≤ fuel)%nat → follow rest = true →
    parse_value fuel (stringify v +:+ rest) = Some (v, rest).

End JSONFacts.

Import JSONFacts.

(** ** The rest of the component *)

(** The first render: [runs] comes from the store, the first run is
    selected, or a fresh identifier when there is none to select. *)
Definition firstRender (stored : list ClassRun) (uuid : string) : AppState :=
  let active := match stored with
                | r :: _ => str_or (id r) uuid
                | [] => uuid
                end in
  {| runs := stored;
     activeId := active;
     formProfile := default newEmptyProfile (runProfile (findRun active stored));
     formFeedback := defaultFeedback |}.

(** The mount effect: a run for the selected identifier, if there is none. *)
Definition mountEffect (st : AppState) : list update :=
  match findRun (activeId st) (runs st) with
  | Some _ => []
  | None =>
      [setRuns (fun prev =>
         {| id := activeId st; profile := Some newEmptyProfile; sessions := [] |}
         :: prev)]
  end.

Definition startup (stored : list ClassRun) (uuid : string) : AppState :=
  commit (firstRender stored uuid) (mountEffect (firstRender stored uuid)).

(** The effect on [runs]: the store mirrors the state. *)
Definition persisted (st : AppState) : Storage := saveRuns (runs st).

(** [onDownload]: the file name and the content handed to [downloadText]. *)
Definition onDownload (rec : SessionRecord) : string * string :=
  ("Session_" +:+ nat_toString (sessionNumber rec) +:+ ".md", planMd rec).

Definition withStudents (ss : list StudentDetail) (p : ClassProfile)
    : ClassProfile :=
  {| subject := subject p; expectation := expectation p;
     totalSessions := totalSessions p;
     sessionLengthHours := sessionLengthHours p;
     numStudents := numStudents p; ageRange := ageRange p; students := ss |}.

(** [l.filter((_, idx) => idx !== i)] *)
Definition dropIndex {A} (i : nat) (l : list A) : list A :=
  (filter (fun ix => ix.1 ≠ i) (imap (fun idx x => (idx, x)) l)).*2.

(** The "Add Student" button. *)
Definition addStudent (st : AppState) : list update :=
  [setProfile (withStudents (students (formProfile st) ++ [emptyStudent])
                 (formProfile st))].

(** [onChange] of the editor of student [i]; [i] is the index of a
    rendered editor, so it is within the list. *)
Definition changeStudent (i : nat) (upd : StudentDetail) (st : AppState)
    : list update :=
  [setProfile (withStudents (<[i:=upd]> (students (formProfile st)))
                 (formProfile st))].

(** [onRemove] of the editor of student [i]. *)
Definition removeStudent (i : nat) (st : AppState) : list update :=
  let arr := dropIndex i (students (formProfile st)) in
  [setProfile (withStudents (match arr with [] => [emptyStudent] | _ => arr end)
                 (formProfile st))].

(** *** Notions for the further properties *)

Fixpoint occurs (c : ascii) (s : string) : bool :=
  match s with
  | EmptyString => false
  | String x r => Ascii.eqb x c || occurs c r
  end.

(** [sessionNumber] is the position in the list, counted from 1. *)
Definition numbered (r : ClassRun) : Prop :=
  ∀ i s, sessions r !! i = Some s → sessionNumber s = S i.

(** The numbers of a state can be stored: those of the runs and those
    the two forms hold. *)
Definition storable (st : AppState) : Prop :=
  runs_ok (runs st) = true ∧ profile_ok (formProfile st) = true
  ∧ feedback_ok (formFeedback st) = true.

(** The numbers typed into a form can be stored. *)
Definition storable_event (ev : event) : Prop :=
  match ev with
  | editProfile p => profile_ok p = true
  | editFeedback fb => feedback_ok fb = true
  | _ => True
  end.

(** * Properties *)

(** ** Signal deriver *)

Section Signals.

Implicit Types (profile : option ClassProfile) (p : ClassProfile).
Implicit Types (feedback : option SessionFeedback) (n : nat).

Lemma num_lt_iff (x y : Q) : num_lt x y = true ↔ (x < y)%Q.
Proof.
  unfold num_lt. rewrite negb_true_iff.
  destruct (Qle_bool y x) eqn:E.
  - apply Qle_bool_iff in E. split; [done|]. intros H.
    exfalso. by apply (Qlt_not_le x y).
  - split; [intros _|done]. apply Qnot_le_lt. intros H.
    apply Qle_bool_iff in H. congruence.
Qed.

Lemma num_or_eq (x d : Q) : ¬ (x == 0)%Q → num_or x d = x.
Proof.
  intros H. unfold num_or. destruct (Qeq_bool x 0) eqn:E; [|done].
  by apply Qeq_bool_iff in E.
Qed.

Lemma num_or_zero (x d : Q) : (x == 0)%Q → num_or x d = d.
Proof. intros H. unfold num_or. by apply Qeq_bool_iff in H as ->. Qed.

(** With no student the ratio is [excitedCount / 1]. *)
Lemma excitement_no_students p feedback n :
  (numStudents p == 0)%Q →
  needsMoreEngagement (deriveSignals (Some p) feedback n)
  = num_lt (default 0%Q (feedback ≫= excitedCount)) (1 # 2).
Proof.
  intros H. unfold deriveSignals. cbn [needsMoreEngagement from_option].
  rewrite (num_or_zero _ _ H).
  change (Math_max 1 0) with 1%Q.
  apply eq_true_iff_eq. rewrite !num_lt_iff.
  set (x := default 0%Q (feedback ≫= excitedCount)).
  assert (x / 1 == x)%Q as -> by field. done.
Qed.

(** C3, as the specification states it, fails: a class without students
    and one excited child does not need more engagement. *)
Lemma C3_one_excited_of_none :
  ¬ (∀ p feedback n, (numStudents p == 0)%Q →
       needsMoreEngagement (deriveSignals (Some p) feedback n) = true).
Proof.
  intros H.
  specialize (H noStudents (Some lowFeedback) 2%nat (Qeq_refl 0)).
  vm_compute in H. discriminate.
Qed.

(** C3 (amended): for a profile with [numStudents = 0] the denominator of
    the excitement ratio is guarded to 1, so [needsMoreEngagement] holds
    exactly when [excitedCount], absent counting as 0, is below 0.5; it
    holds in particular when there is no feedback or no count. *)
Theorem C3_no_students p feedback n :
  (numStudents p == 0)%Q →
  (needsMoreEngagement (deriveSignals (Some p) feedback n) = true
   ↔ (default 0%Q (feedback ≫= excitedCount) < 1 # 2)%Q)
  ∧ (feedback ≫= excitedCount = None →
     needsMoreEngagement (deriveSignals (Some p) feedback n) = true).
Proof.
  intros H. rewrite (excitement_no_students _ _ _ H). split.
  - apply num_lt_iff.
  - by intros ->.
Qed.

Lemma C3_no_students_witness :
  (needsMoreEngagement
     (deriveSignals (Some noStudents) (Some lowFeedback) 2)
   = true
   ↔ (default 0%Q (Some lowFeedback ≫= excitedCount) < 1 # 2)%Q)
  ∧ (Some lowFeedback ≫= excitedCount = None →
     needsMoreEngagement
       (deriveSignals (Some noStudents) (Some lowFeedback) 2)
     = true).
Proof.
  apply (C3_no_students noStudents (Some lowFeedback) 2).
  reflexivity.
Defined.

(** C8: [needsMoreScaffold] is true exactly when the feedback says the
    content was digested "some" or "no"; it is false for "yes", for a
    feedback without an answer and when there is no feedback at all. *)
Theorem C8_scaffold_iff profile feedback n :
  (needsMoreScaffold (deriveSignals profile feedback n) = true
   ↔ feedback ≫= digestible = Some "some" ∨ feedback ≫= digestible = Some "no")
  ∧ (feedback ≫= digestible = Some "yes" ∨ feedback ≫= digestible = None →
     needsMoreScaffold (deriveSignals profile feedback n) = false)
  ∧ needsMoreScaffold (deriveSignals profile None n) = false.
Proof.
  assert (needsMoreScaffold (deriveSignals profile feedback n) = true
          ↔ feedback ≫= digestible = Some "some"
            ∨ feedback ≫= digestible = Some "no") as Hiff.
  { unfold deriveSignals. cbn [needsMoreScaffold].
    destruct (feedback ≫= digestible) as [d|];
      [|cbn; split; [discriminate | intros [?|?]; discriminate]].
    destruct d as [|c d];
      [cbn; split; [discriminate | intros [?|?]; discriminate]|].
    cbn [truthy_str]. rewrite orb_true_iff, !bool_decide_eq_true. tauto. }
  split; [exact Hiff|]. split; [|done].
  intros H. apply not_true_is_false. rewrite Hiff.
  destruct H as [-> | ->]; intros [?|?]; discriminate.
Qed.

End Signals.

(** ** Run and session lifecycle *)

Section Lifecycle.

Implicit Types (st : AppState) (r : ClassRun) (rs : list ClassRun).
Implicit Types (rid aid now : string) (p : ClassProfile).

Lemma findRun_Some rid rs r : findRun rid rs = Some r → id r = rid ∧ r ∈ rs.
Proof.
  unfold findRun. intros H. apply find_some in H as [Hin Hid].
  apply bool_decide_eq_true in Hid. by rewrite list_elem_of_In.
Qed.

Lemma findRun_elem_of rid rs r : findRun rid rs = Some r → rid ∈ map id rs.
Proof.
  intros [<- Hin]%findRun_Some. apply list_elem_of_fmap. eauto.
Qed.

Lemma findRun_cons rid r rs :
  findRun rid (r :: rs) = if bool_decide (id r = rid) then Some r else findRun rid rs.
Proof. reflexivity. Qed.

(** Rewriting the runs of one identifier rewrites the run found under it. *)
Lemma findRun_mapActive rid aid (f : ClassRun → ClassRun) rs :
  (∀ r, id r = aid → id (f r) = aid) →
  findRun rid (mapActive aid f rs)
  = (if bool_decide (rid = aid) then f else (fun r => r)) <$> findRun rid rs.
Proof.
  intros Hf. induction rs as [|r rs IH]; [done|].
  cbn [mapActive map]. fold (mapActive aid f rs).
  rewrite !findRun_cons, IH. clear IH.
  pose proof (Hf r) as Hr.
  repeat case_bool_decide; simplify_eq; try done; exfalso; eauto.
Qed.

Lemma findRun_filter rid d rs :
  findRun rid (filter (fun r => id r ≠ d) rs)
  = if bool_decide (rid = d) then None else findRun rid rs.
Proof.
  induction rs as [|r rs IH].
  - by destruct (bool_decide (rid = d)).
  - rewrite filter_cons. destruct (decide (id r ≠ d)) as [Hd|Hd].
    + rewrite !findRun_cons, IH.
      destruct (decide (id r = rid)) as [Hr|Hr].
      * rewrite (bool_decide_eq_true_2 _ Hr).
        rewrite bool_decide_eq_false_2; [done | congruence].
      * by rewrite (bool_decide_eq_false_2 _ Hr).
    + rewrite IH, findRun_cons. apply dec_stable in Hd.
      destruct (decide (rid = d)) as [->|Hne].
      * by rewrite !bool_decide_eq_true_2.
      * rewrite (bool_decide_eq_false_2 (rid = d)) by done.
        rewrite bool_decide_eq_false_2; [done | congruence].
Qed.

Lemma commit_alert st msg : commit st [alert msg] = st.
Proof. reflexivity. Qed.

Lemma commit_app st us vs : commit st (us ++ vs) = commit (commit st us) vs.
Proof. apply fold_left_app. Qed.

(** The three ways [generateNextPlan] ends. *)
Lemma generateNextPlan_cases now st :
  let run := findRun (activeId st) (runs st) in
  let pf := default (formProfile st) (runProfile run) in
  let nextIndex := (runLength run + 1)%nat in
  (subject pf = "" ∧ generateNextPlan now st = [alert msgSubject])
  ∨ (subject pf ≠ "" ∧
     (num_or (totalSessions pf) 1 < of_nat nextIndex)%Q ∧
     generateNextPlan now st = [alert msgAllGenerated])
  ∨ (subject pf ≠ "" ∧
     (of_nat nextIndex <= num_or (totalSessions pf) 1)%Q ∧
     generateNextPlan now st =
       [setRuns (mapActive (activeId st)
          (fun r => withSessions
             (sessions r ++ [makePlan now pf (lastFeedback run) nextIndex]) r))]).
Proof.
  intros run pf nextIndex. unfold generateNextPlan.
  fold run. fold pf. fold nextIndex.
  destruct (subject pf) as [|c s] eqn:Hs; [by left|]. right.
  cbn [truthy_str negb].
  destruct (num_lt (num_or (totalSessions pf) 1) (of_nat nextIndex)) eqn:Hlt.
  - left. split; [done|]. split; [|done]. by apply num_lt_iff.
  - right. split; [done|]. split; [|done].
    apply Qnot_lt_le. rewrite <- num_lt_iff. congruence.
Qed.

(** What a generation request does to the runs; the selection is kept. *)
Lemma generate_commit now st :
  let run := findRun (activeId st) (runs st) in
  let pf := default (formProfile st) (runProfile run) in
  let st' := commit st (generateNextPlan now st) in
  activeId st' = activeId st ∧
  (st' = st ∧ alerts (generateNextPlan now st) ≠ []
   ∨ alerts (generateNextPlan now st) = [] ∧
     subject pf ≠ "" ∧
     (of_nat (runLength run + 1) <= num_or (totalSessions pf) 1)%Q ∧
     runs st' = mapActive (activeId st)
                  (appendPlan (makePlan now pf (lastFeedback run)
                                 (runLength run + 1))) (runs st)).
Proof.
  intros run pf st'. subst st'.
  destruct (generateNextPlan_cases now st) as [[_ ->]|[(_ & _ & ->)|(? & ? & ->)]].
  - split; [done|]. by left.
  - split; [done|]. by left.
  - split; [done|]. right. done.
Qed.

Lemma findRun_appendPlan aid rec rs r :
  findRun aid rs = Some r →
  findRun aid (mapActive aid (appendPlan rec) rs) = Some (appendPlan rec r).
Proof.
  intros H. rewrite findRun_mapActive by done. rewrite H. cbn.
  by rewrite bool_decide_eq_true_2.
Qed.

Lemma submit_updates now st r :
  findRun (activeId st) (runs st) = Some r → sessions r ≠ [] →
  submitFeedbackAndGenerate now st
  = [setRuns (mapActive (activeId st) (fun _ => attachFeedback (formFeedback st) r));
     setFeedback defaultFeedback] ++ generateNextPlan now st.
Proof.
  intros Hr Hs. unfold submitFeedbackAndGenerate. rewrite Hr.
  destruct (sessions r) eqn:E; [done|]. cbn [length Nat.eqb].
  unfold attachFeedback. by rewrite E.
Qed.

Lemma submit_refused now st :
  (∀ r, findRun (activeId st) (runs st) = Some r → sessions r = []) →
  submitFeedbackAndGenerate now st = [alert msgNoPlan].
Proof.
  intros H. unfold submitFeedbackAndGenerate.
  destruct (findRun (activeId st) (runs st)) as [r|]; [|done].
  by rewrite (H r eq_refl).
Qed.

(** What a feedback submission does to the runs. *)
Lemma submit_commit now st r :
  findRun (activeId st) (runs st) = Some r → sessions r ≠ [] →
  let pf := default (formProfile st) (profile r) in
  let fed := attachFeedback (formFeedback st) r in
  let st' := commit st (submitFeedbackAndGenerate now st) in
  activeId st' = activeId st ∧
  (runs st' = mapActive (activeId st) (fun _ => fed) (runs st)
   ∨ subject pf ≠ "" ∧
     (of_nat (length (sessions r) + 1) <= num_or (totalSessions pf) 1)%Q ∧
     runs st' =
       mapActive (activeId st)
         (appendPlan (makePlan now pf (lastFeedback (Some r))
                        (length (sessions r) + 1)))
         (mapActive (activeId st) (fun _ => fed) (runs st))).
Proof.
  intros Hr Hs pf fed st'. subst st'.
  rewrite (submit_updates _ _ _ Hr Hs), commit_app.
  pose proof (generateNextPlan_cases now st) as Hgen.
  rewrite Hr in Hgen. cbn [runProfile runLength] in Hgen. fold pf in Hgen.
  destruct Hgen as [[_ ->]|[(_ & _ & ->)|(? & ? & ->)]]; cbn.
  - split; [done|]. by left.
  - split; [done|]. by left.
  - split; [done|]. right. done.
Qed.

Lemma findRun_attachFeedback aid fb rs r :
  findRun aid rs = Some r →
  findRun aid (mapActive aid (fun _ => attachFeedback fb r) rs)
  = Some (attachFeedback fb r).
Proof.
  intros H. rewrite findRun_mapActive.
  - rewrite H. cbn. by rewrite bool_decide_eq_true_2.
  - intros _ _. by apply findRun_Some in H as [? _].
Qed.

Lemma length_attachFeedback fb r :
  length (sessions (attachFeedback fb r)) = length (sessions r).
Proof. cbn. apply length_imap. Qed.

(** C9: a run whose saved profile has an empty subject gets no plan: the
    request raises the alert, queues nothing, and leaves the runs, and
    with them the session list, as they were. *)
Theorem C9_empty_subject_refused now st r p :
  findRun (activeId st) (runs st) = Some r → profile r = Some p →
  subject p = "" →
  handler (clickGenerate now) st = [alert msgSubject]
  ∧ alerts (handler (clickGenerate now) st) = [msgSubject]
  ∧ step st (clickGenerate now) = st
  ∧ findRun (activeId st) (runs (step st (clickGenerate now))) = Some r.
Proof.
  intros Hr Hp Hs.
  assert (generateNextPlan now st = [alert msgSubject]) as Hgen.
  { unfold generateNextPlan. rewrite Hr. cbn. rewrite Hp. cbn. by rewrite Hs. }
  unfold step. cbn [handler]. by rewrite Hgen.
Qed.

Lemma C9_empty_subject_refused_witness :
  handler (clickGenerate "day-1") (mounted "run-1") = [alert msgSubject]
  ∧ alerts (handler (clickGenerate "day-1") (mounted "run-1")) = [msgSubject]
  ∧ step (mounted "run-1") (clickGenerate "day-1") = mounted "run-1"
  ∧ findRun (activeId (mounted "run-1"))
      (runs (step (mounted "run-1") (clickGenerate "day-1")))
    = Some {| id := "run-1"; profile := Some newEmptyProfile; sessions := [] |}.
Proof.
  apply (C9_empty_subject_refused "day-1" (mounted "run-1")
           {| id := "run-1"; profile := Some newEmptyProfile; sessions := [] |}
           newEmptyProfile); reflexivity.
Defined.

Lemma of_nat_succ (n : nat) : (of_nat (n + 1) == of_nat n + 1)%Q.
Proof.
  unfold of_nat. rewrite Nat2Z.inj_add, inject_Z_plus. reflexivity.
Qed.

Lemma num_or_pos (x d : Q) : (0 < x)%Q → num_or x d = x.
Proof.
  intros H. apply num_or_eq. intros E. rewrite E in H.
  by apply Qlt_irrefl in H.
Qed.

(** One event of the plan/feedback loop keeps the active run within the
    sessions its profile asks for. *)
Lemma planning_step st ev r p :
  planning ev →
  findRun (activeId st) (runs st) = Some r → profile r = Some p →
  (0 < totalSessions p)%Q →
  (of_nat (length (sessions r)) <= totalSessions p)%Q →
  activeId (step st ev) = activeId st ∧
  ∃ r', findRun (activeId st) (runs (step st ev)) = Some r' ∧
        profile r' = Some p ∧
        (of_nat (length (sessions r')) <= totalSessions p)%Q.
Proof.
  intros Hev Hr Hp Hpos Hlen. destruct ev; try done; unfold step; cbn [handler].
  - destruct (generate_commit now st) as [Ha [[-> _]|(_ & _ & Hle & ->)]].
    + split; [done|]. by exists r.
    + split; [done|]. rewrite Hr in Hle |- *.
      cbn [runProfile runLength default from_option Datatypes.id] in Hle |- *. rewrite Hp in Hle |- *.
      cbn [default from_option Datatypes.id] in Hle |- *. rewrite (num_or_pos _ _ Hpos) in Hle.
      eexists. split; [by apply findRun_appendPlan|]. split; [done|].
      cbn. by rewrite length_app.
  - destruct (decide (sessions r = [])) as [Hs|Hs].
    { rewrite submit_refused.
      - split; [done|]. by exists r.
      - intros r0. rewrite Hr. by intros [= <-]. }
    destruct (submit_commit now st r Hr Hs) as [Ha [->|(_ & Hle & ->)]].
    + split; [done|]. eexists. split; [by apply findRun_attachFeedback|].
      split; [done|]. by rewrite length_attachFeedback.
    + split; [done|]. rewrite Hp in Hle. cbn [default from_option Datatypes.id] in Hle.
      rewrite (num_or_pos _ _ Hpos) in Hle.
      eexists. split.
      { apply findRun_appendPlan. by apply findRun_attachFeedback. }
      split; [done|]. cbn [appendPlan withSessions sessions].
      by rewrite length_app, length_attachFeedback.
  - split; [done|]. by exists r.
  - split; [done|]. by exists r.
Qed.

Lemma planning_trace evs : ∀ st r p,
  Forall planning evs →
  findRun (activeId st) (runs st) = Some r → profile r = Some p →
  (0 < totalSessions p)%Q →
  (of_nat (length (sessions r)) <= totalSessions p)%Q →
  ∃ r', findRun (activeId st) (runs (run_events st evs)) = Some r' ∧
        profile r' = Some p ∧
        (of_nat (length (sessions r')) <= totalSessions p)%Q.
Proof.
  induction evs as [|ev evs IH]; intros st r p Hevs Hr Hp Hpos Hlen.
  - by exists r.
  - inversion Hevs as [|? ? Hev Hevs']; subst.
    destruct (planning_step st ev r p Hev Hr Hp Hpos Hlen)
      as (Ha & r1 & Hr1 & Hp1 & Hlen1).
    cbn [run_events fold_left]. fold (run_events (step st ev) evs).
    rewrite <- Ha in Hr1 |- *. by apply (IH _ r1).
Qed.

(** C2, as the specification states it, fails: with [totalSessions = 0]
    and no session yet, so that [sessions.length == totalSessions], the
    request is accepted and the run ends with more sessions than its
    profile asks for. *)
Lemma C2_zero_total_still_plans :
  findRun (activeId nothingPlanned) (runs nothingPlanned)
  = Some {| id := "run-1"; profile := Some noSessions; sessions := [] |}
  ∧ (of_nat 0 == totalSessions noSessions)%Q
  ∧ alerts (handler (clickGenerate "day-1") nothingPlanned) = []
  ∧ map (fun r => length (sessions r))
        (runs (step nothingPlanned (clickGenerate "day-1"))) = [1%nat].
Proof. repeat split. Qed.

(** C2 (amended): for a run whose saved profile has a positive
    [totalSessions], a generation request made when [sessions.length]
    equals [totalSessions] is refused with an alert and leaves the state
    unchanged; and plan generation and feedback submission never take
    [sessions.length] above [totalSessions].  (A [totalSessions] of zero
    counts as one, and saving a profile is not checked against the
    sessions already generated.) *)
Theorem C2_generation_guard now st r p :
  findRun (activeId st) (runs st) = Some r → profile r = Some p →
  (0 < totalSessions p)%Q →
  ((of_nat (length (sessions r)) == totalSessions p)%Q →
   handler (clickGenerate now) st
   = [alert (if truthy_str (subject p) then msgAllGenerated else msgSubject)]
   ∧ step st (clickGenerate now) = st)
  ∧ ((of_nat (length (sessions r)) <= totalSessions p)%Q →
     ∀ evs, Forall planning evs →
       ∃ r', findRun (activeId st) (runs (run_events st evs)) = Some r' ∧
             profile r' = Some p ∧
             (of_nat (length (sessions r')) <= totalSessions p)%Q).
Proof.
  intros Hr Hp Hpos. split.
  - intros Hlen.
    assert (generateNextPlan now st
            = [alert (if truthy_str (subject p) then msgAllGenerated
                      else msgSubject)]) as Hgen.
    { pose proof (generateNextPlan_cases now st) as Hgen.
      rewrite Hr in Hgen. cbn [runProfile runLength] in Hgen.
      rewrite Hp in Hgen. cbn [default from_option Datatypes.id] in Hgen.
      rewrite (num_or_pos _ _ Hpos) in Hgen.
      destruct Hgen as [[Hs ->]|[(Hs & _ & ->)|(_ & Hle & _)]].
      - by rewrite Hs.
      - by destruct (subject p).
      - rewrite of_nat_succ, Hlen in Hle. exfalso.
        apply (Qlt_not_le (totalSessions p) (totalSessions p + 1)); [|done].
        rewrite <- (Qplus_0_r (totalSessions p)) at 1.
        by apply Qplus_lt_r. }
    unfold step. cbn [handler]. by rewrite Hgen.
  - intros Hlen evs Hevs. by apply (planning_trace evs st r p).
Qed.

Lemma C2_generation_guard_witness :
  ((of_nat (length (sessions
      {| id := "run-1"; profile := Some singleSession;
         sessions := [makePlan "day-1" singleSession None 1] |}))
    == totalSessions singleSession)%Q →
   handler (clickGenerate "day-2") onlyPlan
   = [alert (if truthy_str (subject singleSession) then msgAllGenerated
             else msgSubject)]
   ∧ step onlyPlan (clickGenerate "day-2") = onlyPlan)
  ∧ ((of_nat (length (sessions
        {| id := "run-1"; profile := Some singleSession;
           sessions := [makePlan "day-1" singleSession None 1] |}))
      <= totalSessions singleSession)%Q →
     ∀ evs, Forall planning evs →
       ∃ r', findRun (activeId onlyPlan) (runs (run_events onlyPlan evs))
             = Some r' ∧
             profile r' = Some singleSession ∧
             (of_nat (length (sessions r')) <= totalSessions singleSession)%Q).
Proof.
  apply (C2_generation_guard "day-2" onlyPlan
           {| id := "run-1"; profile := Some singleSession;
              sessions := [makePlan "day-1" singleSession None 1] |}
           singleSession); reflexivity.
Defined.

(** The defect behind C1: the plan queued by a feedback submission is
    computed from the run of the current render, where the feedback just
    entered is not yet attached. *)
Lemma submit_plans_from_stale_run now st r p :
  findRun (activeId st) (runs st) = Some r → sessions r ≠ [] →
  profile r = Some p → subject p ≠ "" →
  (of_nat (length (sessions r) + 1) <= num_or (totalSessions p) 1)%Q →
  findRun (activeId st) (runs (step st (clickSubmitFeedback now)))
  = Some (appendPlan
            (makePlan now p (lastFeedback (Some r)) (length (sessions r) + 1))
            (attachFeedback (formFeedback st) r)).
Proof.
  intros Hr Hs Hp Hsub Hle. unfold step. cbn [handler].
  rewrite (submit_updates _ _ _ Hr Hs), commit_app.
  pose proof (generateNextPlan_cases now st) as Hgen.
  rewrite Hr in Hgen. cbn [runProfile runLength] in Hgen.
  rewrite Hp in Hgen. cbn [default from_option Datatypes.id] in Hgen.
  destruct Hgen as [[? _]|[(_ & Hlt & _)|(_ & _ & ->)]].
  - done.
  - exfalso. by apply (Qlt_not_le _ _ Hlt).
  - cbn. apply findRun_appendPlan. by apply findRun_attachFeedback.
Qed.

(** C1 on the scenario of the specification.  The first plan is
    generated and the feedback is attached to it, but session 2 is
    planned as if no feedback had been given: its text is the one for
    absent feedback, with [needsMoreScaffold = false], where the feedback
    just recorded asks for [needsMoreScaffold = true].  The third request
    is refused. *)
Theorem C1_feedback_reaches_plan_too_late :
  map (fun r => length (sessions r)) (runs firstPlan) = [1%nat]
  ∧ (∃ s1 s2,
       map sessions (runs afterFeedback) = [[s1; s2]] ∧
       feedback s1 = Some lowFeedback ∧
       sessionNumber s2 = 2%nat ∧
       planMd s2 = makePlanMarkdown robotics None 2 ∧
       planMd s2 ≠ makePlanMarkdown robotics (Some lowFeedback) 2)
  ∧ needsMoreEngagement (deriveSignals (Some robotics) (Some lowFeedback) 2) = true
  ∧ needsMoreScaffold (deriveSignals (Some robotics) (Some lowFeedback) 2) = true
  ∧ needsMoreScaffold (deriveSignals (Some robotics) None 2) = false
  ∧ handler (clickGenerate "day-3") afterFeedback = [alert msgAllGenerated]
  ∧ step afterFeedback (clickGenerate "day-3") = afterFeedback.
Proof.
  split; [reflexivity|]. split.
  - eexists _, _. split; [reflexivity|]. split; [reflexivity|].
    split; [reflexivity|]. split; [reflexivity|].
    vm_compute. discriminate.
  - repeat split.
Qed.

(** *** Records over time *)

Lemma commit_selection st us :
  Forall (fun u => match u with setRuns _ => False | _ => True end) us →
  runs (commit st us) = runs st.
Proof.
  revert st. induction us as [|u us IH]; intros st H; [done|].
  inversion H; subst.
  change (commit st (u :: us)) with (commit (apply_update st u) us).
  rewrite IH by done. by destruct u.
Qed.

Lemma extends_refl r : extends r r.
Proof. split; [done|]. intros i s H. by exists s. Qed.

Lemma extends_trans r1 r2 r3 : extends r1 r2 → extends r2 r3 → extends r1 r3.
Proof.
  intros [Hl1 H1] [Hl2 H2]. split; [lia|].
  intros i s Hs. destruct (H1 i s Hs) as (s2 & Hs2 & Hn & Hg & Hp & He).
  destruct (H2 i s2 Hs2) as (s3 & Hs3 & Hn' & Hg' & Hp' & He').
  exists s3. repeat split; try congruence.
  intros Hi. rewrite He', He by lia. done.
Qed.

Lemma extends_appendPlan rec r : extends r (appendPlan rec r).
Proof.
  split; [cbn; rewrite length_app; lia|].
  intros i s Hs. exists s. cbn. by rewrite (lookup_app_l_Some _ _ _ _ Hs).
Qed.

Lemma extends_withProfile p r : extends r (withProfile p r).
Proof. split; [done|]. intros i s H. by exists s. Qed.

Lemma extends_attachFeedback fb r : extends r (attachFeedback fb r).
Proof.
  split; [by rewrite length_attachFeedback|].
  intros i s Hs. cbn. rewrite list_lookup_imap, Hs. cbn.
  destruct (Nat.eqb_spec i (length (sessions r) - 1)) as [->|Hne].
  - eexists. split; [done|]. repeat split. intros Hi. lia.
  - by exists s.
Qed.

(** A run found after an event was there before it, and has only been
    extended. *)
Lemma step_find st ev rid r' :
  (∀ u, ev = clickNewClass u → u ≠ rid) →
  findRun rid (runs (step st ev)) = Some r' →
  ∃ r, findRun rid (runs st) = Some r ∧ extends r r'.
Proof.
  assert (∀ rs, findRun rid rs = Some r' →
          ∃ r, findRun rid rs = Some r ∧ extends r r') as Hsame.
  { intros rs H. exists r'. split; [done | apply extends_refl]. }
  intros Hu. destruct ev; unfold step; cbn [handler].
  - destruct (generate_commit now st) as [_ [[-> _]|(_ & _ & _ & ->)]];
      [apply Hsame|].
    rewrite findRun_mapActive by done.
    destruct (findRun rid (runs st)) as [r|]; [|done]. cbn.
    intros [= <-]. exists r. split; [done|].
    case_bool_decide; [apply extends_appendPlan | apply extends_refl].
  - destruct (findRun (activeId st) (runs st)) as [ra|] eqn:Ha; last first.
    { rewrite submit_refused by (intros ?; by rewrite Ha). apply Hsame. }
    destruct (decide (sessions ra = [])) as [Hs|Hs].
    { rewrite submit_refused by (intros ?; rewrite Ha; by intros [= <-]).
      apply Hsame. }
    assert (id ra = activeId st) as Hid by (by apply findRun_Some in Ha as [? _]).
    destruct (submit_commit now st ra Ha Hs) as [_ [->|(_ & _ & ->)]].
    + rewrite findRun_mapActive by done.
      destruct (findRun rid (runs st)) as [r|] eqn:Hr; [|done]. cbn.
      intros [= <-]. exists r. split; [done|].
      case_bool_decide as Hd; [|apply extends_refl].
      subst rid. rewrite Ha in Hr. injection Hr as ->.
      apply extends_attachFeedback.
    + rewrite !findRun_mapActive by done.
      destruct (findRun rid (runs st)) as [r|] eqn:Hr; [|done]. cbn.
      intros [= <-]. exists r. split; [done|].
      case_bool_decide as Hd; [|apply extends_refl].
      subst rid. rewrite Ha in Hr. injection Hr as ->.
      eapply extends_trans;
        [apply extends_attachFeedback | apply extends_appendPlan].
  - unfold saveProfile. cbn [commit fold_left apply_update runs].
    rewrite findRun_mapActive by done.
    destruct (findRun rid (runs st)) as [r|]; [|done]. cbn.
    intros [= <-]. exists r. split; [done|].
    case_bool_decide; [apply extends_withProfile | apply extends_refl].
  - unfold newClassRun. cbn [commit fold_left apply_update runs].
    rewrite findRun_cons. cbn [id].
    rewrite bool_decide_eq_false_2 by (by apply Hu). apply Hsame.
  - unfold deleteRun. destruct confirmed; cbn [negb]; [|apply Hsame].
    change (commit st (?u :: ?us)) with (commit (apply_update st u) us).
    rewrite commit_selection.
    + cbn [apply_update runs]. rewrite findRun_filter.
      case_bool_decide; [done | apply Hsame].
    + destruct (filter _ (runs st)) as [|r0 ?]; [constructor|].
      case_bool_decide; repeat constructor.
  - rewrite commit_selection
      by (destruct (runs st !! i); repeat constructor).
    apply Hsame.
  - rewrite commit_selection by repeat constructor. apply Hsame.
  - rewrite commit_selection by repeat constructor. apply Hsame.
Qed.

Lemma trace_find evs : ∀ st used rid r',
  rid ∈ used → fresh_uuids used evs →
  findRun rid (runs (run_events st evs)) = Some r' →
  ∃ r, findRun rid (runs st) = Some r ∧ extends r r'.
Proof.
  induction evs as [|ev evs IH]; intros st used rid r' Hin Hfresh Hr'.
  - exists r'. split; [done | apply extends_refl].
  - change (run_events st (ev :: evs)) with (run_events (step st ev) evs) in Hr'.
    assert ((∀ u, ev = clickNewClass u → u ≠ rid) ∧
            ∃ used', rid ∈ used' ∧ fresh_uuids used' evs) as [Hu (used' & Hin' & Hfresh')].
    { destruct ev; try (split; [done | by exists used]).
      destruct Hfresh as [Hnew Hfresh]. split.
      - intros u [= <-] ->. done.
      - exists (uuid :: used). split; [by right | done]. }
    destruct (IH _ _ _ _ Hin' Hfresh' Hr') as (r1 & Hr1 & He1).
    destruct (step_find _ _ _ _ Hu Hr1) as (r & Hr & He).
    exists r. split; [done|]. by apply (extends_trans _ r1).
Qed.

(** C6, as the specification states it, fails: when the run is complete
    no new record follows a submission, and the next submission replaces
    the feedback of the same record. *)
Lemma C6_feedback_overwritten :
  map (fun r => map feedback (sessions r)) (runs onlyPlan) = [[None]]
  ∧ map (fun r => map feedback (sessions r)) (runs firstOpinion)
    = [[Some lowFeedback]]
  ∧ map (fun r => map feedback (sessions r)) (runs secondOpinion)
    = [[Some goodFeedback]]
  ∧ Some lowFeedback ≠ Some goodFeedback.
Proof. repeat split. discriminate. Qed.

(** C6 (amended): over every sequence of operations in which each new
    class draws a fresh identifier, a record of a run that still exists
    keeps its [sessionNumber], [generatedAt] and [planMd], and a record
    that is not the last of its run is kept whole, feedback included.
    The feedback of the last record is written by each feedback
    submission, and so may be replaced as long as no record follows. *)
Theorem C6_records_are_kept st evs rid r r' i s :
  fresh_uuids (map id (runs st)) evs →
  findRun rid (runs st) = Some r →
  findRun rid (runs (run_events st evs)) = Some r' →
  sessions r !! i = Some s →
  ∃ s', sessions r' !! i = Some s' ∧
        sessionNumber s' = sessionNumber s ∧
        generatedAt s' = generatedAt s ∧
        planMd s' = planMd s ∧
        ((S i < length (sessions r))%nat → s' = s).
Proof.
  intros Hfresh Hr Hr' Hs.
  destruct (trace_find evs st _ rid r' (findRun_elem_of _ _ _ Hr) Hfresh Hr')
    as (r0 & Hr0 & [_ He]).
  rewrite Hr in Hr0. injection Hr0 as <-. by apply He.
Qed.

Lemma C6_records_are_kept_witness :
  ∃ s', sessions {| id := "run-1"; profile := Some singleSession;
                    sessions := [withFeedback lowFeedback
                                   (makePlan "day-1" singleSession None 1)] |}
          !! 0%nat = Some s' ∧
        sessionNumber s' = sessionNumber (makePlan "day-1" singleSession None 1) ∧
        generatedAt s' = generatedAt (makePlan "day-1" singleSession None 1) ∧
        planMd s' = planMd (makePlan "day-1" singleSession None 1) ∧
        ((1 < length (sessions
            {| id := "run-1"; profile := Some singleSession;
               sessions := [makePlan "day-1" singleSession None 1] |}))%nat →
         s' = makePlan "day-1" singleSession None 1).
Proof.
  apply (C6_records_are_kept onlyPlan
           [editFeedback lowFeedback; clickSubmitFeedback "day-2"] "run-1"
           {| id := "run-1"; profile := Some singleSession;
              sessions := [makePlan "day-1" singleSession None 1] |}
           {| id := "run-1"; profile := Some singleSession;
              sessions := [withFeedback lowFeedback
                             (makePlan "day-1" singleSession None 1)] |}
           0%nat (makePlan "day-1" singleSession None 1));
    [exact I | reflexivity | reflexivity | reflexivity].
Defined.

End Lifecycle.

(** ** Persistence *)

Section Loading.

(** C5, as the specification states it, fails: a stored text that is
    valid JSON and truthy is handed back as parsed, whether or not it is
    a list of runs. *)
Lemma C5_object_is_returned :
  parse "{}" = Some (JObj [])
  ∧ runs_of_js (JObj []) = None
  ∧ loadRuns (Some "{}") = JObj []
  ∧ loadRuns (Some "{}") ≠ JArr []
  ∧ loadRuns (Some "42") = JNum 42.
Proof. repeat split. discriminate. Qed.

(** C5 (amended): loading never fails, and returns the empty list when
    the key is absent, when the stored text is empty or is not valid
    JSON, and when it parses to a falsy value (null, false, 0 or the
    empty string); any other valid JSON text is returned as parsed,
    without a check that it is a list of runs. *)
Theorem C5_load_degrades (store : Storage) :
  (store = None ∨ store = Some "" → loadRuns store = JArr [])
  ∧ (∀ s, store = Some s → JSON.parse s = None → loadRuns store = JArr [])
  ∧ (∀ s v, store = Some s → JSON.parse s = Some v → falsy v = true →
       loadRuns store = JArr [])
  ∧ (∀ s v, store = Some s → JSON.parse s = Some v → falsy v = false →
       loadRuns store = v).
Proof.
  repeat split.
  - by intros [-> | ->].
  - intros s -> Hp. destruct s as [|c s]; [done|]. unfold loadRuns. cbn.
    by rewrite Hp.
  - intros s v -> Hp Hf. destruct s as [|c s]; [done|]. unfold loadRuns. cbn.
    by rewrite Hp, Hf.
  - intros s v -> Hp Hf. destruct s as [|c s]; [done|]. unfold loadRuns. cbn.
    by rewrite Hp, Hf.
Qed.

End Loading.

(** ** The JSON text of a value parses back to it *)

Module RoundTrip.

#[local] Arguments String.append : simpl nomatch.

(** *** Strings *)

Lemma append_assoc (a b c : string) : (a +:+ b) +:+ c = a +:+ (b +:+ c).
Proof. induction a as [|x a IH]; [done|]. cbn. by rewrite IH. Qed.

Lemma append_nil_r (a : string) : a +:+ "" = a.
Proof. induction a as [|x a IH]; [done|]. cbn. by rewrite IH. Qed.

Lemma length_append (a b : string) :
  String.length (a +:+ b) = (String.length a + String.length b)%nat.
Proof. induction a as [|x a IH]; [done|]. cbn. by rewrite IH. Qed.

(** *** Digits *)

Lemma code_chr (n : N) : (n < 256)%N → code (chr n) = n.
Proof. apply N_ascii_embedding. Qed.

Lemma digit_char_code (d : N) : (d < 10)%N → code (digit_char d) = (48 + d)%N.
Proof. intros H. apply N_ascii_embedding. lia. Qed.

Lemma is_digit_char (d : N) : (d < 10)%N → is_digit (digit_char d) = true.
Proof.
  intros H. unfold is_digit. fold (code (digit_char d)).
  rewrite (digit_char_code _ H). apply andb_true_iff. split; apply N.leb_le; lia.
Qed.

Lemma digit_val_char (d : N) : (d < 10)%N → digit_val (digit_char d) = d.
Proof.
  intros H. unfold digit_val. fold (code (digit_char d)).
  rewrite (digit_char_code _ H). lia.
Qed.

Lemma N_digits_app fuel : ∀ n acc, N_digits fuel n acc = N_digits fuel n "" +:+ acc.
Proof.
  induction fuel as [|k IH]; intros n acc; [done|]. simpl.
  destruct (n <? 10)%N; [done|].
  rewrite IH, (IH _ (String _ "")). by rewrite append_assoc.
Qed.

Lemma digits_val_app (s1 s2 : string) : ∀ a,
  digits_val a (s1 +:+ s2) = digits_val (digits_val a s1) s2.
Proof. induction s1 as [|c s1 IH]; intros a; [done|]. cbn. apply IH. Qed.

Lemma digits_val_acc (s : string) : ∀ a,
  digits_val a s = (a * 10 ^ N.of_nat (String.length s) + digits_val 0 s)%N.
Proof.
  induction s as [|c s IH]; intros a.
  - cbn. lia.
  - cbn [digits_val String.length]. rewrite IH, (IH (10 * 0 + _)%N).
    rewrite Nat2N.inj_succ, N.pow_succ_r'. lia.
Qed.

Lemma digits_val_N_digits fuel : ∀ n,
  (n < 10 ^ N.of_nat fuel)%N → digits_val 0 (N_digits fuel n "") = n.
Proof.
  induction fuel as [|k IH]; intros n Hn.
  - cbn in *. lia.
  - simpl N_digits. destruct (N.ltb_spec n 10) as [Hlt|Hge].
    + cbn. rewrite digit_val_char by (apply N.mod_lt; lia).
      rewrite N.mod_small by done. lia.
    + rewrite N_digits_app, digits_val_app, IH.
      * cbn [digits_val]. rewrite digit_val_char by (apply N.mod_lt; lia).
        symmetry. apply N.div_mod'.
      * apply N.Div0.div_lt_upper_bound.
        by rewrite Nat2N.inj_succ, N.pow_succ_r' in Hn.
Qed.

Lemma N_toString_fuel (n : N) : (n < 10 ^ N.of_nat (S (N.to_nat (N.size n))))%N.
Proof.
  rewrite Nat2N.inj_succ, N2Nat.id, N.pow_succ_r'.
  pose proof (N.size_gt n) as H.
  assert (2 ^ N.size n <= 10 ^ N.size n)%N by (apply N.pow_le_mono_l; lia).
  assert (0 < 10 ^ N.size n)%N by (apply N.neq_0_lt_0, N.pow_nonzero; lia).
  lia.
Qed.

Lemma N_toString_val (n : N) : digits_val 0 (N_toString n) = n.
Proof. apply digits_val_N_digits, N_toString_fuel. Qed.

Lemma all_digits_app (s1 s2 : string) :
  all_digits s1 = true → all_digits s2 = true → all_digits (s1 +:+ s2) = true.
Proof.
  induction s1 as [|c s1 IH]; [done|]. cbn.
  intros [-> H1]%andb_true_iff H2. by apply IH.
Qed.

Lemma all_digits_N_digits fuel : ∀ n acc,
  all_digits acc = true → all_digits (N_digits fuel n acc) = true.
Proof.
  induction fuel as [|k IH]; intros n acc Hacc; [done|]. simpl.
  assert (all_digits (String (digit_char (n mod 10)) acc) = true) as H.
  { cbn. rewrite is_digit_char by (apply N.mod_lt; lia). done. }
  destruct (n <? 10)%N; [done|]. by apply IH.
Qed.

Lemma all_digits_N_toString (n : N) : all_digits (N_toString n) = true.
Proof. by apply all_digits_N_digits. Qed.

(** A positive number starts with a digit other than zero. *)
Lemma N_digits_head fuel : ∀ n acc,
  (0 < n < 10 ^ N.of_nat fuel)%N →
  ∃ c t, N_digits fuel n acc = String c (t +:+ acc) ∧ code c ≠ 48%N.
Proof.
  induction fuel as [|k IH]; intros n acc Hn.
  - cbn in Hn. lia.
  - simpl. destruct (N.ltb_spec n 10) as [Hlt|Hge].
    + exists (digit_char (n mod 10)), "". split; [done|].
      rewrite digit_char_code by (apply N.mod_lt; lia).
      rewrite N.mod_small by done. lia.
    + destruct (IH (n / 10)%N (String (digit_char (n mod 10)) acc))
        as (c & t & -> & Hc).
      * split.
        -- apply N.div_str_pos. lia.
        -- apply N.Div0.div_lt_upper_bound.
           rewrite Nat2N.inj_succ, N.pow_succ_r' in Hn. lia.
      * exists c, (t +:+ String (digit_char (n mod 10)) "").
        by rewrite append_assoc.
Qed.

Lemma int_part_ok_N_toString (n : N) : int_part_ok (N_toString n) = true.
Proof.
  destruct (N.eq_dec n 0%N) as [->|Hn]; [done|].
  destruct (N_digits_head (S (N.to_nat (N.size n))) n "") as (c & t & H & Hc).
  { pose proof (N_toString_fuel n). lia. }
  unfold N_toString. rewrite H. cbn.
  destruct (t +:+ ""); [done|]. by apply negb_true_iff, N.eqb_neq.
Qed.

Lemma N_toString_head (n : N) :
  ∃ c t, N_toString n = String c t ∧ is_digit c = true.
Proof.
  pose proof (all_digits_N_toString n) as H. unfold N_toString in *.
  simpl in *. destruct (n <? 10)%N.
  - cbn in H. apply andb_true_iff in H as [H _]. eauto.
  - rewrite N_digits_app in H |- *.
    destruct (N_digits _ _ "") as [|c t]; cbn in *;
      apply andb_true_iff in H as [H _]; eauto.
Qed.

Lemma take_digits_app (ds rest : string) :
  all_digits ds = true → no_digit_head rest = true →
  take_digits (ds +:+ rest) = (ds, rest).
Proof.
  intros Hds Hrest. induction ds as [|c ds IH].
  - destruct rest as [|c r]; [done|]. cbn in *.
    by apply negb_true_iff in Hrest as ->.
  - cbn in *. apply andb_true_iff in Hds as [-> Hds]. by rewrite IH.
Qed.

(** *** Fractions *)

Lemma frac_digits_all fuel (d : N) : ∀ r,
  (r < d)%N → all_digits (frac_digits fuel r d) = true.
Proof.
  induction fuel as [|k IH]; intros r Hr; [done|]. cbn.
  destruct (r =? 0)%N; [done|]. cbn. rewrite is_digit_char.
  - apply IH, N.mod_lt. lia.
  - apply N.Div0.div_lt_upper_bound; lia.
Qed.

Lemma frac_digits_val fuel (d : N) : ∀ r,
  (r < d)%N → frac_rest fuel r d = 0%N →
  (digits_val 0 (frac_digits fuel r d) * d
   = r * 10 ^ N.of_nat (String.length (frac_digits fuel r d)))%N.
Proof.
  induction fuel as [|k IH]; intros r Hr Hz.
  - cbn in *. lia.
  - cbn in *. destruct (N.eqb_spec r 0) as [->|Hne]; [done|].
    cbn [digits_val String.length].
    rewrite digit_val_char by (apply N.Div0.div_lt_upper_bound; lia).
    rewrite digits_val_acc, Nat2N.inj_succ, N.pow_succ_r'.
    specialize (IH _ (N.mod_lt (10 * r) d ltac:(lia)) Hz).
    set (len := N.of_nat (String.length _)) in *.
    set (v := digits_val 0 _) in *.
    pose proof (N.div_mod' (10 * r) d) as Hdm. nia.
Qed.

Lemma frac_digits_nonempty fuel (d r : N) :
  fuel ≠ O → r ≠ 0%N → frac_digits fuel r d ≠ "".
Proof.
  destruct fuel; [done|]. intros _ Hr. cbn.
  by destruct (N.eqb_spec r 0).
Qed.

(** *** Numbers *)

Lemma follow_head (rest : string) :
  follow rest = true →
  rest = "" ∨ ∃ c r, rest = String c r ∧
                     (code c = 44 ∨ code c = 93 ∨ code c = 125)%N.
Proof.
  destruct rest as [|c r]; [by left|]. cbn. intros H. right. exists c, r.
  split; [done|].
  apply orb_true_iff in H as [H|H]; [apply orb_true_iff in H as [H|H]|];
    apply N.eqb_eq in H; auto.
Qed.

Lemma follow_no_digit (rest : string) :
  follow rest = true → no_digit_head rest = true.
Proof.
  intros [->|(c & r & -> & Hc)]%follow_head; [done|].
  cbn. unfold is_digit. unfold code in Hc.
  by destruct Hc as [-> | [-> | ->]].
Qed.

Lemma follow_no_frac (rest : string) :
  follow rest = true → parse_frac rest = Some ("", rest).
Proof.
  intros [->|(c & r & -> & Hc)]%follow_head; [done|].
  cbn. by destruct Hc as [-> | [-> | ->]].
Qed.

Lemma follow_no_exp (rest : string) :
  follow rest = true → parse_exp rest = Some (0, rest).
Proof.
  intros [->|(c & r & -> & Hc)]%follow_head; [done|].
  cbn. by destruct Hc as [-> | [-> | ->]].
Qed.

Lemma follow_skip_ws (rest : string) : follow rest = true → skip_ws rest = rest.
Proof.
  intros [->|(c & r & -> & Hc)]%follow_head; [done|].
  cbn. unfold is_ws. by destruct Hc as [-> | [-> | ->]].
Qed.

Lemma parse_sign_digit (c : ascii) (s : string) :
  is_digit c = true → parse_sign (String c s) = (false, String c s).
Proof.
  unfold is_digit, parse_sign, code. intros [H _]%andb_true_iff.
  apply N.leb_le in H. destruct (N.eqb_spec (N_of_ascii c) 45); [lia|done].
Qed.

Lemma parse_sign_N_toString (n : N) (s : string) :
  parse_sign (N_toString n +:+ s) = (false, N_toString n +:+ s).
Proof.
  destruct (N_toString_head n) as (c & t & -> & Hdig).
  cbn [String.append]. by apply parse_sign_digit.
Qed.

Lemma scaled_eq (m : Z) (k : nat) (q : Q) :
  Qred q = q → m * Zpos (Qden q) = Qnum q * 10 ^ Z.of_nat k →
  scaled m (0 - Z.of_nat k) = q.
Proof.
  intros Hq H. rewrite <- Hq. unfold scaled. apply Qred_complete.
  assert (0 < 10 ^ Z.of_nat k) as Hpos by (apply Z.pow_pos_nonneg; lia).
  destruct k as [|k].
  - change (Z.of_nat 0) with 0 in *. change (10 ^ 0) with 1 in *.
    change (0 <=? 0 - 0) with true. change (10 ^ (0 - 0)) with 1.
    unfold Qeq. cbn [Qnum Qden]. lia.
  - destruct (Z.leb_spec 0 (0 - Z.of_nat (S k))) as [?|_]; [lia|].
    unfold Qeq. cbn [Qnum Qden].
    replace (- (0 - Z.of_nat (S k))) with (Z.of_nat (S k)) by lia.
    rewrite Z2Pos.id by done. done.
Qed.

Lemma num_ok_spec (q : Q) :
  num_ok q = true →
  Qred q = q ∧
  frac_rest (frac_fuel (Qden q))
    (Z.abs_N (Qnum q) mod Npos (Qden q)) (Npos (Qden q)) = 0%N.
Proof.
  unfold num_ok. intros [[Hn Hd]%andb_true_iff Hz]%andb_true_iff.
  apply Z.eqb_eq in Hn. apply Pos.eqb_eq in Hd. apply N.eqb_eq in Hz.
  split; [|done]. destruct (Qred q) as [n d], q as [n' d']. cbn in *.
  by subst.
Qed.

Lemma frac_fuel_pos (d : positive) : frac_fuel d ≠ O.
Proof. unfold frac_fuel. by destruct d. Qed.

Lemma parse_number_toString (q : Q) (rest : string) :
  num_ok q = true → follow rest = true →
  parse_number (Number_toString q +:+ rest) = Some (q, rest).
Proof.
  intros [Hred Hz]%num_ok_spec Hrest.
  unfold Number_toString.
  set (a := Z.abs_N (Qnum q)) in *. set (d := Npos (Qden q)) in *.
  set (fd := frac_digits (frac_fuel (Qden q)) (a mod d) d).
  assert (a mod d < d)%N as Hr by (by apply N.mod_lt).
  pose proof (frac_digits_val _ d _ Hr Hz) as Hval. fold fd in Hval.
  pose proof (frac_digits_all (frac_fuel (Qden q)) d _ Hr) as Hall. fold fd in Hall.
  set (fr := if (a mod d =? 0)%N then "" else "." +:+ fd).
  assert (take_digits (N_toString (a / d) +:+ fr +:+ rest)
          = (N_toString (a / d), fr +:+ rest)) as Hip.
  { apply take_digits_app; [apply all_digits_N_toString|].
    subst fr. destruct (a mod d =? 0)%N; [|done]. by apply follow_no_digit. }
  assert (parse_frac (fr +:+ rest) = Some (fd, rest)) as Hfrac.
  { subst fr. destruct (N.eqb_spec (a mod d) 0) as [E|E].
    - cbn. rewrite follow_no_frac by done. f_equal. f_equal.
      subst fd. rewrite E. by destruct (frac_fuel (Qden q)).
    - cbn. rewrite take_digits_app by (by try apply follow_no_digit).
      pose proof (frac_digits_nonempty _ d _ (frac_fuel_pos (Qden q)) E) as Hne.
      fold fd in Hne. by destruct fd. }
  assert (Z.of_N (digits_val 0 (N_toString (a / d) +:+ fd)) * Zpos (Qden q)
          = Z.abs (Qnum q) * 10 ^ Z.of_nat (String.length fd)) as Hm.
  { rewrite digits_val_app, N_toString_val, digits_val_acc.
    rewrite <- N2Z.inj_abs_N. fold a.
    change (Zpos (Qden q)) with (Z.of_N d).
    rewrite <- nat_N_Z. rewrite <- (N2Z.inj_pow 10), <- !N2Z.inj_mul.
    f_equal. pose proof (N.div_mod' a d). nia. }
  unfold parse_number. rewrite !append_assoc.
  destruct (Z.ltb_spec (Qnum q) 0) as [Hneg|Hpos].
  - cbn [String.append parse_sign]. change (code "-" =? 45)%N with true.
    cbv iota. rewrite Hip, int_part_ok_N_toString. cbn [negb]. rewrite Hfrac.
    rewrite follow_no_exp by done. f_equal. f_equal.
    apply scaled_eq; [done|]. lia.
  - cbn [String.append]. rewrite parse_sign_N_toString.
    rewrite Hip, int_part_ok_N_toString. cbn [negb]. rewrite Hfrac.
    rewrite follow_no_exp by done. f_equal. f_equal.
    apply scaled_eq; [done|]. lia.
Qed.

(** *** String literals *)

Lemma parse_chars_escape_char (c : ascii) (t : string) :
  parse_chars (escape_char c +:+ t) = prepend (String c "") (parse_chars t).
Proof. destruct c as [[] [] [] [] [] [] [] []]; reflexivity. Qed.

Lemma parse_chars_escape (s rest : string) :
  parse_chars (escape s +:+ String (chr 34) rest) = Some (s, rest).
Proof.
  induction s as [|c s IH]; [done|].
  cbn [escape]. rewrite append_assoc, parse_chars_escape_char, IH. done.
Qed.

Lemma parse_chars_quote (s rest : string) :
  ∃ t, quote s +:+ rest = String (chr 34) t ∧ parse_chars t = Some (s, rest).
Proof.
  exists (escape s +:+ String (chr 34) rest). split.
  - unfold quote, str1. cbn [String.append]. by rewrite append_assoc.
  - apply parse_chars_escape.
Qed.

(** *** Values *)

Lemma json_ind (P : json → Prop) :
  P JNull → (∀ b, P (JBool b)) → (∀ q, P (JNum q)) → (∀ s, P (JStr s)) →
  (∀ items, Forall P items → P (JArr items)) →
  (∀ ms, Forall (fun kv => P kv.2) ms → P (JObj ms)) →
  ∀ v, P v.
Proof.
  intros Hnull Hbool Hnum Hstr Harr Hobj. fix IH 1.
  intros [|b|q|s|items|ms]; [done..| |].
  - apply Harr. induction items as [|v items IHl]; constructor; [apply IH | exact IHl].
  - apply Hobj. induction ms as [|[k v] ms IHl]; constructor; [apply IH | exact IHl].
Qed.

Lemma value_head_inv (s : string) :
  value_head s = true →
  ∃ c r, s = String c r ∧ is_ws c = false ∧
         (code c =? 93)%N = false ∧ (code c =? 125)%N = false.
Proof.
  destruct s as [|c r]; [done|]. cbn.
  intros [[H1 H2]%andb_true_iff H3]%andb_true_iff.
  apply negb_true_iff in H1, H2, H3. by exists c, r.
Qed.

Lemma skip_ws_head (s : string) : value_head s = true → skip_ws s = s.
Proof. intros (c & r & -> & Hws & _)%value_head_inv. cbn. by rewrite Hws. Qed.

Lemma Number_toString_head (q : Q) (rest : string) :
  ∃ c t, Number_toString q +:+ rest = String c t ∧
         (code c = 45%N ∨ is_digit c = true).
Proof.
  unfold Number_toString. destruct (Qnum q <? 0).
  - eexists _, _. split; [reflexivity|]. by left.
  - destruct (N_toString_head (Z.abs_N (Qnum q) / Npos (Qden q)))
      as (c & t & -> & Hc).
    eexists _, _. split; [reflexivity|]. by right.
Qed.

Lemma is_digit_code (c : ascii) :
  is_digit c = true → (48 <= code c <= 57)%N.
Proof.
  unfold is_digit, code. intros [H1 H2]%andb_true_iff.
  apply N.leb_le in H1, H2. lia.
Qed.

Lemma stringify_head (v : json) (rest : string) :
  value_head (stringify v +:+ rest) = true.
Proof.
  destruct v as [|[]|q|s|items|ms]; try done. cbn [stringify].
  destruct (Number_toString_head q rest) as (c & t & -> & Hc).
  cbn. unfold is_ws.
  destruct Hc as [Hc|Hc%is_digit_code].
  - by rewrite Hc.
  - repeat match goal with
           | |- context [(code c =? ?k)%N] =>
               destruct (N.eqb_spec (code c) k); [lia|]
           end. done.
Qed.

Lemma distinct_set_member (k : string) (v : json) (o : list (string * json)) :
  existsb (fun k' => bool_decide (k' = k)) (map fst o) = false →
  set_member k v o = o ++ [(k, v)].
Proof.
  induction o as [|[k' v'] o IH]; [done|]. cbn.
  intros [Hk Ho]%orb_false_iff. rewrite Hk. by rewrite IH.
Qed.

Lemma obj_of_members_distinct (ms : list (string * json)) :
  distinct (map fst ms) = true → obj_of_members ms = ms.
Proof.
  unfold obj_of_members.
  assert (∀ o, distinct (map fst (o ++ ms)) = true →
          fold_left (fun o kv => set_member kv.1 kv.2 o) ms o = o ++ ms) as H.
  { induction ms as [|[k v] ms IH]; intros o Ho.
    - by rewrite app_nil_r.
    - cbn [fold_left fst snd]. rewrite distinct_set_member.
      + rewrite IH; rewrite <- app_assoc; done.
      + clear IH. induction o as [|[k' v'] o IHo]; [done|].
        cbn in Ho |- *. apply andb_true_iff in Ho as [Hk Ho].
        rewrite (IHo Ho), orb_false_r.
        apply negb_true_iff in Hk. rewrite map_app, existsb_app in Hk.
        apply orb_false_iff in Hk as [_ Hk]. cbn in Hk.
        apply orb_false_iff in Hk as [Hk _].
        apply bool_decide_eq_false in Hk. apply bool_decide_eq_false. congruence. }
  intros Hd. by apply (H []).
Qed.

Lemma join_cons (sep x : string) (l : list string) :
  l ≠ [] → join sep (x :: l) = x +:+ sep +:+ join sep l.
Proof. by destruct l. Qed.

Lemma parse_items_S (f : nat) (s : string) :
  parse_items (S f) s =
  match parse_value f s with
  | None => None
  | Some (v, rest) =>
      match skip_ws rest with
      | EmptyString => None
      | String c r =>
          if (code c =? 44)%N then
            match parse_items f (skip_ws r) with
            | Some (vs, rest') => Some (v :: vs, rest')
            | None => None
            end
          else if (code c =? 93)%N then Some ([v], r)
          else None
      end
  end.
Proof. reflexivity. Qed.

Lemma join_stringify_head (v : json) (items : list json) (rest : string) :
  value_head (join "," (map stringify (v :: items)) +:+ rest) = true.
Proof.
  destruct items as [|v2 items]; cbn [map join].
  - apply stringify_head.
  - rewrite append_assoc. apply stringify_head.
Qed.

Lemma parse_items_join (items : list json) :
  Forall reads items → items ≠ [] →
  ∀ fuel rest,
    (list_sum (map (fun x => S (weight x)) items) ≤ fuel)%nat →
    follow rest = true →
    parse_items fuel (join "," (map stringify items) +:+ String "]" rest)
    = Some (items, rest).
Proof.
  induction items as [|v items IHl]; [done|].
  intros Hall _ fuel rest Hfuel Hrest.
  inversion Hall as [|? ? Hv Hitems]; subst.
  simpl in Hfuel. destruct fuel as [|f]; [lia|].
  rewrite parse_items_S. destruct items as [|v2 items].
  - simpl in Hfuel. cbn [map join]. rewrite (Hv f (String "]" rest)) by (done || lia). done.
  - rewrite map_cons, join_cons by done. rewrite !append_assoc.
    rewrite (Hv f) by (done || lia).
    cbn [String.append skip_ws]. change (is_ws ",") with false. cbv iota.
    change (code "," =? 44)%N with true. cbv iota.
    rewrite skip_ws_head by apply join_stringify_head.
    rewrite IHl; [done..| |done]. simpl in *. lia.
Qed.

Lemma parse_members_S (f : nat) (c : ascii) (r : string) :
  parse_members (S f) (String c r) =
  if negb (code c =? 34)%N then None
  else
    match parse_chars r with
    | None => None
    | Some (k, rest) =>
        match skip_ws rest with
        | EmptyString => None
        | String c2 r2 =>
            if negb (code c2 =? 58)%N then None
            else
              match parse_value f (skip_ws r2) with
              | None => None
              | Some (v, rest2) =>
                  match skip_ws rest2 with
                  | EmptyString => None
                  | String c3 r3 =>
                      if (code c3 =? 44)%N then
                        match parse_members f (skip_ws r3) with
                        | Some (ms, rest3) => Some ((k, v) :: ms, rest3)
                        | None => None
                        end
                      else if (code c3 =? 125)%N then Some ([(k, v)], r3)
                      else None
                  end
              end
        end
    end.
Proof. reflexivity. Qed.

(** One member, up to what follows its value. *)
Lemma parse_member (f : nat) (k : string) (v : json) (tail : string) :
  reads v → (weight v ≤ f)%nat → follow tail = true →
  ∃ t, member_text (k, v) +:+ tail = String (chr 34) t ∧
       parse_members (S f) (String (chr 34) t) =
       match tail with
       | EmptyString => None
       | String c3 r3 =>
           if (code c3 =? 44)%N then
             match parse_members f (skip_ws r3) with
             | Some (ms, rest3) => Some ((k, v) :: ms, rest3)
             | None => None
             end
           else if (code c3 =? 125)%N then Some ([(k, v)], r3)
           else None
       end.
Proof.
  intros Hv Hf Htail.
  exists (escape k +:+ String (chr 34) (":" +:+ stringify v +:+ tail)). split.
  - unfold member_text, quote, str1. cbn [String.append].
    by rewrite !append_assoc.
  - rewrite parse_members_S. change (code (chr 34) =? 34)%N with true.
    cbn [negb]. rewrite parse_chars_escape.
    cbn [String.append skip_ws]. change (is_ws ":") with false. cbv iota.
    change (code ":" =? 58)%N with true. cbn [negb].
    rewrite skip_ws_head by apply stringify_head.
    rewrite (Hv f tail Hf Htail). by rewrite follow_skip_ws.
Qed.

Lemma join_member_head (kv : string * json) (ms : list (string * json))
    (rest : string) :
  value_head (join "," (map member_text (kv :: ms)) +:+ rest) = true.
Proof.
  destruct kv as [k v]. destruct ms as [|kv2 ms]; cbn [map join]; done.
Qed.

Lemma parse_members_join (ms : list (string * json)) :
  Forall (fun kv => reads kv.2) ms → ms ≠ [] →
  ∀ fuel rest,
    (list_sum (map (fun kv => let '(_, x) := kv in S (weight x)) ms) ≤ fuel)%nat →
    follow rest = true →
    parse_members fuel (join "," (map member_text ms) +:+ String "}" rest)
    = Some (ms, rest).
Proof.
  induction ms as [|[k v] ms IHl]; [done|].
  intros Hall _ fuel rest Hfuel Hrest.
  inversion Hall as [|? ? Hv Hms]; subst. cbn [snd] in Hv.
  simpl in Hfuel. destruct fuel as [|f]; [lia|].
  destruct ms as [|kv2 ms].
  - simpl in Hfuel. cbn [map join].
    destruct (parse_member f k v (String "}" rest) Hv ltac:(lia) eq_refl)
      as (t & -> & ->). done.
  - rewrite map_cons, join_cons by done. rewrite !append_assoc.
    cbn [String.append].
    destruct (parse_member f k v
                (String "," (join "," (map member_text (kv2 :: ms))
                             +:+ String "}" rest))
                Hv ltac:(lia) eq_refl) as (t & -> & ->). change (code "," =? 44)%N with true. cbv iota.
    rewrite skip_ws_head by apply join_member_head.
    rewrite IHl; [done..| |done]. simpl in *. lia.
Qed.

Lemma parse_value_number (f : nat) (c : ascii) (t : string) :
  code c = 45%N ∨ is_digit c = true →
  parse_value (S f) (String c t) =
  match parse_number (String c t) with
  | Some (q, rest) => Some (JNum q, rest)
  | None => None
  end.
Proof.
  intros Hc. cbn [parse_value].
  assert (code c = 45 ∨ 48 <= code c <= 57)%N as H
    by (destruct Hc as [?|?%is_digit_code]; auto).
  repeat match goal with
         | |- context [(code c =? ?k)%N] =>
             destruct (N.eqb_spec (code c) k); [lia|]
         end. done.
Qed.

Lemma stringify_arr (items : list json) (rest : string) :
  stringify (JArr items) +:+ rest
  = String "[" (join "," (map stringify items) +:+ String "]" rest).
Proof. cbn [stringify String.append]. by rewrite append_assoc. Qed.

Lemma stringify_obj (ms : list (string * json)) (rest : string) :
  stringify (JObj ms) +:+ rest
  = String "{" (join "," (map member_text ms) +:+ String "}" rest).
Proof. cbn [stringify String.append]. by rewrite append_assoc. Qed.

Lemma parse_value_arr (f : nat) (r : string) :
  parse_value (S f) (String "[" r) =
  match skip_ws r with
  | EmptyString => None
  | String c2 r2 =>
      if (code c2 =? 93)%N then Some (JArr [], r2)
      else
        match parse_items f (String c2 r2) with
        | Some (items, rest) => Some (JArr items, rest)
        | None => None
        end
  end.
Proof. reflexivity. Qed.

Lemma parse_value_obj (f : nat) (r : string) :
  parse_value (S f) (String "{" r) =
  match skip_ws r with
  | EmptyString => None
  | String c2 r2 =>
      if (code c2 =? 125)%N then Some (JObj [], r2)
      else
        match parse_members f (String c2 r2) with
        | Some (ms, rest) => Some (JObj (obj_of_members ms), rest)
        | None => None
        end
  end.
Proof. reflexivity. Qed.

Lemma forallb_reads {A} (ok : A → bool) (P : A → Prop) (l : list A) :
  Forall (fun x => ok x = true → P x) l → forallb ok l = true → Forall P l.
Proof.
  induction 1 as [|x l Hx _ IH]; [done|]. cbn.
  intros [Hk Hl]%andb_true_iff. constructor; auto.
Qed.

(** The parser reads the text of a well-formed value back, whatever
    follows it. *)
Lemma parse_value_stringify (v : json) : json_ok v = true → reads v.
Proof.
  induction v as [|b|q|s|items IH|ms IH] using json_ind;
    intros Hok fuel rest Hfuel Hrest;
    (destruct fuel as [|f]; [cbn in Hfuel; lia|]).
  - reflexivity.
  - by destruct b.
  - cbn [stringify].
    destruct (Number_toString_head q rest) as (c & t & Heq & Hc).
    rewrite Heq, (parse_value_number _ _ _ Hc), <- Heq.
    by rewrite parse_number_toString.
  - cbn [stringify]. destruct (parse_chars_quote s rest) as (t & -> & Ht).
    cbn [parse_value]. change (code (chr 34)) with 34%N. cbn. by rewrite Ht.
  - rewrite stringify_arr, parse_value_arr.
    destruct items as [|v items]; [done|].
    rewrite skip_ws_head by apply join_stringify_head.
    pose proof (join_stringify_head v items (String "]" rest)) as Hhead.
    apply value_head_inv in Hhead as (c2 & r2 & Heq & _ & Hc2 & _).
    rewrite Heq, Hc2, <- Heq.
    rewrite parse_items_join; [done| |done| |done].
    + cbn [json_ok] in Hok. by apply (forallb_reads json_ok).
    + cbn [weight] in Hfuel. lia.
  - rewrite stringify_obj, parse_value_obj.
    cbn [json_ok] in Hok. apply andb_true_iff in Hok as [Hd Hok].
    destruct ms as [|kv ms]; [done|].
    rewrite skip_ws_head by apply join_member_head.
    pose proof (join_member_head kv ms (String "}" rest)) as Hhead.
    apply value_head_inv in Hhead as (c2 & r2 & Heq & _ & _ & Hc2).
    rewrite Heq, Hc2, <- Heq.
    rewrite parse_members_join; [by rewrite obj_of_members_distinct| |done| |done].
    + apply (forallb_reads (fun kv => let '(_, x) := kv in json_ok x)); [|done].
      eapply List.Forall_impl; [|exact IH]. by intros [k x].
    + cbn [weight] in Hfuel. lia.
Qed.

(** *** Enough fuel *)

Lemma sum_le_join {A} (f : A → nat) (t : A → string) (l : list A) :
  Forall (fun x => (f x ≤ S (String.length (t x)))%nat) l →
  (list_sum (map f l) ≤ S (String.length (join "," (map t l))))%nat.
Proof.
  induction 1 as [|x l Hx Hl IH]; [cbn; lia|].
  destruct l as [|y l].
  - cbn in *. lia.
  - rewrite !map_cons, join_cons by done. rewrite <- map_cons in *.
    rewrite !length_append. change (list_sum (?a :: ?b)) with (a + list_sum b)%nat.
    cbn [String.length]. change (t y :: map t l) with (map t (y :: l)). lia.
Qed.

Lemma weight_le_length (v : json) :
  (weight v ≤ String.length (stringify v))%nat.
Proof.
  induction v as [|b|q|s|items IH|ms IH] using json_ind.
  - cbn. lia.
  - destruct b; cbn; lia.
  - destruct (Number_toString_head q "") as (c & t & Heq & _).
    rewrite append_nil_r in Heq. cbn [stringify weight]. rewrite Heq. cbn. lia.
  - cbn. lia.
  - cbn [weight stringify]. rewrite !length_append. cbn [String.length].
    assert (H := sum_le_join (fun x => S (weight x)) stringify items).
    cbn beta in H. cut (Forall (fun x => (S (weight x) ≤ S (String.length (stringify x)))%nat) items).
    { intros H'. specialize (H H'). lia. }
    eapply List.Forall_impl; [|exact IH]. cbn. lia.
  - cbn [weight]. rewrite <- (append_nil_r (stringify _)), stringify_obj.
    cbn [String.length]. rewrite length_append. cbn [String.length].
    assert (H := sum_le_join (fun kv => let '(_, x) := kv in S (weight x))
                   member_text ms).
    cbn beta in H.
    cut (Forall (fun kv => ((let '(_, x) := kv in S (weight x))
                            ≤ S (String.length (member_text kv)))%nat) ms).
    { intros H'. specialize (H H'). lia. }
    eapply List.Forall_impl; [|exact IH]. intros [k x]. cbn [snd member_text].
    rewrite !length_append. lia.
Qed.

(** [JSON.parse(JSON.stringify(v))] is [v]. *)
Lemma parse_stringify (v : json) : json_ok v = true → parse (stringify v) = Some v.
Proof.
  intros Hok. unfold parse.
  pose proof (stringify_head v "") as Hhead. rewrite append_nil_r in Hhead.
  rewrite (skip_ws_head _ Hhead).
  rewrite <- (append_nil_r (stringify v)) at 2.
  rewrite (parse_value_stringify v Hok); [done| |done].
  pose proof (weight_le_length v). lia.
Qed.

End RoundTrip.

(** ** The store round trip *)

Section Store.

Import RoundTrip.

Lemma forallb_map_true {A B} (f : B → bool) (g : A → B) (l : list A) :
  (∀ x, x ∈ l → f (g x) = true) → forallb f (map g l) = true.
Proof.
  induction l as [|x l IH]; [done|]. intros H. cbn.
  rewrite H by left. apply IH. intros y Hy. apply H. by right.
Qed.

Lemma json_ok_student (s : StudentDetail) : json_ok (js_of_student s) = true.
Proof. destruct s as [[] [] [] [] [] [] []]; reflexivity. Qed.

Lemma json_ok_profile (p : ClassProfile) :
  profile_ok p = true → json_ok (js_of_profile p) = true.
Proof.
  unfold profile_ok. intros [[H1 H2]%andb_true_iff H3]%andb_true_iff.
  unfold js_of_profile. cbn [json_ok].
  apply andb_true_iff. split; [reflexivity|].
  cbn [forallb json_ok]. rewrite H1, H2, H3. cbn [andb].
  rewrite andb_true_r. apply forallb_map_true. intros s _. apply json_ok_student.
Qed.

Lemma json_ok_feedback (fb : SessionFeedback) :
  feedback_ok fb = true → json_ok (js_of_feedback fb) = true.
Proof.
  unfold feedback_ok, js_of_feedback. intros H. cbn [json_ok].
  apply andb_true_iff. split; [reflexivity|].
  destruct fb as [[x|] [d|] o n]; cbn in H |- *; by rewrite ?H.
Qed.

Lemma num_ok_of_nat (n : nat) : num_ok (of_nat n) = true.
Proof.
  unfold num_ok. rewrite Qcanon.Qred_identity by (cbn; apply Z.gcd_1_r).
  unfold of_nat, inject_Z. cbn [Qnum Qden].
  rewrite Z.eqb_refl, Pos.eqb_refl, N.mod_1_r. reflexivity.
Qed.

Lemma json_ok_session (s : SessionRecord) :
  session_ok s = true → json_ok (js_of_session s) = true.
Proof.
  unfold session_ok. destruct s as [n g p [fb|]]; cbn [feedback from_option].
  - intros H%json_ok_feedback. unfold js_of_session. cbn [optMember feedback app].
    cbn [json_ok]. apply andb_true_iff. split; [reflexivity|].
    cbn [forallb]. rewrite H. cbn [json_ok]. by rewrite num_ok_of_nat.
  - intros _. unfold js_of_session. cbn [optMember feedback app]. cbn [json_ok].
    apply andb_true_iff. split; [reflexivity|].
    cbn [forallb json_ok]. by rewrite num_ok_of_nat.
Qed.

Lemma json_ok_run (r : ClassRun) : run_ok r = true → json_ok (js_of_run r) = true.
Proof.
  unfold run_ok. intros [Hp Hs]%andb_true_iff.
  assert (forallb json_ok (map js_of_session (sessions r)) = true) as Hss.
  { apply forallb_map_true. intros s Hin. apply json_ok_session.
    rewrite forallb_forall in Hs. apply Hs. by apply list_elem_of_In. }
  destruct r as [i [p|] ss]; cbn [profile from_option sessions] in *.
  - apply json_ok_profile in Hp. unfold js_of_run.
    cbn [optMember profile id sessions app]. cbn [json_ok].
    apply andb_true_iff. split; [reflexivity|].
    cbn [forallb]. rewrite Hp. cbn [json_ok]. by rewrite Hss.
  - unfold js_of_run. cbn [optMember profile id sessions app]. cbn [json_ok].
    apply andb_true_iff. split; [reflexivity|].
    cbn [forallb]. cbn [json_ok]. by rewrite Hss.
Qed.

Lemma json_ok_runs (rs : list ClassRun) :
  runs_ok rs = true → json_ok (js_of_runs rs) = true.
Proof.
  unfold runs_ok. intros H. cbn. apply forallb_map_true.
  intros r Hin. apply json_ok_run. rewrite forallb_forall in H.
  apply H. by apply list_elem_of_In.
Qed.

Lemma asList_map {A} (f : json → option A) (g : A → json) (l : list A) :
  (∀ x, f (g x) = Some x) → asList f (JArr (map g l)) = Some l.
Proof. intros H. cbn. by apply mapM_fmap_Some. Qed.

Lemma student_of_js_of (s : StudentDetail) : student_of_js (js_of_student s) = Some s.
Proof. destruct s as [[] [] [] [] [] [] []]; reflexivity. Qed.

Lemma profile_of_js_of (p : ClassProfile) : profile_of_js (js_of_profile p) = Some p.
Proof.
  destruct p. cbn -[asList]. rewrite (asList_map _ _ _ student_of_js_of). done.
Qed.

Lemma feedback_of_js_of (fb : SessionFeedback) :
  feedback_of_js (js_of_feedback fb) = Some fb.
Proof. by destruct fb as [[] [] ? ?]. Qed.

Lemma asNat_of_nat (n : nat) : asNat (JNum (of_nat n)) = Some n.
Proof.
  cbn. destruct (Z.leb_spec 0 (Z.of_nat n)) as [_|?]; [|lia].
  by rewrite Nat2Z.id.
Qed.

Lemma session_of_js_of (s : SessionRecord) :
  session_of_js (js_of_session s) = Some s.
Proof.
  destruct s as [n g p [fb|]]; cbn -[asNat feedback_of_js js_of_feedback of_nat];
    rewrite asNat_of_nat; cbn -[feedback_of_js js_of_feedback];
    [by rewrite feedback_of_js_of | done].
Qed.

Lemma run_of_js_of (r : ClassRun) : run_of_js (js_of_run r) = Some r.
Proof.
  destruct r as [i [p|] ss];
    cbn -[asList profile_of_js js_of_profile];
    rewrite ?profile_of_js_of, (asList_map _ _ _ session_of_js_of); done.
Qed.

Lemma runs_of_js_of (rs : list ClassRun) : runs_of_js (js_of_runs rs) = Some rs.
Proof. apply asList_map, run_of_js_of. Qed.

(** C7: for runs whose numbers the store can hold (finite decimals),
    loading after saving returns the value that was saved, and reading
    it as runs gives back the same list, field for field. *)
Theorem C7_load_after_save (rs : list ClassRun) :
  runs_ok rs = true →
  loadRuns (saveRuns rs) = js_of_runs rs
  ∧ runs_of_js (loadRuns (saveRuns rs)) = Some rs.
Proof.
  intros Hok.
  assert (loadRuns (saveRuns rs) = js_of_runs rs) as Hload.
  { unfold loadRuns, saveRuns. cbn [default from_option Datatypes.id].
    assert (∃ t, stringify (js_of_runs rs) = String "[" t) as [t Ht]
      by (eexists; reflexivity).
    replace (str_or (stringify (js_of_runs rs)) "[]")
      with (stringify (js_of_runs rs)) by (by rewrite Ht).
    by rewrite (parse_stringify _ (json_ok_runs _ Hok)). }
  split; [done|]. rewrite Hload. apply runs_of_js_of.
Qed.

Lemma C7_load_after_save_witness :
  loadRuns (saveRuns (runs afterFeedback)) = js_of_runs (runs afterFeedback)
  ∧ runs_of_js (loadRuns (saveRuns (runs afterFeedback)))
    = Some (runs afterFeedback).
Proof. apply (C7_load_after_save (runs afterFeedback)). reflexivity. Defined.

End Store.

(** ** Binary64 arithmetic and the digits of a Number *)

Section Binary64.

Import RoundTrip.

Lemma round_half_even_near (x : Q) :
  (Qabs (inject_Z (round_half_even x) - x) <= 1 # 2)%Q.
Proof.
  unfold round_half_even.
  pose proof (Qfloor_le x) as Hlo. pose proof (Qlt_floor x) as Hhi.
  rewrite inject_Z_plus in Hhi. change (inject_Z 1) with 1%Q in Hhi.
  assert (∀ y : Q, (- (1 # 2) <= y)%Q → (y <= 1 # 2)%Q → (Qabs y <= 1 # 2)%Q)
    as Habs by (intros y ? ?; by apply Qabs_Qle_condition).
  destruct (x - inject_Z (Qfloor x) ?= 1 # 2)%Q eqn:E.
  - apply Qeq_alt in E.
    destruct (Z.even (Qfloor x));
      [|rewrite inject_Z_plus; change (inject_Z 1) with 1%Q]; apply Habs; lra.
  - apply Qlt_alt in E. apply Habs; lra.
  - apply Qgt_alt in E. rewrite inject_Z_plus. change (inject_Z 1) with 1%Q.
    apply Habs; lra.
Qed.

Lemma round_half_even_whole (x : Q) (z : Z) :
  (x == inject_Z z)%Q → round_half_even x = z.
Proof.
  intros H. unfold round_half_even.
  assert (Qfloor x = z) as -> by (rewrite H; apply Qfloor_Z).
  assert ((x - inject_Z z ?= 1 # 2)%Q = Lt) as ->; [|done].
  apply (proj1 (Qlt_alt _ _)). lra.
Qed.

Lemma pow2_pos (e : Z) : (0 < pow2 e)%Q.
Proof. apply Qpower_0_lt. reflexivity. Qed.

Lemma pow2_add (a b : Z) : (pow2 (a + b) == pow2 a * pow2 b)%Q.
Proof. apply Qpower_plus. discriminate. Qed.

Lemma pow2_le (a b : Z) : a ≤ b → (pow2 a <= pow2 b)%Q.
Proof. intros H. apply Qpower_le_compat_l; [done|]. discriminate. Qed.

Lemma pow2_Z (e : Z) : 0 ≤ e → (pow2 e == inject_Z (2 ^ e))%Q.
Proof. intros H. unfold pow2. by rewrite Zpower_Qpower. Qed.

Lemma pow2_sub (a b : Z) : (pow2 (a - b) == pow2 a / pow2 b)%Q.
Proof. apply Qpower_minus. discriminate. Qed.

(** [ilog2] does not overshoot. *)
Lemma ilog2_le (a : Q) : (0 < a)%Q → (pow2 (ilog2 a) <= a)%Q.
Proof.
  intros Ha. unfold ilog2.
  set (e := Z.log2 (Qnum a) - Z.log2 (Z.pos (Qden a))).
  destruct (Qle_bool (pow2 e) a) eqn:E; [by apply Qle_bool_iff|]. clear E.
  destruct a as [n d]. cbn [Qnum Qden] in e.
  assert (0 < n) as Hn by (unfold Qlt in Ha; cbn in Ha; lia).
  pose proof (Z.log2_spec n Hn) as [Hn1 _].
  pose proof (Z.log2_spec (Z.pos d) eq_refl) as [_ Hd2].
  pose proof (Z.log2_nonneg n). pose proof (Z.log2_nonneg (Z.pos d)).
  replace (e - 1) with (Z.log2 n - Z.succ (Z.log2 (Z.pos d))) by (subst e; lia).
  rewrite pow2_sub, !pow2_Z by lia.
  set (N := 2 ^ Z.log2 n) in *. set (D := 2 ^ Z.succ (Z.log2 (Z.pos d))) in *.
  assert (0 < D) by lia.
  apply Qle_shift_div_r; [change 0%Q with (inject_Z 0); by rewrite <- Zlt_Qlt|].
  unfold Qle, Qmult, inject_Z. cbn. nia.
Qed.

Lemma ilog2_whole (z : Z) : 0 < z → ilog2 (inject_Z z) = Z.log2 z.
Proof.
  intros Hz. unfold ilog2. cbn [Qnum Qden inject_Z].
  change (Z.log2 1) with 0. rewrite Z.sub_0_r.
  pose proof (Z.log2_spec z Hz) as [H1 _]. pose proof (Z.log2_nonneg z).
  assert (Qle_bool (pow2 (Z.log2 z)) (inject_Z z) = true) as ->; [|done].
  apply Qle_bool_iff. rewrite pow2_Z by done. by rewrite <- Zle_Qle.
Qed.

Lemma pow2_half (p : Z) : (pow2 p == 2 * pow2 (p - 1))%Q.
Proof.
  replace p with (1 + (p - 1)) at 1 by lia. by rewrite pow2_add.
Qed.

(** Rounding to 53 bits moves a magnitude by at most half a unit of its
    last place. *)
Lemma round53_near (a : Q) :
  (0 < a)%Q → (Qabs (round53 a - a) <= a * pow2 (-53) + pow2 (-1075))%Q.
Proof.
  intros Ha. unfold round53.
  set (p := Z.max (ilog2 a - 52) (-1074)).
  rewrite Qred_correct.
  pose proof (pow2_pos p) as Hu.
  pose proof (round_half_even_near (a / pow2 p)) as Hm.
  set (m := inject_Z (round_half_even (a / pow2 p))) in *.
  assert (a == (a / pow2 p) * pow2 p)%Q as Ht by (field; lra).
  set (t := (a / pow2 p)%Q) in *.
  apply Qabs_Qle_condition in Hm as [Hm1 Hm2].
  assert (Qabs (m * pow2 p - a) <= pow2 (p - 1))%Q as Hhalf.
  { pose proof (pow2_half p) as Hh. pose proof (pow2_pos (p - 1)).
    apply Qabs_Qle_condition. split; nra. }
  eapply Qle_trans; [exact Hhalf|].
  pose proof (ilog2_le a Ha) as Hlog.
  pose proof (pow2_pos (-53)). pose proof (pow2_pos (-1075)).
  destruct (Z.max_spec (ilog2 a - 52) (-1074)) as [[_ Hp]|[_ Hp]];
    fold p in Hp; rewrite Hp.
  - change (-1074 - 1) with (-1075). nra.
  - replace (ilog2 a - 52 - 1) with (ilog2 a + -53) by lia.
    rewrite pow2_add. nra.
Qed.

Lemma Qabs_of_neg (y : Q) : Qnum y < 0 → Qabs y = (- y)%Q.
Proof. destruct y as [n d]. unfold Qabs, Qopp. cbn. intros H. f_equal. lia. Qed.

Lemma Qabs_of_nonneg (y : Q) : 0 ≤ Qnum y → Qabs y = y.
Proof. destruct y as [n d]. unfold Qabs. cbn. intros H. f_equal. lia. Qed.

(** The Number value for [x] lies within half a unit of the last place of
    [x]. *)
Lemma Number_of_near (x d : Q) :
  Number_of x = Finite d →
  (Qabs (d - x) <= Qabs x * pow2 (-53) + pow2 (-1075))%Q.
Proof.
  unfold Number_of. pose proof (Qred_correct x) as Hx.
  set (y := Qred x) in *. clearbody y.
  pose proof (pow2_pos (-53)). pose proof (pow2_pos (-1075)).
  destruct (Qeq_bool y 0) eqn:E.
  - apply Qeq_bool_iff in E. intros [= <-].
    assert (x == 0)%Q as Hx0 by (by rewrite <- Hx).
    pose proof (Qabs_nonneg x). apply Qabs_Qle_condition. split; nra.
  - apply Qeq_bool_neq in E.
    destruct (Qle_bool _ _); [by destruct (Qnum y <? 0)|].
    rewrite <- Hx.
    destruct (Z.ltb_spec (Qnum y) 0) as [Hneg|Hge]; intros [= <-].
    + assert (y < 0)%Q as Hy by (unfold Qlt; cbn; lia).
      rewrite (Qabs_of_neg y) by done.
      assert (0 < - y)%Q as Hpos by lra.
      pose proof (round53_near _ Hpos) as Hv.
      assert (- round53 (- y) - y == - (round53 (- y) - - y))%Q as -> by ring.
      by rewrite Qabs_opp.
    + assert (0 <= y)%Q as Hy by (unfold Qle; cbn; lia).
      rewrite (Qabs_of_nonneg y) by done.
      assert (0 < y)%Q as Hpos.
      { apply Qle_lteq in Hy as [?|Hy]; [done|]. exfalso. apply E. by rewrite <- Hy. }
      exact (round53_near _ Hpos).
Qed.

Lemma log2_53 (n : Z) : 0 < n < 2 ^ 53 → 0 ≤ Z.log2 n ≤ 52.
Proof.
  intros [H0 H1]. split; [apply Z.log2_nonneg|].
  apply Z.lt_succ_r, Z.log2_lt_pow2; [done|]. exact H1.
Qed.

(** A whole number of up to 53 bits is a Number. *)
Lemma round53_whole (n : Z) :
  0 < n < 2 ^ 53 → round53 (inject_Z n) = inject_Z n.
Proof.
  intros Hn. unfold round53. rewrite ilog2_whole by lia.
  pose proof (log2_53 n Hn) as Hl.
  rewrite Z.max_l by lia.
  set (p := Z.log2 n - 52).
  assert (inject_Z n / pow2 p == inject_Z (n * 2 ^ (- p)))%Q as Hq.
  { rewrite inject_Z_mult, <- pow2_Z by lia. unfold pow2 at 2.
    rewrite Qpower_opp. fold (pow2 p). pose proof (pow2_pos p). field. lra. }
  rewrite (round_half_even_whole _ _ Hq).
  rewrite <- (Qcanon.Qred_identity (inject_Z n)) by apply Z.gcd_1_r.
  apply Qred_complete.
  rewrite inject_Z_mult, <- pow2_Z by lia. rewrite <- Qmult_assoc, <- pow2_add.
  replace (- p + p) with 0 by lia. change (pow2 0) with 1%Q. ring.
Qed.

Lemma Number_of_whole (x : Q) (z : Z) :
  (x == inject_Z z)%Q → - 2 ^ 53 < z < 2 ^ 53 →
  Number_of x = Finite (inject_Z z).
Proof.
  intros Hx Hz. unfold Number_of.
  assert (Qred x = inject_Z z) as ->.
  { rewrite <- (Qcanon.Qred_identity (inject_Z z)) by apply Z.gcd_1_r.
    by apply Qred_complete. }
  destruct (decide (z = 0)) as [->|Hne]; [done|].
  assert (Qeq_bool (inject_Z z) 0 = false) as ->.
  { apply not_true_is_false. intros E. apply Qeq_bool_iff in E.
    apply Hne. unfold Qeq in E. cbn in E. lia. }
  change (Qabs (inject_Z z)) with (inject_Z (Z.abs z)).
  rewrite round53_whole by lia.
  assert (Qle_bool (pow2 1024) (inject_Z (Z.abs z)) = false) as ->.
  { apply not_true_is_false. intros E. apply Qle_bool_iff in E.
    rewrite pow2_Z in E by lia. rewrite <- Zle_Qle in E.
    assert (2 ^ 53 ≤ 2 ^ 1024) by (apply Z.pow_le_mono_r; lia). lia. }
  unfold Qopp, inject_Z. cbn [Qnum Qden].
  destruct (Z.ltb_spec z 0); do 2 f_equal; lia.
Qed.

(** *** The digits of a whole number *)

Lemma N_digits_fuel (f1 : nat) : ∀ (f2 : nat) (n : N) (acc : string),
  (n < 10 ^ N.of_nat (S f1))%N → (n < 10 ^ N.of_nat (S f2))%N →
  N_digits (S f1) n acc = N_digits (S f2) n acc.
Proof.
  induction f1 as [|f1 IH]; intros f2 n acc H1 H2.
  - simpl. change (10 ^ N.of_nat 1)%N with 10%N in H1.
    by apply N.ltb_lt in H1 as ->.
  - change (N_digits (S ?f) ?m ?a)
      with (let acc' := String (digit_char (m mod 10)) a in
            if (m <? 10)%N then acc' else N_digits f (m / 10) acc').
    cbv zeta. destruct (N.ltb_spec n 10) as [Hlt|Hge]; [done|].
    rewrite Nat2N.inj_succ, N.pow_succ_r' in H1, H2.
    destruct f2 as [|f2]; [change (10 ^ N.of_nat 0)%N with 1%N in H2; lia|].
    apply IH; apply N.Div0.div_lt_upper_bound; lia.
Qed.

Lemma N_toString_10 (m : N) :
  (0 < m)%N → N_toString (10 * m) = N_toString m +:+ "0".
Proof.
  intros Hm. unfold N_toString at 1.
  change (N_digits (S ?f) ?n ?acc)
    with (let acc' := String (digit_char (n mod 10)) acc in
          if (n <? 10)%N then acc' else N_digits f (n / 10) acc').
  cbv zeta.
  assert ((10 * m <? 10)%N = false) as -> by (apply N.ltb_ge; lia).
  rewrite N.mul_comm, N.Div0.mod_mul, N.div_mul by lia.
  change (digit_char 0) with "0"%char.
  rewrite N_digits_app. f_equal. unfold N_toString.
  assert (∃ f, N.to_nat (N.size (m * 10)) = S f) as [f Hf].
  { destruct (N.to_nat (N.size (m * 10))) eqn:E; [|eauto].
    destruct m as [|p]; [lia|].
    change (N.pos p * 10)%N with (N.pos (p * 10)) in E.
    pose proof (Pos2Nat.is_pos (Pos.size (p * 10))). cbn in E. lia. }
  rewrite Hf. apply N_digits_fuel; [|apply N_toString_fuel].
  rewrite <- Hf, N2Nat.id.
  pose proof (N.size_gt (m * 10)) as H.
  assert (2 ^ N.size (m * 10) <= 10 ^ N.size (m * 10))%N
    by (apply N.pow_le_mono_l; lia).
  lia.
Qed.

Lemma N_toString_pow10 (m : N) (e : nat) :
  (0 < m)%N → N_toString (m * 10 ^ N.of_nat e) = N_toString m +:+ zeros e.
Proof.
  intros Hm. induction e as [|e IH].
  - cbn [zeros]. rewrite append_nil_r. f_equal. cbn. lia.
  - rewrite Nat2N.inj_succ, N.pow_succ_r'.
    replace (m * (10 * 10 ^ N.of_nat e))%N with (10 * (m * 10 ^ N.of_nat e))%N
      by lia.
    rewrite N_toString_10, IH.
    + rewrite append_assoc. f_equal. clear. induction e as [|e IH]; [done|].
      cbn [zeros]. change (String "0" ?a +:+ ?b) with (String "0" (a +:+ b)).
      by rewrite IH.
    + assert (0 < 10 ^ N.of_nat e)%N by (apply N.neq_0_lt_0, N.pow_nonzero; lia).
      lia.
Qed.

Lemma ndigits_from_le (fuel : nat) : ∀ l z,
  10 ^ (l - 1) ≤ z → 1 ≤ l →
  10 ^ (ndigits_from fuel l z - 1) ≤ z ∧ 1 ≤ ndigits_from fuel l z.
Proof.
  induction fuel as [|f IH]; intros l z Hl H1; [done|].
  cbn [ndigits_from]. destruct (Z.ltb_spec z (10 ^ l)); [done|].
  apply IH; [|lia]. by replace (l + 1 - 1) with l by lia.
Qed.

Lemma ndigits_le (z : Z) : 0 < z → 10 ^ (ndigits z - 1) ≤ z ∧ 1 ≤ ndigits z.
Proof. intros Hz. apply ndigits_from_le; [cbn; lia | lia]. Qed.

Lemma pow10_pos (e : Z) : (0 < pow10 e)%Q.
Proof. apply Qpower_0_lt. reflexivity. Qed.

Lemma pow10_Z (e : Z) : 0 ≤ e → (pow10 e == inject_Z (10 ^ e))%Q.
Proof. intros H. unfold pow10. by rewrite Zpower_Qpower. Qed.

Lemma ilog10_whole (z : Z) :
  0 < z → 1 ≤ ilog10 (inject_Z z) ∧ 10 ^ (ilog10 (inject_Z z) - 1) ≤ z.
Proof.
  intros Hz. unfold ilog10. cbn [Qnum Qden inject_Z].
  change (ndigits 1) with 1.
  destruct (ndigits_le z Hz) as [Hd H1].
  set (e := ndigits z - 1) in *.
  assert (Qle_bool (pow10 e) (inject_Z z) = true) as ->.
  { apply Qle_bool_iff. rewrite pow10_Z by lia. by rewrite <- Zle_Qle. }
  split; [lia|]. by replace (e + 1 - 1) with e by lia.
Qed.

Lemma pick_Some (a : Q) (n k s : Z) :
  pick a n k = Some s →
  (s = Qfloor (a / pow10 (n - k)) ∨ s = Qceiling (a / pow10 (n - k)))
  ∧ reads_as a (inject_Z s * pow10 (n - k)) = true.
Proof.
  unfold pick. cbv zeta.
  destruct (reads_as a (inject_Z (Qfloor _) * _)) eqn:Elo,
           (reads_as a (inject_Z (Qceiling _) * _)) eqn:Ehi.
  - destruct (_ ?= _)%Q; [destruct (Z.even _)|..]; intros [= <-]; auto.
  - intros [= <-]; auto.
  - intros [= <-]; auto.
  - done.
Qed.

Lemma pick_None (a : Q) (n k : Z) :
  pick a n k = None →
  reads_as a (inject_Z (Qfloor (a / pow10 (n - k))) * pow10 (n - k)) = false.
Proof.
  unfold pick. cbv zeta.
  destruct (reads_as a (inject_Z (Qfloor _) * _)) eqn:Elo; [|done].
  destruct (reads_as a (inject_Z (Qceiling _) * _)).
  - by destruct (_ ?= _)%Q.
  - done.
Qed.

Lemma reads_as_whole (z c : Z) :
  - 2 ^ 53 < c < 2 ^ 53 →
  reads_as (inject_Z z) (inject_Z c) = true ↔ c = z.
Proof.
  intros Hc. unfold reads_as. rewrite (Number_of_whole _ c) by done.
  rewrite Qeq_bool_iff. unfold Qeq. cbn. lia.
Qed.

Lemma Number_of_proper (x y : Q) : (x == y)%Q → Number_of x = Number_of y.
Proof. intros H. unfold Number_of. by rewrite (Qred_complete _ _ H). Qed.

Lemma reads_as_proper (a c c' : Q) :
  (c == c')%Q → reads_as a c = reads_as a c'.
Proof. intros H. unfold reads_as. by rewrite (Number_of_proper _ _ H). Qed.

(** The two candidates for a whole number, as whole numbers. *)
Lemma candidate_bounds (z e s : Z) :
  0 ≤ e → 0 < z →
  s = Qfloor (inject_Z z / pow10 e) ∨ s = Qceiling (inject_Z z / pow10 e) →
  0 ≤ s * 10 ^ e < z + 10 ^ e.
Proof.
  intros He Hz Hs.
  assert (0 < 10 ^ e) as HU by (apply Z.pow_pos_nonneg; lia).
  pose proof (pow10_Z e He) as HuZ. pose proof (pow10_pos e) as Hu.
  set (U := 10 ^ e) in *. set (t := (inject_Z z / pow10 e)%Q) in *.
  assert (t * inject_Z U == inject_Z z)%Q as Ht
    by (subst t; rewrite <- HuZ; field; lra).
  assert (0 < inject_Z U)%Q as HUq by (by rewrite <- HuZ).
  assert (0 < inject_Z z)%Q as Hzq
    by (change 0%Q with (inject_Z 0); by rewrite <- Zlt_Qlt).
  assert (inject_Z (s - 1) < t ∧ t < inject_Z (s + 1))%Q as [Hlo Hhi].
  { destruct Hs as [-> | ->].
    - pose proof (Qfloor_le t). pose proof (Qlt_floor t). split; [|done].
      unfold Z.sub. rewrite inject_Z_plus. change (inject_Z (- (1))) with (- (1))%Q.
      lra.
    - pose proof (Qle_ceiling t). pose proof (Qceiling_lt t). split; [done|].
      rewrite inject_Z_plus. change (inject_Z 1) with 1%Q. lra. }
  assert (inject_Z ((s - 1) * U) < inject_Z z)%Q as H1.
  { rewrite inject_Z_mult, <- Ht. apply Qmult_lt_compat_r; done. }
  assert (inject_Z z < inject_Z ((s + 1) * U))%Q as H2.
  { rewrite inject_Z_mult, <- Ht. apply Qmult_lt_compat_r; done. }
  rewrite <- Zlt_Qlt in H1, H2.
  assert (0 ≤ s) by (destruct (Z.le_gt_cases 0 s); [done | nia]).
  split; nia.
Qed.

Lemma shortest_whole (z n : Z) (fuel : nat) : ∀ k s e,
  0 < z < 10 ^ 15 → 10 ^ (n - 1) ≤ z → 1 ≤ k ≤ n →
  (Z.to_nat (n - k) < fuel)%nat →
  shortest fuel (inject_Z z) n k = (s, e) →
  0 ≤ e ∧ 0 < s ∧ s * 10 ^ e = z.
Proof.
  change (10 ^ 15) with 1000000000000000.
  induction fuel as [|f IH]; intros k s e Hz Hn Hk Hf; [lia|].
  cbn [shortest]. destruct (pick (inject_Z z) n k) as [s0|] eqn:E.
  - intros [= -> <-]. apply pick_Some in E as [Hs Hr].
    pose proof (candidate_bounds z (n - k) s ltac:(lia) ltac:(lia) Hs) as Hb.
    assert (10 ^ (n - k) ≤ 10 ^ (n - 1)) by (apply Z.pow_le_mono_r; lia).
    rewrite (reads_as_proper _ _ (inject_Z (s * 10 ^ (n - k)))) in Hr
      by (by rewrite inject_Z_mult, pow10_Z by lia).
    apply reads_as_whole in Hr;
      [|change (2 ^ 53) with 9007199254740992; lia].
    assert (0 < 10 ^ (n - k)) by (apply Z.pow_pos_nonneg; lia).
    split; [lia|]. split; [nia|done].
  - intros Hsh. apply pick_None in E.
    destruct (decide (k = n)) as [->|Hne].
    + exfalso. rewrite Z.sub_diag in E.
      assert (inject_Z z / pow10 0 == inject_Z z)%Q as Ht
        by (change (pow10 0) with 1%Q; field).
      rewrite (Qfloor_comp _ _ Ht), Qfloor_Z in E.
      rewrite (reads_as_proper _ _ (inject_Z z)) in E
        by (change (pow10 0) with 1%Q; ring).
      assert (reads_as (inject_Z z) (inject_Z z) = true) as Hr
        by (apply reads_as_whole; [change (2 ^ 53) with 9007199254740992|]; lia).
      congruence.
    + apply (IH (k + 1) s e); try done; lia.
Qed.

Lemma strip_zeros_value (fuel : nat) : ∀ s e s' e',
  0 ≤ e → 0 < s → strip_zeros fuel s e = (s', e') →
  0 ≤ e' ∧ 0 < s' ∧ s' * 10 ^ e' = s * 10 ^ e.
Proof.
  induction fuel as [|f IH]; intros s e s' e' He Hs; cbn [strip_zeros].
  { by intros [= <- <-]. }
  destruct (Z.ltb_spec 0 s); [|lia]. cbn [andb].
  destruct (Z.eqb_spec (s mod 10) 0) as [Hm|Hm]; [|by intros [= <- <-]].
  intros Hst.
  assert (s = 10 * (s / 10)) as Hdiv by (pose proof (Z.div_mod s 10); lia).
  apply IH in Hst as (? & ? & Hv); [|lia..].
  split; [lia|]. split; [done|].
  rewrite Hv, Z.pow_add_r by lia. lia.
Qed.

Lemma pow10_lt_inv (a b : Z) : 0 ≤ a → 10 ^ a < 10 ^ b → a < b.
Proof.
  intros Ha H. destruct (Z.lt_ge_cases a b) as [|Hge]; [done|].
  destruct (Z.lt_ge_cases b 0) as [Hb|Hb].
  - rewrite (Z.pow_neg_r 10 b) in H by done.
    assert (0 < 10 ^ a) by (apply Z.pow_pos_nonneg; lia). lia.
  - assert (10 ^ b ≤ 10 ^ a) by (apply Z.pow_le_mono_r; lia). lia.
Qed.

(** A whole number below [10^15] is printed with all its digits. *)
Lemma ToString_pos_whole (z : Z) :
  0 < z < 10 ^ 15 → ToString_pos (inject_Z z) = N_toString (Z.to_N z).
Proof.
  intros Hz. unfold ToString_pos.
  destruct (ilog10_whole z) as [Hn1 Hn]; [lia|].
  set (n := ilog10 (inject_Z z)) in *.
  assert (n - 1 < 15) as Hn15 by (apply pow10_lt_inv; lia).
  destruct (shortest 17 (inject_Z z) n 1) as [s0 e0] eqn:Esh.
  apply shortest_whole in Esh as (He0 & Hs0 & Hv0); [|done|done|lia|lia].
  destruct (strip_zeros 17 s0 e0) as [s e] eqn:Est.
  apply strip_zeros_value in Est as (He & Hs & Hv); [|done..].
  destruct (ndigits_le s Hs) as [Hk Hk1]. set (k := ndigits s) in *.
  assert (0 < 10 ^ e) by (apply Z.pow_pos_nonneg; lia).
  assert (k - 1 + e < 15) as Hke.
  { apply pow10_lt_inv; [lia|]. rewrite Z.pow_add_r by lia. nia. }
  assert ((k <=? k + e) && (k + e <=? 21) = true) as ->.
  { apply andb_true_iff. split; apply Z.leb_le; lia. }
  replace (k + e - k) with e by lia.
  rewrite <- N_toString_pow10 by lia. f_equal.
  rewrite <- Hv0, <- Hv, Z2N.inj_mul, Z2N.inj_pow by lia.
  by rewrite Z_nat_N.
Qed.

Lemma ToString_whole (z : Z) :
  - 10 ^ 15 < z < 10 ^ 15 → ToString (whole z) = Z_toString z.
Proof.
  intros Hz. unfold whole, ToString, Z_toString.
  destruct (Z.lt_trichotomy z 0) as [Hneg|[->|Hpos]]; [| done |].
  - assert (Qeq_bool (inject_Z z) 0 = false) as ->.
    { apply not_true_is_false. intros E. apply Qeq_bool_iff in E.
      unfold Qeq in E. cbn in E. lia. }
    cbn [Qnum inject_Z]. rewrite (proj2 (Z.ltb_lt z 0)) by done.
    change (- inject_Z z)%Q with (inject_Z (- z)).
    rewrite ToString_pos_whole by lia. do 2 f_equal. lia.
  - assert (Qeq_bool (inject_Z z) 0 = false) as ->.
    { apply not_true_is_false. intros E. apply Qeq_bool_iff in E.
      unfold Qeq in E. cbn in E. lia. }
    cbn [Qnum inject_Z]. rewrite (proj2 (Z.ltb_ge z 0)) by lia.
    rewrite ToString_pos_whole by lia.
    change (N_toString (Z.to_N z) = N_toString (Z.abs_N z)). f_equal. lia.
Qed.

(** Up to [2^1023] nothing overflows. *)
Lemma Number_of_finite (x : Q) :
  (Qabs x <= pow2 1023)%Q → ∃ d, Number_of x = Finite d.
Proof.
  intros Hx. unfold Number_of. pose proof (Qred_correct x) as Hy.
  set (y := Qred x) in *. clearbody y. rewrite <- Hy in Hx. clear Hy x.
  destruct (Qeq_bool y 0) eqn:E; [eauto|]. apply Qeq_bool_neq in E.
  assert (0 < Qabs y)%Q as Hpos.
  { destruct y as [n d]. unfold Qeq in E. unfold Qlt, Qabs. cbn in *. lia. }
  pose proof (round53_near _ Hpos) as Hv.
  apply Qabs_Qle_condition in Hv as [_ Hv].
  assert (Qle_bool (pow2 1024) (round53 (Qabs y)) = false) as ->; [|eauto].
  apply not_true_is_false. intros Hle. apply Qle_bool_iff in Hle.
  assert (pow2 1024 == 2 * pow2 1023)%Q as H1024 by (by rewrite (pow2_half 1024)).
  assert (1 <= pow2 1023)%Q by (change 1%Q with (pow2 0); apply pow2_le; lia).
  assert (pow2 (-53) <= 1 # 4)%Q
    by (change (1 # 4)%Q with (pow2 (-2)); apply pow2_le; lia).
  assert (pow2 (-1075) <= 1 # 2)%Q
    by (change (1 # 2)%Q with (pow2 (-1)); apply pow2_le; lia).
  pose proof (pow2_pos (-53)).
  assert (Qabs y * pow2 (-53) <= pow2 1023 * (1 # 4))%Q
    by (apply Qmult_le_compat_nonneg; split; lra).
  lra.
Qed.

Lemma round_half_up_near (d : Q) :
  (inject_Z (round_half_up d) - (1 # 2) <= d)%Q
  ∧ (d < inject_Z (round_half_up d) + (1 # 2))%Q.
Proof.
  unfold round_half_up.
  pose proof (Qfloor_le (d + (1 # 2))) as H1.
  pose proof (Qlt_floor (d + (1 # 2))) as H2.
  rewrite inject_Z_plus in H2. change (inject_Z 1) with 1%Q in H2. split; lra.
Qed.

Lemma round_half_up_whole (x : Q) (z : Z) :
  (x == inject_Z z)%Q → round_half_up x = z.
Proof.
  intros H. unfold round_half_up.
  assert (x + (1 # 2) == inject_Z z + (1 # 2))%Q as -> by (by rewrite H).
  pose proof (Qfloor_le (inject_Z z + (1 # 2))) as H1.
  pose proof (Qlt_floor (inject_Z z + (1 # 2))) as H2.
  set (f := Qfloor _) in *.
  rewrite inject_Z_plus in H2. change (inject_Z 1) with 1%Q in H2.
  assert (inject_Z f < inject_Z (z + 1))%Q as Ha
    by (rewrite inject_Z_plus; change (inject_Z 1) with 1%Q; lra).
  assert (inject_Z (z - 1) < inject_Z f)%Q as Hb.
  { unfold Z.sub. rewrite inject_Z_plus. change (inject_Z (- (1))) with (- (1))%Q.
    lra. }
  rewrite <- Zlt_Qlt in Ha, Hb. lia.
Qed.

End Binary64.

(** ** The agenda *)

Section Agenda.

Import RoundTrip.

Implicit Types (p : ClassProfile) (feedback : option SessionFeedback) (n : nat).

Lemma lines_app (l1 l2 : list string) : lines (l1 ++ l2) = lines l1 +:+ lines l2.
Proof.
  induction l1 as [|l l1 IH]; [done|].
  cbn [lines app]. by rewrite IH, !append_assoc.
Qed.

(** A block is its heading, its items and an empty line. *)
Lemma block_lines (title i : string) (items : list string) :
  block title (i :: items)
  = lines (("### " +:+ title) :: map (fun i => "- " +:+ i) (i :: items) ++ [""]).
Proof.
  unfold block. cbn [lines]. rewrite !append_assoc. do 3 f_equal.
  revert i. induction items as [|j items IH]; intros i.
  - cbn [map app lines join]. by rewrite !append_assoc.
  - change (join nl (map ?f (i :: j :: items)))
      with (f i +:+ nl +:+ join nl (map f (j :: items))).
    change (lines (map ?f (i :: j :: items) ++ [""]))
      with (f i +:+ nl +:+ lines (map f (j :: items) ++ [""])).
    by rewrite !append_assoc, IH.
Qed.

Lemma minutesOf_round (h c : Q) :
  (Qabs (h * c) <= pow2 1023)%Q →
  minutesOf h c (Math_round (Number_multiply (Finite h) (Finite c))).
Proof.
  intros Hhc. cbn [Number_multiply].
  destruct (Number_of_finite _ Hhc) as [d Hd]. rewrite Hd.
  exists d, (round_half_up d). split; [done|].
  split; [by apply Number_of_near|]. split; [done|].
  destruct (round_half_up_near d) as [H1 H2]. split; [done|]. split; [done|].
  apply ToString_whole.
Qed.

Lemma below_overflow (h c : Q) :
  (Qabs h <= pow2 1000)%Q → (0 <= c <= 16)%Q → (Qabs (h * c) <= pow2 1023)%Q.
Proof.
  intros Hh [Hc0 Hc]. rewrite Qabs_Qmult, (Qabs_pos c) by done.
  assert (pow2 1023 == pow2 1000 * pow2 23)%Q as -> by (by rewrite <- pow2_add).
  assert (16 <= pow2 23)%Q by (change 16%Q with (pow2 4); apply pow2_le; lia).
  pose proof (Qabs_nonneg h). pose proof (pow2_pos 1000).
  apply Qmult_le_compat_nonneg; split; lra.
Qed.

Lemma agenda_whole p (k : Z) :
  planLength p = whole k → - 10 ^ 13 < k < 10 ^ 13 →
  agendaMinutes p = map whole [10 * k; 15 * k; 15 * k; 15 * k; 5 * k]
  ∧ map ToString (agendaMinutes p)
    = map Z_toString [10 * k; 15 * k; 15 * k; 15 * k; 5 * k].
Proof.
  change (10 ^ 13) with 10000000000000. intros Hlen Hk.
  assert (∀ c : Z, 0 ≤ c ≤ 15 →
    Math_round (Number_multiply (whole k) (Finite (inject_Z c))) = whole (c * k))
    as Hblock.
  { intros c Hc. cbn [Number_multiply whole].
    rewrite (Number_of_whole _ (c * k));
      [|rewrite inject_Z_mult; ring
       |change (2 ^ 53) with 9007199254740992; nia].
    cbn [Math_round]. unfold whole. by rewrite (round_half_up_whole _ (c * k)). }
  assert (agendaMinutes p = map whole [10 * k; 15 * k; 15 * k; 15 * k; 5 * k])
    as Hm.
  { unfold agendaMinutes, perHour. rewrite Hlen. cbn [map].
    change 10%Q with (inject_Z 10). change 15%Q with (inject_Z 15).
    change 5%Q with (inject_Z 5). by rewrite !Hblock by lia. }
  split; [done|]. rewrite Hm. cbn [map].
  change (10 ^ 15) with 1000000000000000 in *.
  by rewrite !ToString_whole by (change (10 ^ 15) with 1000000000000000; lia).
Qed.

Lemma planLength_whole p (k : Z) :
  (sessionLengthHours p == inject_Z k)%Q → - 2 ^ 53 < k < 2 ^ 53 →
  planLength p = whole (if decide (k = 0) then 1 else k).
Proof.
  intros Hh Hk. unfold planLength. rewrite (Number_of_whole _ k Hh Hk).
  unfold number_or, falsy_number. destruct (decide (k = 0)) as [->|Hne]; [done|].
  assert (Qeq_bool (inject_Z k) 0 = false) as ->; [|done].
  apply not_true_is_false. intros E. apply Qeq_bool_iff in E.
  unfold Qeq in E. cbn in E. lia.
Qed.

(** C4, as the specification states it, fails: halving the hour does not
    halve the blocks, a session length of zero plans a full hour, and the
    products are those of binary64: 4.1 hours give 61 minutes where 62 is
    the rounding of 61.5. *)
Lemma C4_rounding_breaks_linearity :
  agendaMinutes halfHour = map whole [5; 8; 8; 8; 3]
  ∧ agendaMinutes robotics = map whole [10; 15; 15; 15; 5]
  ∧ (sessionLengthHours robotics == 2 * sessionLengthHours halfHour)%Q
  ∧ agendaMinutes robotics ≠ map whole (map (Z.mul 2) [5; 8; 8; 8; 3])
  ∧ agendaMinutes zeroHours = map whole [10; 15; 15; 15; 5]
  ∧ agendaMinutes fourPointOne = map whole [41; 61; 61; 61; 21]
  ∧ round_half_up (sessionLengthHours fourPointOne * 15) = 62.
Proof. repeat split; try (vm_compute; reflexivity). vm_compute. discriminate. Qed.

(** C4 (amended): the agenda of every plan has exactly five time blocks
    that show Math.round(h*10), Math.round(h*15), Math.round(h*15),
    Math.round(h*15) and Math.round(h*5) minutes, where h is
    [sessionLengthHours], or 1 when that is zero.  Each product is the
    binary64 one, within half a unit of the last place of the exact
    product, and the minutes are the integer next to it, the upper one of
    two.  For one hour they are 10, 15, 15, 15 and 5, and for a whole
    number k of hours they are k times these.  Between whole hours the
    rounding decides. *)
Theorem C4_agenda_blocks p feedback n :
  (∃ m1 m2 m3 m4 m5,
     agendaMinutes p = [m1; m2; m3; m4; m5]
     ∧ makePlanMarkdown p feedback n
       = header p (deriveSignals (Some p) feedback n) n +:+
         lines ["### Agenda (Suggested Timing)";
                "- Warm-up & Engagement — " +:+ ToString m1 +:+ " min";
                "- Mini-Lesson — " +:+ ToString m2 +:+ " min";
                "- Guided Practice — " +:+ ToString m3 +:+ " min";
                "- Project/Application — " +:+ ToString m4 +:+ " min";
                "- Share & Reflect — " +:+ ToString m5 +:+ " min";
                ""] +:+
         block "Warm-up & Engagement"
           (warmup (deriveSignals (Some p) feedback n)) +:+
         block "Teach (Mini-Lesson)"
           (teach (deriveSignals (Some p) feedback n)) +:+
         block "Guided Practice"
           (practice (deriveSignals (Some p) feedback n)) +:+
         block "Apply & Create" (apply (deriveSignals (Some p) feedback n)) +:+
         block "Reflect & Close" reflect +:+
         block "Optional Extension / Home Connection" homework)
  ∧ (∀ h, planLength p = Finite h → (Qabs h <= pow2 1000)%Q →
       Forall2 (minutesOf h) perHour (agendaMinutes p))
  ∧ (∀ k : Z, - 10 ^ 13 < k < 10 ^ 13 →
       (sessionLengthHours p == inject_Z k)%Q →
       let k' := if decide (k = 0) then 1 else k in
       planLength p = whole k'
       ∧ agendaMinutes p = map whole [10 * k'; 15 * k'; 15 * k'; 15 * k'; 5 * k']
       ∧ map ToString (agendaMinutes p)
         = map Z_toString [10 * k'; 15 * k'; 15 * k'; 15 * k'; 5 * k'])
  ∧ ((sessionLengthHours p == 0)%Q ∨ (sessionLengthHours p == 1)%Q →
       agendaMinutes p = map whole [10; 15; 15; 15; 5]).
Proof.
  assert (∀ k : Z, - 10 ^ 13 < k < 10 ^ 13 →
       (sessionLengthHours p == inject_Z k)%Q →
       let k' := if decide (k = 0) then 1 else k in
       planLength p = whole k'
       ∧ agendaMinutes p = map whole [10 * k'; 15 * k'; 15 * k'; 15 * k'; 5 * k']
       ∧ map ToString (agendaMinutes p)
         = map Z_toString [10 * k'; 15 * k'; 15 * k'; 15 * k'; 5 * k'])
    as Hwhole.
  { change (10 ^ 13) with 10000000000000. intros k Hk Hh k'.
    assert (planLength p = whole k') as Hlen
      by (apply planLength_whole;
          [done | change (2 ^ 53) with 9007199254740992; lia]).
    split; [done|]. apply agenda_whole; [done|].
    change (10 ^ 13) with 10000000000000. subst k'.
    destruct (decide (k = 0)); lia. }
  split; [|split; [|split; [exact Hwhole|]]].
  - eexists _, _, _, _, _. split; [reflexivity|].
    unfold makePlanMarkdown, timing. cbv zeta.
    rewrite (block_lines "Agenda (Suggested Timing)"). reflexivity.
  - intros h Hlen Hh. unfold agendaMinutes, perHour. rewrite Hlen. cbn [map].
    repeat constructor; apply minutesOf_round, below_overflow;
      (done || split; discriminate).
  - intros [Hh|Hh].
    + destruct (Hwhole 0) as (_ & Hm & _); [done|done|exact Hm].
    + destruct (Hwhole 1) as (_ & Hm & _); [done|done|exact Hm].
Qed.

Lemma C4_agenda_blocks_witness :
  Forall2 (minutesOf fourPointOneHours) perHour (agendaMinutes fourPointOne).
Proof.
  refine (proj1 (proj2 (C4_agenda_blocks fourPointOne None 1)) _ _ _).
  - vm_compute. reflexivity.
  - unfold Qle. vm_compute. discriminate.
Defined.

End Agenda.

(** ** The plan text and its inputs *)

Section PlanText.

Import RoundTrip.

Implicit Types (st : AppState) (r : ClassRun) (p : ClassProfile).
Implicit Types (feedback : option SessionFeedback) (n : nat) (now : string).

(** A generation request on a run with a saved profile adds the plan of
    the next session, or nothing when it is refused. *)
Lemma planned_cases now st r p :
  findRun (activeId st) (runs st) = Some r → profile r = Some p →
  planned now st r
  = if bool_decide (subject p ≠ "")
       && Qle_bool (of_nat (length (sessions r) + 1)) (num_or (totalSessions p) 1)
    then [makePlanMarkdown p (lastFeedback (Some r)) (length (sessions r) + 1)]
    else [].
Proof.
  intros Hr Hp. unfold planned, step. cbn [handler].
  pose proof (generateNextPlan_cases now st) as Hgen.
  rewrite Hr in Hgen. cbn [runProfile runLength] in Hgen.
  rewrite Hp in Hgen. cbn [default from_option Datatypes.id] in Hgen.
  destruct Hgen as [[Hs ->]|[(Hs & Hlt & ->)|(Hs & Hle & ->)]].
  - rewrite commit_alert, Hr, drop_all.
    by rewrite bool_decide_eq_false_2 by (intros H; by apply H).
  - rewrite commit_alert, Hr, drop_all.
    assert (Qle_bool (of_nat (length (sessions r) + 1))
              (num_or (totalSessions p) 1) = false) as ->.
    { apply not_true_is_false. intros H. apply Qle_bool_iff in H.
      by apply (Qlt_not_le _ _ Hlt). }
    by rewrite andb_false_r.
  - rewrite bool_decide_eq_true_2 by done.
    rewrite (proj2 (Qle_bool_iff _ _) Hle).
    cbn [commit fold_left apply_update runs activeId andb].
    rewrite findRun_mapActive, Hr by done. cbn [fmap option_fmap option_map].
    rewrite bool_decide_eq_true_2 by done. unfold withSessions. cbn [sessions].
    by rewrite drop_app_length.
Qed.

Lemma session_number_read (a b : nat) (ra rb : string) :
  nat_toString a +:+ ": " +:+ ra = nat_toString b +:+ ": " +:+ rb →
  a = b ∧ ra = rb.
Proof.
  unfold nat_toString. intros H.
  apply (f_equal take_digits) in H.
  rewrite !take_digits_app in H by (done || apply all_digits_N_toString).
  injection H as Hd Hr. split.
  - apply (f_equal (digits_val 0)) in Hd. rewrite !N_toString_val in Hd. lia.
  - exact Hr.
Qed.

(** C10: the plan text is a function of the profile, the feedback and
    the session number, and of nothing else in the program.  Whatever
    the clock, the other runs, the selection and the forms of two states,
    a generation request on runs with the same saved profile, the same
    last feedback and as many sessions has the same outcome and writes
    the same text, the one [makePlanMarkdown] gives for these three.  The
    three do reach the text: it tells the session number and both signals
    of the feedback. *)
Theorem C10_plan_deterministic now1 now2 st1 st2 r1 r2 p :
  findRun (activeId st1) (runs st1) = Some r1 →
  findRun (activeId st2) (runs st2) = Some r2 →
  profile r1 = Some p → profile r2 = Some p →
  lastFeedback (Some r1) = lastFeedback (Some r2) →
  length (sessions r1) = length (sessions r2) →
  planned now1 st1 r1 = planned now2 st2 r2
  ∧ (subject p ≠ "" →
     (of_nat (length (sessions r1) + 1) <= num_or (totalSessions p) 1)%Q →
     planned now1 st1 r1
     = [makePlanMarkdown p (lastFeedback (Some r1)) (length (sessions r1) + 1)])
  ∧ (∀ feedback1 feedback2 n1 n2,
       makePlanMarkdown p feedback1 n1 = makePlanMarkdown p feedback2 n2 →
       n1 = n2
       ∧ needsMoreEngagement (deriveSignals (Some p) feedback1 n1)
         = needsMoreEngagement (deriveSignals (Some p) feedback2 n2)
       ∧ needsMoreScaffold (deriveSignals (Some p) feedback1 n1)
         = needsMoreScaffold (deriveSignals (Some p) feedback2 n2)).
Proof.
  intros Hr1 Hr2 Hp1 Hp2 Hfb Hlen.
  rewrite (planned_cases now1 st1 r1 p Hr1 Hp1).
  rewrite (planned_cases now2 st2 r2 p Hr2 Hp2).
  split; [by rewrite Hfb, Hlen|]. split.
  { intros Hs Hle. rewrite bool_decide_eq_true_2 by done.
    by rewrite (proj2 (Qle_bool_iff _ _) Hle). }
  intros feedback1 feedback2 n1 n2 H.
  assert (n1 = n2) as <-.
  { unfold makePlanMarkdown, header in H. cbv zeta in H.
    rewrite !append_assoc in H.
    apply (inj (String.append "# Session ")) in H.
    by apply session_number_read in H as [? _]. }
  split; [done|].
  unfold makePlanMarkdown in H. cbv zeta in H.
  remember (deriveSignals (Some p) feedback1 n1) as s1 eqn:E1.
  remember (deriveSignals (Some p) feedback2 n1) as s2 eqn:E2.
  assert (sessionTheme s1 = sessionTheme s2 ∧ levelNote s1 = levelNote s2)
    as [Hth Hln] by (by subst s1 s2).
  destruct s1 as [e1 c1 th1 mi1 ln1], s2 as [e2 c2 th2 mi2 ln2].
  cbn [sessionTheme levelNote needsMoreEngagement needsMoreScaffold] in *.
  subst th2 ln2. unfold header in H.
  cbn [levelNote] in H. rewrite !append_assoc in H.
  repeat (apply (inj (String.append _)) in H).
  clear E1 E2.
  destruct e1, e2, c1, c2; try done; exfalso; vm_compute in H; discriminate H.
Qed.

Lemma C10_plan_deterministic_witness :
  planned "day-2" firstPlan
    {| id := "run-1"; profile := Some robotics;
       sessions := [makePlan "day-1" robotics None 1] |}
  = planned "day-8" elsewhere
      {| id := "run-9"; profile := Some robotics;
         sessions := [makePlan "day-7" robotics None 1] |}.
Proof.
  refine (proj1 (C10_plan_deterministic "day-2" "day-8" firstPlan elsewhere
           {| id := "run-1"; profile := Some robotics;
              sessions := [makePlan "day-1" robotics None 1] |}
           {| id := "run-9"; profile := Some robotics;
              sessions := [makePlan "day-7" robotics None 1] |} robotics
           _ _ _ _ _ _)); reflexivity.
Defined.

End PlanText.

(** ** Further properties: escaping and signals *)

Section MoreSignals.

Implicit Types (p : ClassProfile) (feedback : option SessionFeedback) (n : nat).

Lemma occurs_app (c : ascii) (a b : string) :
  occurs c (a +:+ b) = occurs c a || occurs c b.
Proof.
  induction a as [|x a IH]; [done|].
  change (String x a +:+ b) with (String x (a +:+ b)). cbn [occurs].
  by rewrite IH, orb_assoc.
Qed.

Lemma occurs_replaceAll_same (c : ascii) (by_ s : string) :
  occurs c by_ = false → occurs c (replaceAll c by_ s) = false.
Proof.
  intros Hby. induction s as [|x s IH]; [done|]. cbn [replaceAll].
  destruct (Ascii.eqb x c) eqn:E.
  - by rewrite occurs_app, Hby, IH.
  - cbn [occurs]. by rewrite E, IH.
Qed.

Lemma occurs_replaceAll_other (c d : ascii) (by_ s : string) :
  occurs d by_ = false → occurs d s = false →
  occurs d (replaceAll c by_ s) = false.
Proof.
  intros Hby. induction s as [|x s IH]; [done|]. cbn [occurs replaceAll].
  intros [Hx Hs]%orb_false_iff. destruct (Ascii.eqb x c).
  - by rewrite occurs_app, Hby, IH.
  - cbn [occurs]. by rewrite Hx, IH.
Qed.

Lemma replaceAll_absent (c : ascii) (by_ s : string) :
  occurs c s = false → replaceAll c by_ s = s.
Proof.
  induction s as [|x s IH]; [done|]. cbn [occurs replaceAll].
  intros [-> Hs]%orb_false_iff. by rewrite IH.
Qed.

Lemma replaceAll_app (c : ascii) (by_ a b : string) :
  replaceAll c by_ (a +:+ b) = replaceAll c by_ a +:+ replaceAll c by_ b.
Proof.
  induction a as [|x a IH]; [done|].
  change (String x a +:+ b) with (String x (a +:+ b)). cbn [replaceAll].
  rewrite IH. destruct (Ascii.eqb x c); [|done].
  by rewrite RoundTrip.append_assoc.
Qed.

(** X1: an escaped text has no angle bracket left. *)
Theorem markdownEscape_no_angle (s : string) :
  occurs "<" (markdownEscape s) = false ∧ occurs ">" (markdownEscape s) = false.
Proof.
  unfold markdownEscape. split.
  - apply occurs_replaceAll_other; [reflexivity|].
    apply occurs_replaceAll_same. reflexivity.
  - apply occurs_replaceAll_same. reflexivity.
Qed.

(** X2: a text without angle brackets is left as it is, and escaping
    twice is escaping once. *)
Theorem markdownEscape_clean (s : string) :
  (occurs "<" s = false → occurs ">" s = false → markdownEscape s = s)
  ∧ markdownEscape (markdownEscape s) = markdownEscape s.
Proof.
  assert (∀ t, occurs "<" t = false → occurs ">" t = false →
          markdownEscape t = t) as H.
  { intros t H1 H2. unfold markdownEscape.
    rewrite (replaceAll_absent "<") by done. by apply replaceAll_absent. }
  split; [apply H|]. apply H; unfold markdownEscape.
  - apply occurs_replaceAll_other; [reflexivity|].
    apply occurs_replaceAll_same. reflexivity.
  - apply occurs_replaceAll_same. reflexivity.
Qed.

Lemma markdownEscape_clean_witness : markdownEscape "Robotics" = "Robotics".
Proof. apply (proj1 (markdownEscape_clean "Robotics")); reflexivity. Defined.

(** X3: escaping goes through concatenation. *)
Theorem markdownEscape_app (a b : string) :
  markdownEscape (a +:+ b) = markdownEscape a +:+ markdownEscape b.
Proof. unfold markdownEscape. by rewrite !replaceAll_app. Qed.









Lemma groupSize_eq (g : Q) : (num_or g 0 == g)%Q.
Proof.
  unfold num_or. destruct (Qeq_bool g 0) eqn:E; [|reflexivity].
  apply Qeq_bool_iff in E. by rewrite E.
Qed.

Lemma Math_max_1 (g : Q) :
  ((g <= 1)%Q → (Math_max 1 g == 1)%Q) ∧ ((1 <= g)%Q → (Math_max 1 g == g)%Q).
Proof.
  unfold Math_max. destruct (num_lt 1 g) eqn:E.
  - apply num_lt_iff in E. split; [|reflexivity].
    intros H. exfalso. by apply (Qlt_not_le 1 g).
  - assert (g <= 1)%Q as Hle.
    { apply Qnot_lt_le. rewrite <- num_lt_iff. congruence. }
    split; [reflexivity|]. intros H. by apply Qle_antisym.
Qed.

Lemma ratio_below_half (x m : Q) :
  (0 < m)%Q → (x / m < 1 # 2)%Q ↔ (2 * x < m)%Q.
Proof.
  intros Hm.
  assert (x / m * m == x)%Q as Hy by (field; lra).
  rewrite <- (Qmult_lt_r (x / m) (1 # 2) m Hm), Hy. lra.
Qed.

(** X5: the engagement signal compares the excited children with half
    the class: for a class of at least one student it holds exactly when
    twice the count is below [numStudents]; below one student the count
    is compared with 0.5.  An absent count is 0. *)
Theorem engagement_threshold p feedback n :
  let x := default 0%Q (feedback ≫= excitedCount) in
  let needs := needsMoreEngagement (deriveSignals (Some p) feedback n) in
  ((1 <= numStudents p)%Q → (needs = true ↔ (2 * x < numStudents p)%Q))
  ∧ ((numStudents p <= 1)%Q → (needs = true ↔ (x < 1 # 2)%Q)).
Proof.
  cbn zeta. unfold deriveSignals. cbn [needsMoreEngagement from_option].
  set (x := default 0%Q (feedback ≫= excitedCount)).
  set (gs := num_or (numStudents p) 0).
  assert (gs == numStudents p)%Q as Hgs by apply groupSize_eq.
  rewrite num_lt_iff.
  destruct (Math_max_1 gs) as [Hlow Hhigh]. split; intros H.
  - rewrite Hhigh, Hgs by (by rewrite Hgs). apply ratio_below_half. lra.
  - rewrite Hlow by (by rewrite Hgs). rewrite ratio_below_half by lra. lra.
Qed.

Lemma engagement_threshold_witness :
  needsMoreEngagement (deriveSignals (Some robotics) (Some lowFeedback) 2)
  = true.
Proof.
  apply (proj1 (engagement_threshold robotics (Some lowFeedback) 2)).
  - discriminate.
  - reflexivity.
Defined.

(** X6: without feedback every class is planned the same way, as one
    that needs engagement and no extra scaffolding: below the agenda the
    plan is one fixed text, the energy check-in first and the concept
    spotlight as the lesson, with the subject as its only variable part. *)
Theorem no_feedback_plan (profile : option ClassProfile) p n :
  needsMoreEngagement (deriveSignals profile None n) = true
  ∧ needsMoreScaffold (deriveSignals profile None n) = false
  ∧ makePlanMarkdown p None n
    = header p (deriveSignals (Some p) None n) n +:+
      block "Agenda (Suggested Timing)" (timing (planLength p)) +:+
      lines ["### Warm-up & Engagement";
             "- Energy check-in: fist-to-five excitement poll";
             "- 2–3 min icebreaker tied to interests";
             "- Movement mini-game or quick quiz";
             "";
             "### Teach (Mini-Lesson)";
             "- Concept spotlight: " +:+ str_or (subject p) "General Learning"
               +:+ " (interactive)";
             "- Student discovery task in pairs; teacher circulates";
             "";
             "### Guided Practice";
             "- Team task: small groups tackle a bite-sized challenge";
             "- Allow open-ended approaches; encourage creativity";
             "- Midpoint pause: share strategies; highlight good moves";
             "";
             "### Apply & Create";
             "- Independent or pair build: mini-project applying today’s concept";
             "- Gamify with milestones/badges";
             "";
             "### Reflect & Close";
             "- 2-minute exit ticket: one learning, one question, one improvement";
             "- Student self-rating on confidence (1–5); teacher notes pacing";
             "";
             "### Optional Extension / Home Connection";
             "- Optional: short practice or reflection journal (photo/upload ok)";
             "- Bring one real-world example or question next session";
             ""].
Proof.
  assert (∀ profile, needsMoreEngagement (deriveSignals profile None n) = true)
    as He.
  { intros pr. unfold deriveSignals. cbn [needsMoreEngagement]. apply num_lt_iff.
    cbn [mbind option_bind default from_option Datatypes.id].
    unfold Qdiv. rewrite Qmult_0_l. reflexivity. }
  split; [apply He|]. split; [done|].
  unfold makePlanMarkdown, warmup, teach, practice, apply. cbv zeta.
  rewrite (He (Some p)).
  change (needsMoreScaffold (deriveSignals (Some p) None n)) with false.
  cbv iota.
  change (sessionTheme (deriveSignals (Some p) None n))
    with (str_or (subject p) "General Learning").
  do 2 f_equal. unfold reflect, homework.
  rewrite !block_lines, <- !lines_app. reflexivity.
Qed.

End MoreSignals.

(** ** Further properties: what reaches the plan *)

Section MoreTemplate.

Implicit Types (p : ClassProfile) (feedback : option SessionFeedback) (n : nat).

(** X7: a plan is fixed by the session number, by five fields of the
    profile (subject, expectation, session length, number of students,
    age range) and by the two signals: the student list, the number of
    sessions and the other interests and remarks of the feedback do not
    reach the text. *)
Theorem plan_only_through_signals p1 p2 feedback1 feedback2 n :
  subject p1 = subject p2 → expectation p1 = expectation p2 →
  sessionLengthHours p1 = sessionLengthHours p2 →
  numStudents p1 = numStudents p2 → ageRange p1 = ageRange p2 →
  needsMoreEngagement (deriveSignals (Some p1) feedback1 n)
  = needsMoreEngagement (deriveSignals (Some p2) feedback2 n) →
  needsMoreScaffold (deriveSignals (Some p1) feedback1 n)
  = needsMoreScaffold (deriveSignals (Some p2) feedback2 n) →
  makePlanMarkdown p1 feedback1 n = makePlanMarkdown p2 feedback2 n.
Proof.
  destruct p1 as [s1 e1 t1 l1 g1 a1 ss1], p2 as [s2 e2 t2 l2 g2 a2 ss2].
  cbn [subject expectation sessionLengthHours numStudents ageRange].
  intros -> -> -> -> -> He Hs.
  unfold makePlanMarkdown, warmup, teach, practice, apply, header.
  rewrite He, Hs. reflexivity.
Qed.

Lemma plan_only_through_signals_witness :
  makePlanMarkdown robotics (Some lowFeedback) 2
  = makePlanMarkdown
      {| subject := "Robotics"; expectation := ""; totalSessions := 12%Q;
         sessionLengthHours := 1%Q; numStudents := 4%Q; ageRange := "10–13";
         students := [] |}
      (Some {| excitedCount := None; digestible := Some "some";
               otherInterests := "drones"; notGoodEnough := "pacing" |}) 2.
Proof.
  apply (plan_only_through_signals robotics
           {| subject := "Robotics"; expectation := ""; totalSessions := 12%Q;
              sessionLengthHours := 1%Q; numStudents := 4%Q;
              ageRange := "10–13"; students := [] |}
           (Some lowFeedback)
           (Some {| excitedCount := None; digestible := Some "some";
                    otherInterests := "drones"; notGoodEnough := "pacing" |}) 2);
    reflexivity.
Defined.

End MoreTemplate.

(** ** Further properties: the handlers *)

Section MoreLifecycle.

Implicit Types (st : AppState) (r : ClassRun) (rs : list ClassRun).
Implicit Types (rid aid now : string) (p : ClassProfile).

Lemma findRun_None rid rs : findRun rid rs = None ↔ rid ∉ map id rs.
Proof.
  induction rs as [|r rs IH]; [split; [intros _ []%elem_of_nil | done]|].
  rewrite findRun_cons. cbn [map]. rewrite not_elem_of_cons.
  case_bool_decide as E.
  - split; [done|]. intros [H _]. by destruct H.
  - rewrite IH. split; [by split|by intros [_ ?]].
Qed.

Lemma findRun_NoDup rs r :
  NoDup (map id rs) → r ∈ rs → findRun (id r) rs = Some r.
Proof.
  induction rs as [|r0 rs IH]; [by intros _ ?%elem_of_nil|].
  cbn [map]. intros [Hnot Hnd]%list.NoDup_cons [->|Hin]%elem_of_cons.
  - rewrite findRun_cons. by rewrite bool_decide_eq_true_2.
  - rewrite findRun_cons. case_bool_decide as E; [|by apply IH].
    destruct Hnot. rewrite E. apply list_elem_of_fmap. eauto.
Qed.

Lemma mapActive_ids aid (f : ClassRun → ClassRun) rs :
  (∀ r, id r = aid → id (f r) = aid) →
  map id (mapActive aid f rs) = map id rs.
Proof.
  intros Hf. induction rs as [|r rs IH]; [done|].
  cbn [mapActive map]. fold (mapActive aid f rs). rewrite IH.
  case_bool_decide as E; [|done]. by rewrite (Hf r E), E.
Qed.

Lemma mapActive_absent aid (f : ClassRun → ClassRun) rs :
  findRun aid rs = None → mapActive aid f rs = rs.
Proof.
  rewrite findRun_None. induction rs as [|r rs IH]; [done|].
  cbn [mapActive map]. fold (mapActive aid f rs).
  intros [Hr Hrs]%not_elem_of_cons. rewrite IH by done.
  by rewrite bool_decide_eq_false_2.
Qed.

Lemma elem_of_mapActive aid (f : ClassRun → ClassRun) rs r' :
  r' ∈ mapActive aid f rs →
  r' ∈ rs ∧ id r' ≠ aid ∨ ∃ r, r ∈ rs ∧ id r = aid ∧ r' = f r.
Proof.
  unfold mapActive. intros (r & -> & Hin)%list_elem_of_fmap.
  case_bool_decide; [right; eauto | left; eauto].
Qed.

(** *** Generation *)

(** X8: a request that passes both guards raises no alert and appends
    exactly one record to the active run: it carries the next number,
    the time of the request and no feedback; every other run, the
    selection and the forms are as before. *)
Theorem generate_accepted now st r p :
  findRun (activeId st) (runs st) = Some r → profile r = Some p →
  subject p ≠ "" →
  (of_nat (length (sessions r) + 1) <= num_or (totalSessions p) 1)%Q →
  let st' := step st (clickGenerate now) in
  let rec := makePlan now p (lastFeedback (Some r)) (length (sessions r) + 1) in
  alerts (handler (clickGenerate now) st) = []
  ∧ findRun (activeId st) (runs st') = Some (appendPlan rec r)
  ∧ sessionNumber rec = S (length (sessions r))
  ∧ generatedAt rec = now ∧ feedback rec = None
  ∧ (∀ rid, rid ≠ activeId st → findRun rid (runs st') = findRun rid (runs st))
  ∧ activeId st' = activeId st
  ∧ formProfile st' = formProfile st ∧ formFeedback st' = formFeedback st.
Proof.
  intros Hr Hp Hs Hle. cbn zeta.
  pose proof (generateNextPlan_cases now st) as Hgen.
  rewrite Hr in Hgen. cbn [runProfile runLength] in Hgen.
  rewrite Hp in Hgen. cbn [default from_option Datatypes.id] in Hgen.
  destruct Hgen as [[? _]|[(_ & Hlt & _)|(_ & _ & Hgen)]]; [done| |].
  { exfalso. by apply (Qlt_not_le _ _ Hlt). }
  unfold step. cbn [handler]. rewrite Hgen.
  cbn [alerts omap commit fold_left apply_update runs activeId formProfile
       formFeedback makePlan sessionNumber generatedAt feedback].
  repeat split; try done.
  - by apply findRun_appendPlan.
  - by rewrite Nat.add_1_r.
  - intros rid Hne. rewrite findRun_mapActive by done.
    rewrite bool_decide_eq_false_2 by done. by destruct (findRun rid (runs st)).
Qed.

Lemma generate_accepted_witness :
  let st' := step firstPlan (clickGenerate "day-2") in
  let r := {| id := "run-1"; profile := Some robotics;
              sessions := [makePlan "day-1" robotics None 1] |} in
  let rec := makePlan "day-2" robotics (lastFeedback (Some r))
               (length (sessions r) + 1) in
  alerts (handler (clickGenerate "day-2") firstPlan) = []
  ∧ findRun (activeId firstPlan) (runs st') = Some (appendPlan rec r)
  ∧ sessionNumber rec = S (length (sessions r))
  ∧ generatedAt rec = "day-2" ∧ feedback rec = None
  ∧ (∀ rid, rid ≠ activeId firstPlan →
       findRun rid (runs st') = findRun rid (runs firstPlan))
  ∧ activeId st' = activeId firstPlan
  ∧ formProfile st' = formProfile firstPlan
  ∧ formFeedback st' = formFeedback firstPlan.
Proof.
  apply (generate_accepted "day-2" firstPlan
           {| id := "run-1"; profile := Some robotics;
              sessions := [makePlan "day-1" robotics None 1] |} robotics);
    [reflexivity | reflexivity | discriminate | vm_compute; discriminate].
Defined.

(** X9: with no run under the selected identifier (the last run has been
    deleted) a generation request changes nothing, and when the form
    profile passes the guards it does so without any alert; a feedback
    submission is refused with the alert. *)
Theorem generate_without_run now st :
  findRun (activeId st) (runs st) = None →
  runs (step st (clickGenerate now)) = runs st
  ∧ (subject (formProfile st) ≠ "" →
     (1 <= num_or (totalSessions (formProfile st)) 1)%Q →
     alerts (handler (clickGenerate now) st) = [])
  ∧ handler (clickSubmitFeedback now) st = [alert msgNoPlan].
Proof.
  intros Hr.
  pose proof (generateNextPlan_cases now st) as Hgen.
  rewrite Hr in Hgen. cbn [runProfile runLength default from_option Datatypes.id] in Hgen.
  split; [|split].
  - unfold step. cbn [handler].
    destruct Hgen as [[_ ->]|[(_ & _ & ->)|(_ & _ & ->)]]; try done.
    cbn [commit fold_left apply_update runs]. by apply mapActive_absent.
  - intros Hs Hle.
    destruct Hgen as [[? _]|[(_ & Hlt & _)|(_ & _ & Hgen)]]; [done| |].
    + exfalso. by apply (Qlt_not_le _ _ Hlt).
    + cbn [handler]. by rewrite Hgen.
  - cbn [handler]. apply submit_refused. intros r. by rewrite Hr.
Qed.

Lemma generate_without_run_witness :
  let st := step (step firstPlan (editProfile robotics)) (clickDelete "run-1" true) in
  runs (step st (clickGenerate "day-2")) = runs st
  ∧ (subject (formProfile st) ≠ "" →
     (1 <= num_or (totalSessions (formProfile st)) 1)%Q →
     alerts (handler (clickGenerate "day-2") st) = [])
  ∧ handler (clickSubmitFeedback "day-2") st = [alert msgNoPlan].
Proof.
  apply (generate_without_run "day-2"
           (step (step firstPlan (editProfile robotics)) (clickDelete "run-1" true))).
  reflexivity.
Defined.

(** X10: when the active run has a saved profile, what the profile form
    holds has no part in a generation request: the request is decided
    and the plan is written from the saved profile. *)
Theorem generate_uses_saved_profile now st r p (form : ClassProfile) :
  findRun (activeId st) (runs st) = Some r → profile r = Some p →
  generateNextPlan now (step st (editProfile form)) = generateNextPlan now st
  ∧ runs (run_events st [editProfile form; clickGenerate now])
    = runs (step st (clickGenerate now)).
Proof.
  intros Hr Hp.
  assert (generateNextPlan now (step st (editProfile form))
          = generateNextPlan now st) as Hgen.
  { unfold generateNextPlan, step. cbn [handler commit fold_left apply_update
      runs activeId formProfile]. rewrite Hr. cbn [runProfile]. by rewrite Hp. }
  split; [done|]. cbn [run_events fold_left]. unfold step at 1. cbn [handler].
  rewrite Hgen. unfold step at 2. cbn [handler].
  destruct (generateNextPlan_cases now st) as [[_ ->]|[(_ & _ & ->)|(_ & _ & ->)]];
    reflexivity.
Qed.

Lemma generate_uses_saved_profile_witness :
  generateNextPlan "day-2" (step firstPlan (editProfile noSessions))
  = generateNextPlan "day-2" firstPlan
  ∧ runs (run_events firstPlan [editProfile noSessions; clickGenerate "day-2"])
    = runs (step firstPlan (clickGenerate "day-2")).
Proof.
  apply (generate_uses_saved_profile "day-2" firstPlan
           {| id := "run-1"; profile := Some robotics;
              sessions := [makePlan "day-1" robotics None 1] |}
           robotics noSessions); reflexivity.
Defined.

(** *** Saving the profile *)

Lemma mapActive_twice aid (f : ClassRun → ClassRun) rs :
  (∀ r, id (f r) = id r) → (∀ r, f (f r) = f r) →
  mapActive aid f (mapActive aid f rs) = mapActive aid f rs.
Proof.
  intros Hid Hf. unfold mapActive. rewrite map_map. apply map_ext.
  intros r. destruct (decide (id r = aid)) as [E|E].
  - rewrite (bool_decide_eq_true_2 _ E), bool_decide_eq_true_2
      by (by rewrite Hid).
    apply Hf.
  - by rewrite !(bool_decide_eq_false_2 _ E).
Qed.

(** X11: "Save Profile" puts the form profile on the active run and
    leaves its sessions, the other runs, the selection and the forms
    alone; saving twice is saving once. *)
Theorem saveProfile_effect st :
  let st' := step st clickSaveProfile in
  (∀ r, findRun (activeId st) (runs st) = Some r →
     findRun (activeId st) (runs st')
     = Some {| id := id r; profile := Some (formProfile st);
               sessions := sessions r |})
  ∧ (∀ rid, rid ≠ activeId st → findRun rid (runs st') = findRun rid (runs st))
  ∧ map id (runs st') = map id (runs st)
  ∧ activeId st' = activeId st ∧ formProfile st' = formProfile st
  ∧ formFeedback st' = formFeedback st
  ∧ step st' clickSaveProfile = st'.
Proof.
  cbn zeta. unfold step. cbn [handler saveProfile commit fold_left apply_update
    runs activeId formProfile formFeedback].
  repeat split.
  - intros r Hr. rewrite findRun_mapActive, Hr by done. cbn.
    by rewrite bool_decide_eq_true_2.
  - intros rid Hne. rewrite findRun_mapActive by done.
    rewrite bool_decide_eq_false_2 by done. by destruct (findRun rid (runs st)).
  - by apply mapActive_ids.
  - f_equal. by apply mapActive_twice.
Qed.

(** *** Feedback *)

(** X12: without a plan there is nothing to give feedback on: when the
    active run is missing or has no session, the submission raises the
    alert and changes nothing; the form keeps what was entered. *)
Theorem submit_without_plan now st :
  (∀ r, findRun (activeId st) (runs st) = Some r → sessions r = []) →
  handler (clickSubmitFeedback now) st = [alert msgNoPlan]
  ∧ step st (clickSubmitFeedback now) = st.
Proof.
  intros H. unfold step. cbn [handler]. by rewrite (submit_refused _ _ H).
Qed.

Lemma submit_without_plan_witness :
  handler (clickSubmitFeedback "day-1") (step (mounted "run-1") (editFeedback lowFeedback))
  = [alert msgNoPlan]
  ∧ step (step (mounted "run-1") (editFeedback lowFeedback))
         (clickSubmitFeedback "day-1")
    = step (mounted "run-1") (editFeedback lowFeedback).
Proof.
  apply (submit_without_plan "day-1"
           (step (mounted "run-1") (editFeedback lowFeedback))).
  intros r [= <-]. reflexivity.
Defined.

Lemma lookup_attachFeedback fb r i :
  sessions (attachFeedback fb r) !! i
  = (fun s => if (i =? length (sessions r) - 1)%nat then withFeedback fb s else s)
    <$> sessions r !! i.
Proof. cbn. apply list_lookup_imap. Qed.

(** X13: an accepted submission writes the feedback of the form on the
    last record of the active run, and on no other; it empties the
    form, keeps the selection, and adds at most one record. *)
Theorem submit_attaches_to_last now st r :
  findRun (activeId st) (runs st) = Some r → sessions r ≠ [] →
  let st' := step st (clickSubmitFeedback now) in
  let k := (length (sessions r) - 1)%nat in
  ∃ r', findRun (activeId st) (runs st') = Some r'
        ∧ sessions r' !! k = withFeedback (formFeedback st) <$> sessions r !! k
        ∧ (∀ i, (i < k)%nat → sessions r' !! i = sessions r !! i)
        ∧ (length (sessions r) ≤ length (sessions r') ≤ S (length (sessions r)))%nat
        ∧ profile r' = profile r
        ∧ formFeedback st' = defaultFeedback
        ∧ activeId st' = activeId st.
Proof.
  intros Hr Hs. cbn zeta.
  assert (length (sessions r) ≠ 0)%nat as Hlen by (by destruct (sessions r)).
  assert (formFeedback (step st (clickSubmitFeedback now)) = defaultFeedback) as Hff.
  { unfold step. cbn [handler]. rewrite (submit_updates _ _ _ Hr Hs), commit_app.
    destruct (generateNextPlan_cases now st) as [[_ ->]|[(_ & _ & ->)|(_ & _ & ->)]];
      reflexivity. }
  destruct (submit_commit now st r Hr Hs) as [Ha [Hruns|(_ & _ & Hruns)]];
    unfold step; cbn [handler]; rewrite Hruns.
  - exists (attachFeedback (formFeedback st) r).
    split; [by apply findRun_attachFeedback|].
    rewrite !lookup_attachFeedback, Nat.eqb_refl, length_attachFeedback.
    repeat split; try done; try lia.
    intros i Hi. rewrite lookup_attachFeedback.
    destruct (Nat.eqb_spec i (length (sessions r) - 1)); [lia|].
    by destruct (sessions r !! i).
  - eexists. split.
    { apply findRun_appendPlan. by apply findRun_attachFeedback. }
    cbn [appendPlan withSessions sessions profile].
    rewrite length_app, length_attachFeedback. cbn [length].
    repeat split; try done; try lia.
    + rewrite lookup_app_l by (rewrite length_attachFeedback; lia).
      by rewrite lookup_attachFeedback, Nat.eqb_refl.
    + intros i Hi.
      rewrite lookup_app_l by (rewrite length_attachFeedback; lia).
      rewrite lookup_attachFeedback.
      destruct (Nat.eqb_spec i (length (sessions r) - 1)); [lia|].
      by destruct (sessions r !! i).
Qed.

Lemma submit_attaches_to_last_witness :
  let r := {| id := "run-1"; profile := Some robotics;
              sessions := [makePlan "day-1" robotics None 1] |} in
  let st := step firstPlan (editFeedback lowFeedback) in
  let st' := step st (clickSubmitFeedback "day-2") in
  let k := (length (sessions r) - 1)%nat in
  ∃ r', findRun (activeId st) (runs st') = Some r'
        ∧ sessions r' !! k = withFeedback (formFeedback st) <$> sessions r !! k
        ∧ (∀ i, (i < k)%nat → sessions r' !! i = sessions r !! i)
        ∧ (length (sessions r) ≤ length (sessions r') ≤ S (length (sessions r)))%nat
        ∧ profile r' = profile r
        ∧ formFeedback st' = defaultFeedback
        ∧ activeId st' = activeId st.
Proof.
  apply (submit_attaches_to_last "day-2"
           (step firstPlan (editFeedback lowFeedback))
           {| id := "run-1"; profile := Some robotics;
              sessions := [makePlan "day-1" robotics None 1] |});
    [reflexivity | discriminate].
Defined.

(** X14: the plan that an accepted submission appends is the one a
    plain generation request would have appended in the same state: the
    submission is that request followed by the attachment, and the
    feedback being submitted has no part in the new record. *)
Theorem submit_is_generate_then_attach now st r :
  findRun (activeId st) (runs st) = Some r → sessions r ≠ [] →
  ∀ r1, findRun (activeId st) (runs (step st (clickGenerate now))) = Some r1 →
    findRun (activeId st) (runs (step st (clickSubmitFeedback now)))
    = Some {| id := id r1; profile := profile r1;
              sessions :=
                sessions (attachFeedback (formFeedback st) r)
                ++ drop (length (sessions r)) (sessions r1) |}.
Proof.
  intros Hr Hs r1. unfold step. cbn [handler].
  rewrite (submit_updates _ _ _ Hr Hs), commit_app.
  destruct (generateNextPlan_cases now st) as [[_ ->]|[(_ & _ & ->)|(_ & _ & ->)]];
    cbn [commit fold_left apply_update runs].
  - rewrite Hr. intros [= <-]. rewrite findRun_attachFeedback by done.
    rewrite drop_all, app_nil_r. done.
  - rewrite Hr. intros [= <-]. rewrite findRun_attachFeedback by done.
    rewrite drop_all, app_nil_r. done.
  - repeat match goal with
           | |- context [mapActive ?a (fun r0 => withSessions (sessions r0 ++ [?x]) r0)] =>
               change (fun r0 => withSessions (sessions r0 ++ [x]) r0)
                 with (appendPlan x)
           end.
    rewrite (findRun_appendPlan _ _ _ _ Hr). intros [= <-].
    rewrite (findRun_appendPlan _ _ _ (attachFeedback (formFeedback st) r))
      by (by apply findRun_attachFeedback).
    cbn [appendPlan withSessions attachFeedback id profile sessions].
    by rewrite drop_app_length.
Qed.

Lemma submit_is_generate_then_attach_witness :
  findRun (activeId (step firstPlan (editFeedback lowFeedback)))
    (runs (step (step firstPlan (editFeedback lowFeedback))
                (clickSubmitFeedback "day-2")))
  = Some {| id := "run-1"; profile := Some robotics;
            sessions :=
              sessions (attachFeedback (formFeedback (step firstPlan (editFeedback lowFeedback)))
                          {| id := "run-1"; profile := Some robotics;
                             sessions := [makePlan "day-1" robotics None 1] |})
              ++ drop (length [makePlan "day-1" robotics None 1])
                   [makePlan "day-1" robotics None 1;
                    makePlan "day-2" robotics None 2] |}.
Proof.
  apply (submit_is_generate_then_attach "day-2"
           (step firstPlan (editFeedback lowFeedback))
           {| id := "run-1"; profile := Some robotics;
              sessions := [makePlan "day-1" robotics None 1] |}
           eq_refl ltac:(discriminate)
           {| id := "run-1"; profile := Some robotics;
              sessions := [makePlan "day-1" robotics None 1;
                           makePlan "day-2" robotics None 2] |}).
  reflexivity.
Defined.

(** *** Classes: new, delete, startup *)

Lemma runs_deleteRun st rid :
  runs (step st (clickDelete rid true)) = filter (fun r => id r ≠ rid) (runs st).
Proof.
  unfold step. cbn [handler]. unfold deleteRun. cbn [negb].
  change (commit st (?u :: ?us)) with (commit (apply_update st u) us).
  rewrite commit_selection; [done|].
  destruct (filter _ (runs st)) as [|r0 ?]; [constructor|].
  case_bool_decide; repeat constructor.
Qed.

(** X15: a confirmed deletion removes the run of that identifier and no
    other, keeping the order; a declined one changes nothing.  When the
    deleted run was the selected one, the first remaining run is
    selected and its profile loaded in the form; when none remains the
    selection stays on the deleted identifier. *)
Theorem deleteRun_effect st rid :
  let st' := step st (clickDelete rid true) in
  runs st' = filter (fun r => id r ≠ rid) (runs st)
  ∧ findRun rid (runs st') = None
  ∧ (∀ other, other ≠ rid → findRun other (runs st') = findRun other (runs st))
  ∧ step st (clickDelete rid false) = st
  ∧ (rid ≠ activeId st →
     activeId st' = activeId st ∧ formProfile st' = formProfile st)
  ∧ (rid = activeId st →
     match runs st' with
     | r :: _ => activeId st' = id r
                 ∧ formProfile st' = default newEmptyProfile (profile r)
     | [] => activeId st' = rid ∧ formProfile st' = formProfile st
     end)
  ∧ formFeedback st' = formFeedback st.
Proof.
  cbn zeta. rewrite runs_deleteRun. split; [done|].
  split; [by rewrite findRun_filter, bool_decide_eq_true_2|].
  split.
  { intros other Hne. by rewrite findRun_filter, bool_decide_eq_false_2. }
  split; [done|].
  unfold step. cbn [handler]. unfold deleteRun. cbn [negb].
  destruct (filter (fun r => id r ≠ rid) (runs st)) as [|r0 rest] eqn:E.
  - split; [done|]. split; [|done]. by intros ->.
  - case_bool_decide as Ha.
    + split; [done|]. done.
    + split; [done|]. split; [|done]. intros Hb. by destruct Ha.
Qed.

Lemma deleteRun_effect_witness :
  activeId (step (step firstPlan (clickNewClass "run-2"))
              (clickDelete "run-2" true)) = "run-1"
  ∧ formProfile (step (step firstPlan (clickNewClass "run-2"))
                   (clickDelete "run-2" true)) = robotics.
Proof.
  destruct (deleteRun_effect (step firstPlan (clickNewClass "run-2")) "run-2")
    as (_ & _ & _ & _ & _ & H & _).
  exact (H eq_refl).
Defined.

(** X16: "New Class" puts a run with the default profile and no session
    in front of the others, selects it and resets both forms; the runs
    that were there are kept.  The new class gets no plan until a
    profile is saved: whatever the form is changed to, a generation
    request is refused for the missing subject. *)
Theorem newClassRun_effect st uuid (form : ClassProfile) now :
  let st' := step st (clickNewClass uuid) in
  runs st' = {| id := uuid; profile := Some newEmptyProfile; sessions := [] |}
             :: runs st
  ∧ activeId st' = uuid
  ∧ formProfile st' = newEmptyProfile ∧ formFeedback st' = defaultFeedback
  ∧ (∀ rid, rid ≠ uuid → findRun rid (runs st') = findRun rid (runs st))
  ∧ handler (clickGenerate now) (step st' (editProfile form)) = [alert msgSubject]
  ∧ runs (run_events st' [editProfile form; clickGenerate now]) = runs st'.
Proof.
  cbn zeta.
  assert (generateNextPlan now (step (step st (clickNewClass uuid))
                                     (editProfile form))
          = [alert msgSubject]) as Hgen.
  { unfold generateNextPlan, step.
    cbn [handler newClassRun commit fold_left apply_update runs activeId].
    rewrite findRun_cons. cbn [id]. rewrite bool_decide_eq_true_2 by done.
    reflexivity. }
  repeat split; try done.
  - intros rid Hne. unfold step.
    cbn [handler newClassRun commit fold_left apply_update runs].
    rewrite findRun_cons. cbn [id]. by rewrite bool_decide_eq_false_2.
  - cbn [run_events fold_left]. unfold step at 1. cbn [handler]. by rewrite Hgen.
Qed.

Lemma firstRender_active stored uuid :
  activeId (firstRender stored uuid)
  = match stored with r :: _ => str_or (id r) uuid | [] => uuid end.
Proof. reflexivity. Qed.

(** X17: after the first render and its mount effect there is a run
    under the selected identifier.  A store whose first run has a
    non-empty identifier is taken over as it is, with that run selected
    and its profile in the form; an empty store starts with one fresh
    run under the new identifier, and a fresh identifier keeps the
    identifiers distinct. *)
Theorem startup_has_active_run stored uuid :
  let st := startup stored uuid in
  (∃ r, findRun (activeId st) (runs st) = Some r)
  ∧ (stored = [] → st = mounted uuid)
  ∧ (∀ r rest, stored = r :: rest → id r ≠ "" →
       runs st = stored ∧ activeId st = id r
       ∧ formProfile st = default newEmptyProfile (profile r))
  ∧ (NoDup (map id stored) → uuid ∉ map id stored → NoDup (map id (runs st)))
  ∧ formFeedback st = defaultFeedback.
Proof.
  cbn zeta. unfold startup, mountEffect.
  set (st0 := firstRender stored uuid).
  assert (runs st0 = stored) as Hruns by done.
  destruct (findRun (activeId st0) (runs st0)) as [r0|] eqn:Hfind.
  - cbn [commit fold_left]. split; [eauto|].
    split; [by intros ->|]. split; [|split; [by rewrite Hruns|done]].
    intros r rest -> Hid. split; [done|].
    assert (activeId st0 = id r) as Ha.
    { unfold st0. rewrite firstRender_active. by destruct (id r). }
    split; [done|]. unfold st0, firstRender. cbn [formProfile].
    change (match r :: rest with r1 :: _ => str_or (id r1) uuid | [] => uuid end)
      with (str_or (id r) uuid).
    replace (str_or (id r) uuid) with (id r) by (by destruct (id r)).
    rewrite findRun_cons. by rewrite bool_decide_eq_true_2.
  - cbn [commit fold_left apply_update runs activeId formFeedback].
    split.
    { eexists. rewrite findRun_cons. cbn [id].
      by rewrite bool_decide_eq_true_2. }
    split; [by intros ->|]. split; [|split; [|done]].
    + intros r rest -> Hid. exfalso.
      assert (activeId st0 = id r) as Ha.
      { unfold st0. rewrite firstRender_active. by destruct (id r). }
      rewrite Ha, Hruns, findRun_cons in Hfind.
      by rewrite bool_decide_eq_true_2 in Hfind.
    + intros Hnd Hfresh. cbn [map id]. rewrite Hruns.
      apply list.NoDup_cons. split; [|done].
      apply findRun_None. by rewrite <- Hruns.
Qed.

Lemma startup_has_active_run_witness :
  runs (startup (runs firstPlan) "run-2") = runs firstPlan
  ∧ activeId (startup (runs firstPlan) "run-2") = "run-1"
  ∧ formProfile (startup (runs firstPlan) "run-2") = robotics.
Proof.
  destruct (startup_has_active_run (runs firstPlan) "run-2")
    as (_ & _ & H & _).
  exact (H _ _ eq_refl ltac:(discriminate)).
Defined.

(** *** Invariants of the store *)

Lemma numbered_appendPlan rec r :
  numbered r → sessionNumber rec = S (length (sessions r)) →
  numbered (appendPlan rec r).
Proof.
  intros Hn Hrec i s. cbn. rewrite lookup_app_Some.
  intros [Hs|[Hi Hs]]; [by apply Hn|].
  apply list_lookup_singleton_Some in Hs as [Hz <-]. rewrite Hrec. lia.
Qed.

Lemma numbered_attachFeedback fb r : numbered r → numbered (attachFeedback fb r).
Proof.
  intros Hn i s. rewrite lookup_attachFeedback.
  destruct (sessions r !! i) as [s0|] eqn:E; [|done]. cbn.
  intros [= <-]. specialize (Hn i s0 E). by destruct (i =? _)%nat.
Qed.

(** One event keeps the identifiers distinct and the records numbered
    by position. *)
Lemma step_keeps_store st ev :
  (∀ u, ev = clickNewClass u → u ∉ map id (runs st)) →
  NoDup (map id (runs st)) → Forall numbered (runs st) →
  NoDup (map id (runs (step st ev))) ∧ Forall numbered (runs (step st ev))
  ∧ (∀ x, x ∈ map id (runs (step st ev)) →
       x ∈ map id (runs st) ∨ ev = clickNewClass x).
Proof.
  intros Hu Hnd Hnum. rewrite list.Forall_forall in Hnum.
  destruct ev.
  - (* generate *)
    unfold step. cbn [handler].
    destruct (generate_commit now st) as [_ [[-> _]|(_ & _ & _ & ->)]].
    { split; [done|]. split; [by apply list.Forall_forall|]. auto. }
    rewrite mapActive_ids by done. split; [done|]. split; [|auto].
    apply list.Forall_forall. intros r' [[Hin _]|(r & Hin & Hid & ->)]%elem_of_mapActive;
      [by apply Hnum|].
    apply numbered_appendPlan; [by apply Hnum|].
    rewrite <- Hid, (findRun_NoDup _ _ Hnd Hin). cbn. lia.
  - (* submit *)
    destruct (findRun (activeId st) (runs st)) as [ra|] eqn:Ha; last first.
    { unfold step. cbn [handler].
      rewrite submit_refused by (intros ?; by rewrite Ha).
      split; [done|]. split; [by apply list.Forall_forall|]. auto. }
    destruct (decide (sessions ra = [])) as [Hs|Hs].
    { unfold step. cbn [handler].
      rewrite submit_refused by (intros ?; rewrite Ha; by intros [= <-]).
      split; [done|]. split; [by apply list.Forall_forall|]. auto. }
    pose proof (findRun_Some _ _ _ Ha) as [Hid Hin].
    assert (numbered (attachFeedback (formFeedback st) ra)) as Hfed
      by (by apply numbered_attachFeedback, Hnum).
    unfold step. cbn [handler].
    destruct (submit_commit now st ra Ha Hs) as [_ [->|(_ & _ & ->)]].
    + rewrite mapActive_ids by done. split; [done|]. split; [|auto].
      apply list.Forall_forall.
      intros r' [[Hin' _]|(r & _ & _ & ->)]%elem_of_mapActive; [by apply Hnum|done].
    + rewrite !mapActive_ids by done. split; [done|]. split; [|auto].
      apply list.Forall_forall.
      intros r' [[Hin' _]|(r & Hin' & Hid' & ->)]%elem_of_mapActive.
      * apply elem_of_mapActive in Hin' as [[? _]|(? & _ & _ & ->)];
          [by apply Hnum | done].
      * apply elem_of_mapActive in Hin' as [[? Hne]|(? & _ & _ & ->)]; [done|].
        apply numbered_appendPlan; [done|].
        rewrite length_attachFeedback. cbn. lia.
  - (* save profile *)
    unfold step. cbn [handler saveProfile commit fold_left apply_update runs].
    rewrite mapActive_ids by done. split; [done|]. split; [|auto].
    apply list.Forall_forall.
    intros r' [[Hin' _]|(r & Hin' & _ & ->)]%elem_of_mapActive; [by apply Hnum|].
    intros i s. cbn. by apply Hnum.
  - (* new class *)
    unfold step. cbn [handler newClassRun commit fold_left apply_update runs].
    cbn [map id]. split; [apply list.NoDup_cons; split; [by apply Hu | done]|].
    split.
    + apply list.Forall_cons. split; [by intros i s|].
      by apply list.Forall_forall.
    + intros x [->|?]%elem_of_cons; auto.
  - (* delete *)
    destruct confirmed; last first.
    { split; [done|]. split; [by apply list.Forall_forall|]. auto. }
    rewrite runs_deleteRun. split; [|split].
    + eapply sublist_NoDup; [exact Hnd|]. apply fmap_sublist, sublist_filter.
    + apply list.Forall_forall. intros r [_ Hin]%list_elem_of_filter. by apply Hnum.
    + intros x (r & -> & [_ Hin]%list_elem_of_filter)%list_elem_of_fmap.
      left. apply list_elem_of_fmap. eauto.
  - unfold step. rewrite commit_selection
      by (cbn [handler]; destruct (runs st !! i); repeat constructor).
    split; [done|]. split; [by apply list.Forall_forall|]. auto.
  - split; [done|]. split; [by apply list.Forall_forall|]. auto.
  - split; [done|]. split; [by apply list.Forall_forall|]. auto.
Qed.

Lemma trace_keeps_store evs : ∀ st used,
  map id (runs st) ⊆ used → fresh_uuids used evs →
  NoDup (map id (runs st)) → Forall numbered (runs st) →
  NoDup (map id (runs (run_events st evs)))
  ∧ Forall numbered (runs (run_events st evs)).
Proof.
  induction evs as [|ev evs IH]; intros st used Hsub Hfresh Hnd Hnum; [done|].
  change (run_events st (ev :: evs)) with (run_events (step st ev) evs).
  assert ((∀ u, ev = clickNewClass u → u ∉ used) ∧
          ∃ used', fresh_uuids used' evs ∧ used ⊆ used' ∧
                   ∀ u, ev = clickNewClass u → u ∈ used')
    as [Hu (used' & Hfresh' & Hused & Hnew)].
  { destruct ev; try (split; [done|]; exists used; by repeat split).
    destruct Hfresh as [Hi Hfresh]. split; [by intros u [= <-]|].
    exists (uuid :: used). split; [done|]. split; [by intros x ?; right|].
    intros u [= <-]. by left. }
  destruct (step_keeps_store st ev) as (Hnd' & Hnum' & Hids); [|done..|].
  { intros u Hev Hin. apply (Hu u Hev). by apply Hsub. }
  apply (IH _ used'); [|done..].
  intros x [Hx|Hx]%Hids; [by apply Hused, Hsub | by apply Hnew].
Qed.

(** What one event does to the list of identifiers. *)
Lemma step_ids st ev :
  map id (runs (step st ev)) = map id (runs st)
  ∨ (∃ u, ev = clickNewClass u ∧
          map id (runs (step st ev)) = u :: map id (runs st))
  ∨ (∃ d, ev = clickDelete d true ∧
          runs (step st ev) = filter (fun r => id r ≠ d) (runs st)).
Proof.
  destruct ev.
  - left. unfold step. cbn [handler].
    destruct (generate_commit now st) as [_ [[-> _]|(_ & _ & _ & ->)]]; [done|].
    by apply mapActive_ids.
  - left. destruct (findRun (activeId st) (runs st)) as [ra|] eqn:Ha; last first.
    { unfold step. cbn [handler].
      by rewrite submit_refused by (intros ?; by rewrite Ha). }
    destruct (decide (sessions ra = [])) as [Hs|Hs].
    { unfold step. cbn [handler].
      by rewrite submit_refused by (intros ?; rewrite Ha; by intros [= <-]). }
    pose proof (findRun_Some _ _ _ Ha) as [Hid _].
    unfold step. cbn [handler].
    destruct (submit_commit now st ra Ha Hs) as [_ [->|(_ & _ & ->)]];
      by rewrite !mapActive_ids.
  - left. unfold step. cbn [handler saveProfile commit fold_left apply_update runs].
    by apply mapActive_ids.
  - right. left. by exists uuid.
  - destruct confirmed; [|by left]. right. right. exists rid.
    by rewrite runs_deleteRun.
  - left. unfold step. by rewrite commit_selection
      by (cbn [handler]; destruct (runs st !! i); repeat constructor).
  - by left.
  - by left.
Qed.

Lemma trace_keeps_ids evs : ∀ st used,
  map id (runs st) ⊆ used → fresh_uuids used evs →
  NoDup (map id (runs st)) → NoDup (map id (runs (run_events st evs))).
Proof.
  induction evs as [|ev evs IH]; intros st used Hsub Hfresh Hnd; [done|].
  change (run_events st (ev :: evs)) with (run_events (step st ev) evs).
  destruct (step_ids st ev) as [Hids|[(u & -> & Hids)|(d & -> & Hruns)]].
  - apply (IH _ used); [by rewrite Hids| |by rewrite Hids].
    destruct ev; try done. exfalso.
    apply (f_equal length) in Hids. cbn in Hids. lia.
  - destruct Hfresh as [Hu Hfresh].
    apply (IH _ (u :: used)); [|done|]; rewrite Hids.
    + intros x [->|Hx]%elem_of_cons; [by left | right; by apply Hsub].
    + apply list.NoDup_cons. split; [|done]. intros Hin. by apply Hu, Hsub.
  - apply (IH _ used); [|done|]; rewrite Hruns.
    + intros x (r & -> & [_ Hin]%list_elem_of_filter)%list_elem_of_fmap.
      apply Hsub, list_elem_of_fmap. eauto.
    + eapply sublist_NoDup; [exact Hnd|]. apply fmap_sublist, sublist_filter.
Qed.

(** X18: the runs of the store keep distinct identifiers over every
    sequence of operations in which each new class draws a fresh
    identifier. *)
Theorem identifiers_stay_distinct st evs :
  NoDup (map id (runs st)) → fresh_uuids (map id (runs st)) evs →
  NoDup (map id (runs (run_events st evs))).
Proof.
  intros Hnd Hfresh. by apply (trace_keeps_ids evs st (map id (runs st))).
Qed.

Lemma identifiers_stay_distinct_witness :
  NoDup (map id (runs (run_events firstPlan
           [clickNewClass "run-2"; clickSubmitFeedback "day-2";
            clickDelete "run-1" true]))).
Proof.
  apply (identifiers_stay_distinct firstPlan
           [clickNewClass "run-2"; clickSubmitFeedback "day-2";
            clickDelete "run-1" true]).
  - vm_compute. repeat constructor. by intros ?%elem_of_nil.
  - split; [|exact I]. cbn. by intros [=]%list_elem_of_singleton.
Defined.

(** X19: with distinct identifiers, the records of every run stay
    numbered 1, 2, 3, ... in list order over every such sequence of
    operations. *)
Theorem sessions_stay_numbered st evs r i s :
  NoDup (map id (runs st)) → Forall numbered (runs st) →
  fresh_uuids (map id (runs st)) evs →
  r ∈ runs (run_events st evs) → sessions r !! i = Some s →
  sessionNumber s = S i.
Proof.
  intros Hnd Hnum Hfresh Hin Hs.
  destruct (trace_keeps_store evs st (map id (runs st))) as [_ H]; [done..|].
  rewrite list.Forall_forall in H. by apply (H r Hin).
Qed.

Lemma sessions_stay_numbered_witness :
  sessionNumber (makePlan "day-2" robotics None 2) = 2%nat.
Proof.
  apply (sessions_stay_numbered firstPlan
           [editFeedback lowFeedback; clickSubmitFeedback "day-2"]
           {| id := "run-1"; profile := Some robotics;
              sessions := [withFeedback lowFeedback (makePlan "day-1" robotics None 1);
                           makePlan "day-2" robotics None 2] |}
           1%nat (makePlan "day-2" robotics None 2)).
  - vm_compute. repeat constructor. by intros ?%elem_of_nil.
  - repeat constructor. intros [|[|i]] s; cbn; [by intros [= <-]|done..].
  - exact I.
  - left.
  - reflexivity.
Defined.

(** *** Counting sessions *)

Lemma of_nat_le (a b : nat) : (of_nat a <= of_nat b)%Q ↔ (a ≤ b)%nat.
Proof.
  unfold of_nat. rewrite <- Zle_Qle. lia.
Qed.

Lemma planning_fresh (used : list string) evs :
  Forall planning evs → fresh_uuids used evs.
Proof.
  induction 1 as [|ev evs Hev _ IH]; [done|]. by destruct ev.
Qed.

(** X20: a complete run stays as long as it is: once the number of
    sessions equals a positive [totalSessions], no generation request
    and no feedback submission adds a record. *)
Theorem complete_run_is_final st r p evs :
  findRun (activeId st) (runs st) = Some r → profile r = Some p →
  (0 < totalSessions p)%Q →
  (of_nat (length (sessions r)) == totalSessions p)%Q →
  Forall planning evs →
  ∃ r', findRun (activeId st) (runs (run_events st evs)) = Some r'
        ∧ length (sessions r') = length (sessions r)
        ∧ map planMd (sessions r') = map planMd (sessions r).
Proof.
  intros Hr Hp Hpos Hlen Hevs.
  destruct (planning_trace evs st r p Hevs Hr Hp Hpos) as (r' & Hr' & _ & Hle).
  { rewrite Hlen. apply Qle_refl. }
  exists r'. split; [done|].
  destruct (trace_find evs st (map id (runs st)) (activeId st) r')
    as (r0 & Hr0 & Hlow & Hext);
    [by eapply findRun_elem_of | by apply planning_fresh | done |].
  rewrite Hr in Hr0. injection Hr0 as <-.
  rewrite <- Hlen in Hle. apply of_nat_le in Hle.
  assert (length (sessions r') = length (sessions r)) as Heq by lia.
  split; [done|].
  apply list_eq. intros i. rewrite !list_lookup_fmap.
  destruct (sessions r !! i) as [s|] eqn:Hs.
  - destruct (Hext i s Hs) as (s' & -> & _ & _ & Hplan & _). cbn.
    by rewrite Hplan.
  - apply lookup_ge_None in Hs.
    rewrite (proj2 (lookup_ge_None (sessions r') i)); [done | lia].
Qed.

Lemma complete_run_is_final_witness :
  ∃ r', findRun (activeId afterFeedback)
          (runs (run_events afterFeedback
                   [clickGenerate "day-3"; editFeedback goodFeedback;
                    clickSubmitFeedback "day-4"])) = Some r'
        ∧ length (sessions r') = length [makePlan "day-1" robotics None 1;
                                          makePlan "day-2" robotics None 2]
        ∧ map planMd (sessions r')
          = map planMd [withFeedback lowFeedback (makePlan "day-1" robotics None 1);
                        makePlan "day-2" robotics None 2].
Proof.
  apply (complete_run_is_final afterFeedback
           {| id := "run-1"; profile := Some robotics;
              sessions := [withFeedback lowFeedback (makePlan "day-1" robotics None 1);
                           makePlan "day-2" robotics None 2] |}
           robotics
           [clickGenerate "day-3"; editFeedback goodFeedback;
            clickSubmitFeedback "day-4"]);
    [reflexivity | reflexivity | reflexivity | reflexivity
    | repeat constructor].
Defined.

(** X21: for a saved profile with a subject and a whole, positive
    number [k] of sessions, [j] generation requests in a row take a run
    of [m <= k] sessions to [min (m + j) k] sessions: one record per
    request until the run is complete, none after. *)
Theorem generate_repeatedly (nows : list string) : ∀ st r p (k : nat),
  findRun (activeId st) (runs st) = Some r → profile r = Some p →
  subject p ≠ "" → (totalSessions p == of_nat k)%Q → (1 ≤ k)%nat →
  (length (sessions r) ≤ k)%nat →
  ∃ r', findRun (activeId st) (runs (run_events st (map clickGenerate nows)))
        = Some r'
        ∧ profile r' = Some p
        ∧ length (sessions r') = Nat.min (length (sessions r) + length nows) k.
Proof.
  induction nows as [|now nows IH]; intros st r p k Hr Hp Hs Hk Hk1 Hm.
  - exists r. repeat split; try done. cbn. lia.
  - cbn [map]. change (run_events st (?e :: ?es)) with (run_events (step st e) es).
    assert (0 < totalSessions p)%Q as Hpos.
    { rewrite Hk. change 0%Q with (of_nat 0). unfold of_nat.
      rewrite <- Zlt_Qlt. lia. }
    pose proof (generateNextPlan_cases now st) as Hgen.
    rewrite Hr in Hgen. cbn [runProfile runLength] in Hgen.
    rewrite Hp in Hgen. cbn [default from_option Datatypes.id] in Hgen.
    rewrite (num_or_pos _ _ Hpos), Hk in Hgen.
    destruct Hgen as [[? _]|[(_ & Hlt & Hgen)|(_ & Hle & Hgen)]]; [done| |].
    + assert (length (sessions r) = k) as Hfull.
      { apply Qlt_not_le in Hlt. rewrite of_nat_le in Hlt. lia. }
      assert (step st (clickGenerate now) = st) as ->.
      { unfold step. cbn [handler]. by rewrite Hgen. }
      destruct (IH st r p k) as (r' & Hr' & Hp' & Hl'); try done.
      exists r'. repeat split; try done. cbn [length]. lia.
    + apply of_nat_le in Hle.
      assert (activeId (step st (clickGenerate now)) = activeId st) as Ha.
      { unfold step. cbn [handler]. by rewrite Hgen. }
      assert (findRun (activeId st) (runs (step st (clickGenerate now)))
              = Some (appendPlan (makePlan now p (lastFeedback (Some r))
                                    (length (sessions r) + 1)) r)) as Hr1.
      { unfold step. cbn [handler]. rewrite Hgen.
        cbn [commit fold_left apply_update runs].
        by apply (findRun_appendPlan _ _ _ _ Hr). }
      rewrite <- Ha in Hr1.
      destruct (IH _ _ p k Hr1) as (r' & Hr' & Hp' & Hl'); try done.
      { cbn. rewrite length_app. cbn. lia. }
      rewrite Ha in Hr'. exists r'. repeat split; try done.
      rewrite Hl'. cbn [appendPlan withSessions sessions length].
      rewrite length_app. cbn [length]. lia.
Qed.

Lemma generate_repeatedly_witness :
  ∃ r', findRun (activeId firstPlan)
          (runs (run_events firstPlan
                   (map clickGenerate ["day-2"; "day-3"; "day-4"]))) = Some r'
        ∧ profile r' = Some robotics
        ∧ length (sessions r')
          = Nat.min (length [makePlan "day-1" robotics None 1]
                     + length ["day-2"; "day-3"; "day-4"]) 2.
Proof.
  apply (generate_repeatedly ["day-2"; "day-3"; "day-4"] firstPlan
           {| id := "run-1"; profile := Some robotics;
              sessions := [makePlan "day-1" robotics None 1] |}
           robotics 2%nat);
    [reflexivity | reflexivity | discriminate | reflexivity | lia | cbn; lia].
Defined.

End MoreLifecycle.

(** ** Further properties: export and the student list *)

Section MoreForms.

Import RoundTrip.

Lemma nat_toString_inj_md (a b : nat) :
  nat_toString a +:+ ".md" = nat_toString b +:+ ".md" → a = b.
Proof.
  unfold nat_toString. intros H.
  apply (f_equal take_digits) in H.
  rewrite !take_digits_app in H by (done || apply all_digits_N_toString).
  injection H as H. apply (f_equal (digits_val 0)) in H.
  rewrite !N_toString_val in H. lia.
Qed.

(** X22: the export of a record is its plan text, under a file name that
    tells the records of a run apart: different session numbers give
    different names. *)
Theorem export_names_differ (s1 s2 : SessionRecord) :
  sessionNumber s1 ≠ sessionNumber s2 →
  (onDownload s1).1 ≠ (onDownload s2).1
  ∧ (onDownload s1).2 = planMd s1 ∧ (onDownload s2).2 = planMd s2.
Proof.
  intros Hne. split; [|done]. unfold onDownload. cbn [fst]. intros H.
  apply Hne, nat_toString_inj_md.
  by apply (inj (String.append "Session_")) in H.
Qed.

Lemma export_names_differ_witness :
  (onDownload (makePlan "day-1" robotics None 1)).1
  ≠ (onDownload (makePlan "day-2" robotics None 12)).1
  ∧ (onDownload (makePlan "day-1" robotics None 1)).2
    = planMd (makePlan "day-1" robotics None 1)
  ∧ (onDownload (makePlan "day-2" robotics None 12)).2
    = planMd (makePlan "day-2" robotics None 12).
Proof.
  apply (export_names_differ (makePlan "day-1" robotics None 1)
           (makePlan "day-2" robotics None 12)).
  cbn. lia.
Defined.

Lemma imap_shift {A} (k : nat) (l : list A) :
  imap ((fun idx x => ((k + idx)%nat, x)) ∘ S) l
  = imap (fun idx x => ((S k + idx)%nat, x)) l.
Proof. apply imap_ext. intros i x _. cbn. f_equal. lia. Qed.

Lemma keep_later {A} (l : list A) : ∀ (k j : nat),
  (j < k)%nat →
  (filter (fun ix => ix.1 ≠ j) (imap (fun idx x => ((k + idx)%nat, x)) l)).*2 = l.
Proof.
  induction l as [|x l IH]; intros k j Hj; [done|].
  cbn [imap]. rewrite filter_cons. cbn [fst].
  rewrite decide_True by lia. cbn [fmap list_fmap snd]. f_equal.
  rewrite imap_shift. apply IH. lia.
Qed.

Lemma dropIndex_from {A} (l : list A) : ∀ (k i : nat),
  (filter (fun ix => ix.1 ≠ (k + i)%nat)
          (imap (fun idx x => ((k + idx)%nat, x)) l)).*2
  = delete i l.
Proof.
  induction l as [|x l IH]; intros k i; [done|].
  cbn [imap]. rewrite filter_cons. cbn [fst]. rewrite imap_shift.
  destruct i as [|i].
  - rewrite decide_False by lia. cbn [delete list_delete].
    apply keep_later. lia.
  - rewrite decide_True by lia. cbn [fmap list_fmap snd delete list_delete].
    f_equal. replace (k + S i)%nat with (S k + i)%nat by lia. apply IH.
Qed.

Lemma delete_last {A} (l : list A) (x : A) :
  delete (length l) (l ++ [x]) = l.
Proof. induction l as [|y l IH]; [done|]. simpl. f_equal. exact IH. Qed.

Lemma dropIndex_delete {A} (i : nat) (l : list A) : dropIndex i l = delete i l.
Proof. apply (dropIndex_from l 0 i). Qed.



(** X24: an edit of student [i], one of the students shown, replaces
    that student and no other; "Add Student" appends one empty student,
    and removing the student just added gives the list back. *)
Theorem student_edits st (i : nat) (upd : StudentDetail) :
  let old := students (formProfile st) in
  let changed := students (formProfile (commit st (changeStudent i upd st))) in
  let st1 := commit st (addStudent st) in
  (i < length old)%nat →
  changed !! i = Some upd
  ∧ (∀ j, j ≠ i → changed !! j = old !! j)
  ∧ length changed = length old
  ∧ students (formProfile st1) = old ++ [emptyStudent]
  ∧ students (formProfile (commit st1 (removeStudent (length old) st1))) = old.
Proof.
  cbn zeta. unfold changeStudent, addStudent, removeStudent.
  cbn [commit fold_left apply_update formProfile withStudents students].
  intros Hi. repeat split.
  - by apply list_lookup_insert_eq.
  - intros j Hj. by apply list_lookup_insert_ne.
  - apply length_insert.
  - rewrite dropIndex_delete, delete_last.
    destruct (students (formProfile st)); [cbn in Hi; lia | done].
Qed.

Lemma student_edits_witness :
  let st := step (mounted "run-1") (editProfile robotics) in
  let upd := {| name := Some "Ada"; age := Some "11"; gender := None;
                interest := Some "drones"; passion := None;
                energy := Some "High"; notes := None |} in
  let old := students (formProfile st) in
  let changed := students (formProfile (commit st (changeStudent 0 upd st))) in
  let st1 := commit st (addStudent st) in
  changed !! 0%nat = Some upd
  ∧ (∀ j, j ≠ 0%nat → changed !! j = old !! j)
  ∧ length changed = length old
  ∧ students (formProfile st1) = old ++ [emptyStudent]
  ∧ students (formProfile (commit st1 (removeStudent (length old) st1))) = old.
Proof.
  apply (student_edits (step (mounted "run-1") (editProfile robotics)) 0
           {| name := Some "Ada"; age := Some "11"; gender := None;
              interest := Some "drones"; passion := None;
              energy := Some "High"; notes := None |}).
  cbn. lia.
Defined.

End MoreForms.

(** ** Further properties: the store follows the state *)

Section MoreStore.

Import RoundTrip.

Lemma runs_ok_forall (rs : list ClassRun) :
  runs_ok rs = true ↔ ∀ r, r ∈ rs → run_ok r = true.
Proof.
  unfold runs_ok. rewrite forallb_forall.
  split; intros H r Hr; apply H; by apply list_elem_of_In.
Qed.

Lemma runs_ok_elem (rs : list ClassRun) r :
  runs_ok rs = true → r ∈ rs → run_ok r = true.
Proof. intros H. by apply runs_ok_forall. Qed.

Lemma runs_ok_mapActive aid (f : ClassRun → ClassRun) rs :
  runs_ok rs = true →
  (∀ r, r ∈ rs → id r = aid → run_ok (f r) = true) →
  runs_ok (mapActive aid f rs) = true.
Proof.
  rewrite !runs_ok_forall. intros Hrs Hf r'.
  intros [[Hin _]|(r & Hin & Hid & ->)]%elem_of_mapActive; auto.
Qed.

Lemma run_ok_appendPlan now p fb k r :
  run_ok r = true → run_ok (appendPlan (makePlan now p fb k) r) = true.
Proof.
  unfold run_ok. cbn. intros [-> Hs]%andb_true_iff. cbn.
  by rewrite forallb_app, Hs.
Qed.

Lemma run_ok_attachFeedback fb r :
  feedback_ok fb = true → run_ok r = true →
  run_ok (attachFeedback fb r) = true.
Proof.
  unfold run_ok. cbn. intros Hfb [-> Hs]%andb_true_iff. cbn.
  rewrite forallb_forall in Hs. apply forallb_forall.
  intros s' Hin. apply list_elem_of_In, list_elem_of_lookup in Hin as [i Hi].
  rewrite list_lookup_imap in Hi.
  destruct (sessions r !! i) as [s|] eqn:E; [|done]. cbn in Hi.
  injection Hi as <-. destruct (i =? _)%nat; [done|].
  apply Hs, list_elem_of_In, list_elem_of_lookup. eauto.
Qed.

Lemma storable_step st ev :
  storable st → storable_event ev → storable (step st ev).
Proof.
  intros (Hruns & Hpf & Hfb) Hev. destruct ev.
  - unfold step. cbn [handler].
    destruct (generateNextPlan_cases now st) as [[_ ->]|[(_ & _ & ->)|(_ & _ & ->)]];
      [done..|].
    split; [|done]. cbn [commit fold_left apply_update runs].
    apply runs_ok_mapActive; [done|]. intros r Hin _.
    apply (run_ok_appendPlan now). by eapply runs_ok_elem.
  - destruct (findRun (activeId st) (runs st)) as [ra|] eqn:Ha; last first.
    { unfold step. cbn [handler].
      by rewrite submit_refused by (intros ?; by rewrite Ha). }
    destruct (decide (sessions ra = [])) as [Hs|Hs].
    { unfold step. cbn [handler].
      by rewrite submit_refused by (intros ?; rewrite Ha; by intros [= <-]). }
    pose proof (findRun_Some _ _ _ Ha) as [Hid Hin].
    assert (run_ok (attachFeedback (formFeedback st) ra) = true) as Hfed.
    { apply run_ok_attachFeedback; [done|]. by eapply runs_ok_elem. }
    assert (runs_ok (mapActive (activeId st)
                       (fun _ => attachFeedback (formFeedback st) ra) (runs st))
            = true) as Hruns1 by (by apply runs_ok_mapActive).
    unfold step. cbn [handler].
    rewrite (submit_updates _ _ _ Ha Hs), commit_app.
    destruct (generateNextPlan_cases now st) as [[_ ->]|[(_ & _ & ->)|(_ & _ & ->)]];
      [done..|].
    split; [|done]. cbn [commit fold_left apply_update runs].
    apply runs_ok_mapActive; [done|]. intros r Hr _.
    apply (run_ok_appendPlan now). by eapply runs_ok_elem.
  - split; [|done].
    unfold step. cbn [handler saveProfile commit fold_left apply_update runs].
    apply runs_ok_mapActive; [done|]. intros r Hin _.
    unfold run_ok. cbn. rewrite Hpf. cbn.
    pose proof (runs_ok_elem _ _ Hruns Hin) as Hr.
    unfold run_ok in Hr. by apply andb_true_iff in Hr as [_ ?].
  - split; [|done].
    unfold step. cbn [handler newClassRun commit fold_left apply_update runs].
    apply andb_true_iff. split; [reflexivity | exact Hruns].
  - destruct confirmed; [|done].
    assert (runs_ok (filter (fun r => id r ≠ rid) (runs st)) = true) as Hf.
    { apply runs_ok_forall. intros r [_ Hin]%list_elem_of_filter.
      by eapply runs_ok_elem. }
    unfold step. cbn [handler]. unfold deleteRun. cbn [negb].
    destruct (filter (fun r => id r ≠ rid) (runs st)) as [|r0 rest] eqn:E; [done|].
    assert (profile_ok (default newEmptyProfile (profile r0)) = true) as Hp0.
    { apply andb_true_iff in Hf as [Hr0 _]. unfold run_ok in Hr0.
      apply andb_true_iff in Hr0 as [Hr0 _]. by destruct (profile r0). }
    case_bool_decide; [|done]. done.
  - unfold step. cbn [handler].
    destruct (runs st !! i) as [r0|] eqn:E; [|done].
    split; [done|]. split; [|done].
    cbn [commit fold_left apply_update formProfile from_option selectRun].
    apply list_elem_of_lookup_2 in E.
    pose proof (runs_ok_elem _ _ Hruns E) as Hr.
    unfold run_ok in Hr. apply andb_true_iff in Hr as [Hr0 _].
    by destruct (profile r0).
  - done.
  - done.
Qed.

Lemma reload (rs : list ClassRun) :
  runs_ok rs = true → runs_of_js (loadRuns (saveRuns rs)) = Some rs.
Proof.
  intros Hok. unfold loadRuns, saveRuns.
  cbn [default from_option Datatypes.id].
  assert (∃ t, stringify (js_of_runs rs) = String "[" t) as [t Ht]
    by (eexists; reflexivity).
  replace (str_or (stringify (js_of_runs rs)) "[]")
    with (stringify (js_of_runs rs)) by (by rewrite Ht).
  rewrite (parse_stringify _ (json_ok_runs _ Hok)). cbn [falsy js_of_runs].
  apply runs_of_js_of.
Qed.

(** X25: the store can always be read back: starting from a state whose
    numbers can be stored, and with such numbers typed into the forms,
    every operation leaves the numbers of the state storable, and after
    any sequence of operations the saved text loads as the runs of the
    state. *)
Theorem store_follows_state st evs :
  storable st → Forall storable_event evs →
  storable (run_events st evs)
  ∧ runs_of_js (loadRuns (persisted (run_events st evs)))
    = Some (runs (run_events st evs)).
Proof.
  intros Hst Hevs.
  assert (storable (run_events st evs)) as Hend.
  { revert st Hst. induction Hevs as [|ev evs Hev _ IH]; intros st Hst; [done|].
    apply (IH (step st ev)). by apply storable_step. }
  split; [done|]. apply reload. by destruct Hend.
Qed.

Lemma store_follows_state_witness :
  storable (run_events (mounted "run-1")
    [editProfile halfHour; clickSaveProfile; clickGenerate "day-1";
     editFeedback lowFeedback; clickSubmitFeedback "day-2";
     clickNewClass "run-2"])
  ∧ runs_of_js (loadRuns (persisted (run_events (mounted "run-1")
    [editProfile halfHour; clickSaveProfile; clickGenerate "day-1";
     editFeedback lowFeedback; clickSubmitFeedback "day-2";
     clickNewClass "run-2"])))
  = Some (runs (run_events (mounted "run-1")
    [editProfile halfHour; clickSaveProfile; clickGenerate "day-1";
     editFeedback lowFeedback; clickSubmitFeedback "day-2";
     clickNewClass "run-2"])).
Proof.
  apply (store_follows_state (mounted "run-1")
    [editProfile halfHour; clickSaveProfile; clickGenerate "day-1";
     editFeedback lowFeedback; clickSubmitFeedback "day-2";
     clickNewClass "run-2"]).
  - repeat split.
  - repeat constructor.
Defined.

Lemma Number_toString_whole (z : Z) : Number_toString (inject_Z z) = Z_toString z.
Proof.
  unfold Number_toString, Z_toString. cbn [Qnum Qden inject_Z].
  rewrite N.mod_1_r, N.div_1_r. cbn [N.eqb]. by rewrite append_nil_r.
Qed.

(** X26: a whole number below [10^15] is written to the store with the
    digits the host prints for it: on these numbers the decimal text of
    the store's model is the host's [ToString], and the number is a
    binary64 value as it stands. *)
Theorem stored_whole_numbers (z : Z) :
  - 10 ^ 15 < z < 10 ^ 15 →
  Number_of (inject_Z z) = whole z
  ∧ stringify (JNum (inject_Z z)) = ToString (Number_of (inject_Z z))
  ∧ stringify (JNum (inject_Z z)) = Z_toString z.
Proof.
  intros Hz.
  assert (Number_of (inject_Z z) = whole z) as Hn.
  { apply Number_of_whole; [done|].
    change (10 ^ 15) with 1000000000000000 in Hz.
    change (2 ^ 53) with 9007199254740992. lia. }
  split; [done|]. rewrite Hn, ToString_whole by done.
  cbn [stringify]. by rewrite Number_toString_whole.
Qed.

Lemma stored_whole_numbers_witness :
  Number_of (inject_Z 12) = whole 12
  ∧ stringify (JNum (inject_Z 12)) = ToString (Number_of (inject_Z 12))
  ∧ stringify (JNum (inject_Z 12)) = Z_toString 12.
Proof. apply (stored_whole_numbers 12). vm_compute. split; reflexivity. Defined.

End MoreStore.
